(** * wvtagconvert: the Wikivoyage listing converter, embedded in Rocq

    A shallow embedding of [src/wvtagconvert.py]: the field sanitizer
    ([Wikiparser]), the three extractors ([Tag], [Vcard], [Untagged]),
    the two serializers and the top-level [parse_wikicode].

    Python strings are modelled as [string] (8-bit characters, ASCII
    case mapping), dictionaries as [gmap string string], exceptions as
    an explicit result type.  The collaborators that live outside
    [wvtagconvert.py] (heuristics, translation, ElementSoup, utils) are
    fields of an environment record. *)

From Stdlib Require Import Ascii.
From stdpp Require Import gmap strings list fin_maps sorting.

Local Open Scope stdpp_scope.

(** ** Exceptions and results *)

Inductive exn : Type :=
  | ValueError (msg : string)
  | IndexError
  | KeyError (key : string)
  | TypeError
  | AttributeError (name : string).

Inductive res (A : Type) : Type :=
  | Ok (a : A)
  | Raise (e : exn).
Arguments Ok {A} a.
Arguments Raise {A} e.

Global Instance res_ret : MRet res := λ A a, Ok a.
Global Instance res_bind : MBind res := λ A B f m,
  match m with Ok a => f a | Raise e => Raise e end.
Global Instance res_fmap : FMap res := λ A B f m,
  match m with Ok a => Ok (f a) | Raise e => Raise e end.

(** ** Python string operations *)

Module Py.

Definition dq : string := String "034" "".

Definition is_empty (s : string) : bool :=
  match s with "" => true | _ => false end.

(** [c in chars] for a one-character [c]. *)
Fixpoint mem (c : ascii) (chars : string) : bool :=
  match chars with
  | "" => false
  | String x r => if Ascii.eqb c x then true else mem c r
  end.

Fixpoint lstrip_by (p : ascii → bool) (s : string) : string :=
  match s with
  | "" => ""
  | String c r => if p c then lstrip_by p r else s
  end.

Fixpoint rstrip_by (p : ascii → bool) (s : string) : string :=
  match s with
  | "" => ""
  | String c r =>
      match rstrip_by p r with
      | "" => if p c then "" else String c ""
      | r' => String c r'
      end
  end.

(** [s.lstrip(chars)], [s.rstrip(chars)], [s.strip(chars)]. *)
Definition lstrip (chars s : string) : string := lstrip_by (λ c, mem c chars) s.
Definition rstrip (chars s : string) : string := rstrip_by (λ c, mem c chars) s.
Definition strip (chars s : string) : string := rstrip chars (lstrip chars s).

(** [s.strip()]: the whitespace of a byte string. *)
Definition strip_ws (s : string) : string :=
  rstrip_by Ascii.is_space (lstrip_by Ascii.is_space s).

Fixpoint startswith (p s : string) : bool :=
  match p, s with
  | "", _ => true
  | String a p', String b s' => if Ascii.eqb a b then startswith p' s' else false
  | String _ _, "" => false
  end.

(** [sub in s]. *)
Fixpoint contains (sub s : string) : bool :=
  match s with
  | "" => is_empty sub
  | String _ r => if startswith sub s then true else contains sub r
  end.

Fixpoint drop (n : nat) (s : string) : string :=
  match n, s with
  | 0, _ => s
  | S n', String _ r => drop n' r
  | S _, "" => ""
  end.

(** The split at the first occurrence of [sep]: [s.partition(sep)]
    without the separator, [None] when [sep] does not occur. *)
Fixpoint split_once (sep s : string) : option (string * string) :=
  if startswith sep s then Some ("", drop (String.length sep) s)
  else match s with
       | "" => None
       | String c r =>
           match split_once sep r with
           | Some (a, b) => Some (String c a, b)
           | None => None
           end
       end.

(** [s.split(sep, 1)]. *)
Definition split1 (sep s : string) : list string :=
  match split_once sep s with
  | Some (a, b) => [a; b]
  | None => [s]
  end.

Fixpoint split_fuel (n : nat) (sep s : string) : list string :=
  match n with
  | 0 => [s]
  | S n' =>
      match split_once sep s with
      | Some (a, b) => a :: split_fuel n' sep b
      | None => [s]
      end
  end.

(** [s.split(sep)] for a non-empty [sep]: every piece removes at least
    one character, so [length s] rounds suffice. *)
Definition split (sep s : string) : list string :=
  split_fuel (String.length s) sep s.

(** [s.count(sub)] and [s.replace(old, new)] for a non-empty pattern:
    leftmost non-overlapping occurrences; [skip] is the number of
    characters of the current occurrence still to pass over. *)
Fixpoint count_from (skip : nat) (sub s : string) : nat :=
  match s with
  | "" => 0
  | String _ r =>
      match skip with
      | S k => count_from k sub r
      | 0 => if startswith sub s
             then S (count_from (String.length sub - 1) sub r)
             else count_from 0 sub r
      end
  end.
Definition count (sub s : string) : nat := count_from 0 sub s.

Fixpoint replace_from (skip : nat) (old new s : string) : string :=
  match s with
  | "" => ""
  | String c r =>
      match skip with
      | S k => replace_from k old new r
      | 0 => if startswith old s
             then new +:+ replace_from (String.length old - 1) old new r
             else String c (replace_from 0 old new r)
      end
  end.
Definition replace (old new s : string) : string := replace_from 0 old new s.

Definition upper_char (c : ascii) : ascii :=
  let n := nat_of_ascii c in
  if (97 <=? n) && (n <=? 122) then ascii_of_nat (n - 32) else c.
Definition lower_char (c : ascii) : ascii :=
  let n := nat_of_ascii c in
  if (65 <=? n) && (n <=? 90) then ascii_of_nat (n + 32) else c.

Fixpoint lower (s : string) : string :=
  match s with
  | "" => ""
  | String c r => String (lower_char c) (lower r)
  end.

(** [s[-1]]. *)
Fixpoint last (s : string) : option ascii :=
  match s with
  | "" => None
  | String c "" => Some c
  | String _ r => last r
  end.

End Py.

(** ** Regular expressions: the part of Python's [re] the program uses

    A backtracking matcher with Python's priorities (leftmost match,
    alternatives in order, greedy or lazy repetition), the flags
    IGNORECASE, MULTILINE and DOTALL, groups and back-references. *)

Module Re.

Record flags := Flags { ignorecase : bool; multiline : bool; dotall : bool }.

Inductive regex : Type :=
  | Eps
  | Chr (c : ascii)
  | Dot
  | Set_ (chars : string)
  | Space
  | Seq (r1 r2 : regex)
  | Alt (r1 r2 : regex)
  | Rep (greedy : bool) (lo : nat) (hi : option nat) (r : regex)
  | Group (n : nat) (r : regex)
  | Backref (n : nat)
  | Bol
  | Eol.
Arguments Chr c%_char.

Fixpoint Lit (s : string) : regex :=
  match s with
  | "" => Eps
  | String c r => Seq (Chr c) (Lit r)
  end.

Fixpoint Alts (rs : list regex) : regex :=
  match rs with
  | [] => Eps
  | [r] => r
  | r :: rs' => Alt r (Alts rs')
  end.

(** A position in the subject: the character before it, the text
    from it on, and the groups captured so far. *)
Record pos := Pos { before : option ascii; rest : string; groups : list (nat * string) }.

Fixpoint take (n : nat) (s : string) : string :=
  match n, s with
  | S n', String c r => String c (take n' r)
  | _, _ => ""
  end.

(** The text between two positions of the same subject. *)
Definition between (p q : pos) : string :=
  take (String.length (rest p) - String.length (rest q)) (rest p).

Definition group (n : nat) (gs : list (nat * string)) : option string :=
  snd <$> List.find (λ g, Nat.eqb (fst g) n) gs.

Definition chr_eq (f : flags) (a b : ascii) : bool :=
  if ignorecase f then Ascii.eqb (Py.lower_char a) (Py.lower_char b)
  else Ascii.eqb a b.

Definition newline : ascii := "010"%char.

Definition step (p : pos) (ok : ascii → bool) : option pos :=
  match rest p with
  | String c r => if ok c then Some (Pos (Some c) r (groups p)) else None
  | "" => None
  end.

Fixpoint eat (f : flags) (s : string) (p : pos) : option pos :=
  match s with
  | "" => Some p
  | String c s' =>
      match step p (chr_eq f c) with
      | Some p' => eat f s' p'
      | None => None
      end
  end.

Definition at_bol (f : flags) (p : pos) : bool :=
  match before p with
  | None => true
  | Some c => multiline f && Ascii.eqb c newline
  end.

Definition at_eol (f : flags) (p : pos) : bool :=
  match rest p with
  | "" => true
  | String c "" => Ascii.eqb c newline
  | String c _ => multiline f && Ascii.eqb c newline
  end.

Definition within (cnt : nat) (hi : option nat) : bool :=
  match hi with Some h => cnt <? h | None => true end.

(** [run f r p k]: match [r] at [p], then continue with [k]; the
    first success in Python's order of preference is returned. *)
Fixpoint run {A} (f : flags) (r : regex) (p : pos) (k : pos → option A) : option A :=
  match r with
  | Eps => k p
  | Chr c => match step p (chr_eq f c) with Some p' => k p' | None => None end
  | Dot =>
      match step p (λ c, dotall f || negb (Ascii.eqb c newline)) with
      | Some p' => k p' | None => None
      end
  | Set_ cs => match step p (λ c, Py.mem c cs) with Some p' => k p' | None => None end
  | Space => match step p Ascii.is_space with Some p' => k p' | None => None end
  | Seq r1 r2 => run f r1 p (λ p', run f r2 p' k)
  | Alt r1 r2 =>
      match run f r1 p k with
      | Some a => Some a
      | None => run f r2 p k
      end
  | Rep greedy lo hi r' =>
      (fix loop (fuel cnt : nat) (p : pos) {struct fuel} : option A :=
         match fuel with
         | 0 => if lo <=? cnt then k p else None
         | S fuel' =>
             if greedy then
               match
                 (if within cnt hi then
                    run f r' p (λ p',
                      if (String.length (rest p') <? String.length (rest p)) || (cnt <? lo)
                      then loop fuel' (S cnt) p' else None)
                  else None)
               with
               | Some a => Some a
               | None => if lo <=? cnt then k p else None
               end
             else
               match (if lo <=? cnt then k p else None) with
               | Some a => Some a
               | None =>
                   if within cnt hi then
                     run f r' p (λ p',
                       if (String.length (rest p') <? String.length (rest p)) || (cnt <? lo)
                       then loop fuel' (S cnt) p' else None)
                   else None
               end
         end) (String.length (rest p) + lo) 0 p
  | Group n r' => run f r' p (λ p', k (Pos (before p') (rest p') ((n, between p p') :: groups p')))
  | Backref n =>
      match group n (groups p) with
      | Some s => match eat f s p with Some p' => k p' | None => None end
      | None => None
      end
  | Bol => if at_bol f p then k p else None
  | Eol => if at_eol f p then k p else None
  end.

(** One match: the matched text and its groups. *)
Record found := Found { whole : string; captured : list (nat * string) }.

Definition match_at (f : flags) (r : regex) (b : option ascii) (s : string) : option found :=
  let p := Pos b s [] in
  run f r p (λ q, Some (Found (between p q) (groups q))).

(** The leftmost non-overlapping matches, as [re.finditer] yields
    them; [skip] counts the characters of the last match still to
    pass over. *)
Fixpoint scan (f : flags) (r : regex) (skip : nat) (b : option ascii) (s : string) : list found :=
  match skip with
  | S k =>
      match s with
      | String c s' => scan f r k (Some c) s'
      | "" => []
      end
  | 0 =>
      match match_at f r b s with
      | Some m =>
          m :: match s with
               | String c s' => scan f r (String.length (whole m) - 1) (Some c) s'
               | "" => []
               end
      | None =>
          match s with
          | String c s' => scan f r 0 (Some c) s'
          | "" => []
          end
      end
  end.

Definition finditer (f : flags) (r : regex) (s : string) : list found := scan f r 0 None s.

(** [re.sub(r, repl, s)] for a pattern that matches no empty text. *)
Fixpoint sub_from (f : flags) (r : regex) (repl : string) (skip : nat)
    (b : option ascii) (s : string) : string :=
  match s with
  | "" => ""
  | String c s' =>
      match skip with
      | S k => sub_from f r repl k (Some c) s'
      | 0 =>
          match match_at f r b s with
          | Some m =>
              match String.length (whole m) with
              | S n => repl +:+ sub_from f r repl n (Some c) s'
              | 0 => String c (sub_from f r repl 0 (Some c) s')
              end
          | None => String c (sub_from f r repl 0 (Some c) s')
          end
      end
  end.

Definition sub (f : flags) (r : regex) (repl s : string) : string :=
  sub_from f r repl 0 None s.

Definition no_flags : flags := Flags false false false.

End Re.

(** ** The collaborators

    [wvtagconvert.py] imports [heuristics], [translation], [utils] and
    [ElementSoup]; none of them is part of the sources at hand.  Their
    functions are the fields of an environment, over which the program
    is parametric. *)

(** What [ElementSoup.parse] returns: an element with its tag, its
    attributes ([t.items()]), its text ([None] or a string) and its
    children. *)
#[warnings="-register-all"]
Inductive element : Type :=
  Element (tag : string) (items : list (string * string))
          (text : option string) (children : list element).

Definition tag (t : element) : string := let 'Element x _ _ _ := t in x.
Definition items (t : element) : list (string * string) := let 'Element _ x _ _ := t in x.
Definition text (t : element) : option string := let 'Element _ _ x _ := t in x.
Definition children (t : element) : list element := let 'Element _ _ _ x := t in x.

Record Env : Type := {
  (** [utils] *)
  squeeze : string → string;
  html_decode : string → string;
  (** [TolerantFormatter().format(template, **d)] *)
  tolerant_format : string → gmap string string → string;
  (** [ElementSoup.parse(StringIO(s), encoding='utf8')] *)
  soup_parse : string → element;
  (** [json.dumps] *)
  json_dumps : gmap string string → string;
  (** a language module of [translation] *)
  language : Type;
  (** [__import__('translation.' + key)]: [None] stands for ImportError *)
  import_language : string → option language;
  english : language;
  translate_vcard : language → gmap string string → gmap string string;
  (** [getattr(language, 'format_vcard', ...)] and its default *)
  format_vcard : language → option (gmap string string → string);
  common_format_vcard : gmap string string → string;
  (** [heuristics] *)
  determine_tagtype : string → language → string * string;
  chunkify : string → language → list string;
  chunk_filter : Type;
  get_chunk_filter : language → chunk_filter;
  classify_chunk : string → chunk_filter → nat → string;
  merge_chunks : list string → string → string;
  (** Python's object model: what [getattr(cls, name)] finds under a
      name that starts with two underscores.  [None]: no such attribute
      ([__foo]).  [Some None]: an attribute that raises [TypeError] when
      called with one string ([__doc__], [__mro__], [__new__]).
      [Some (Some f)]: an attribute whose call returns ([__class__],
      [__init__]), [f] giving the value it returns, as text. *)
  dunder_attr : string → option (option (string → string))
}.

(** [dict(pairs)]: later pairs overwrite earlier ones. *)
Definition dict (pairs : list (string * string)) : gmap string string :=
  list_to_map (reverse pairs).

(** The classes of the program, as receivers of [getattr(cls, name)]. *)
Inductive klass : Type := CWikiparser | CUntagged | CVcard | CTag.

(** ** The field sanitizer: [class Wikiparser] *)

Module Wikiparser.

(** [Wikiparser.item_lookup]. *)
Definition item_lookup : gmap string string :=
  {[ "phone" := "numbers"; "mobile" := "numbers";
     "fax" := "numbers"; "fax-mobile" := "numbers" ]}.

(** [string.ascii_letters]. *)
Definition ascii_letters : string :=
  "abcdefghijklmnopqrstuvwxyzABCDEFGHIJKLMNOPQRSTUVWXYZ".

(** The pattern [\(\s*0\s*\)]. *)
Definition paren_zero : Re.regex :=
  Re.Seq (Re.Chr "(")
    (Re.Seq (Re.Rep true 0 None Re.Space)
       (Re.Seq (Re.Chr "0") (Re.Seq (Re.Rep true 0 None Re.Space) (Re.Chr ")")))).

(** The pattern [[()/.\\-]]. *)
Definition separators : Re.regex := Re.Set_ "()/.\-".

(** [Wikiparser.description]: indexing the value with [-1] after the
    emphasis markers were removed raises [IndexError] when nothing is
    left. *)
Definition description (description : string) : res string :=
  let description := Py.lstrip ";., " description in
  if Py.is_empty description then Ok description
  else
    let description :=
      match description with
      | String c r => String (Py.upper_char c) r
      | "" => ""
      end in
    let description :=
      if Py.count "'''" description =? 1
      then Py.replace "'''" "" description else description in
    let description :=
      if Py.count "''" description =? 1
      then Py.replace "''" "" description else description in
    match Py.last description with
    | None => Raise IndexError
    | Some c =>
        if Py.mem c ".!?" then Ok description
        else Ok (description +:+ ".")
    end.

(** [Wikiparser.directions]. *)
Definition directions (directions : string) : string :=
  Py.strip_ws (Py.replace "'" "" directions).

(** The first half of [Wikiparser.url]: the wiki-link brackets and the
    link text are removed. *)
Definition url_unwrap (url : string) : string :=
  if Py.startswith "[" url then
    let url := Py.strip "[] " url in
    if Py.contains " " url then default "" (Py.split1 " " url !! 0) else url
  else url.

(** [Wikiparser.url]. *)
Definition url (url : string) : string :=
  let url := url_unwrap url in
  if negb (Py.startswith "http://" url) && negb (Py.contains "//" url)
  then "http://" +:+ url
  else url.

(** [Wikiparser.email]. *)
Definition email (email : string) : string :=
  let email :=
    if Py.contains ":" email
    then Py.strip_ws (default "" (Py.split1 ":" email !! 1))
    else email in
  Py.replace "'" "" (default "" (Py.split " " email !! 0)).

Section WithEnv.
Context (E : Env).

(** [Wikiparser.numbers].  [tuple('+(0123456789'.split())] is the
    one-element tuple holding the whole literal; [number[1]] raises
    [IndexError] on a one-character value. *)
Definition numbers (number : string) : res string :=
  let number := Py.lstrip ";., " number in
  let number :=
    if Py.contains "+" number
    then "+" +:+ default "" (Py.split1 "+" number !! 1)
    else if negb (Py.startswith "+(0123456789" number)
    then Py.lstrip (ascii_letters +:+ " :/") number
    else number in
  if Py.is_empty number then Ok number
  else
    let number :=
      if negb (Py.startswith "(" number)
      then Re.sub Re.no_flags paren_zero " " number else number in
    let number := Re.sub Re.no_flags separators " " number in
    let number := squeeze E number in
    number ←
      match number with
      | "" => Raise IndexError
      | String c0 tl =>
          if Ascii.eqb c0 "0" then
            match tl with
            | "" => Raise IndexError
            | String c1 tl' =>
                if Ascii.eqb c1 " " then Ok ("0" +:+ tl') else Ok number
            end
          else Ok number
      end;
    Ok (Py.replace "'" "" number).

(** [Wikiparser.price]. *)
Definition price (price : string) : res string :=
  match price with
  | "" => Raise IndexError
  | String c r => Ok (String (Py.upper_char c) (Py.rstrip "., " r))
  end.

(** [Wikiparser.default]. *)
Definition default_ (val : string) : string := val.

(** What [getattr(cls, name, cls.default)] finds, as far as calling
    it with one string goes. *)
Inductive attr : Type :=
  | Sanitizer (f : string → res string)
  | NotSanitizer
  | Absent.

(** The attributes of the four classes.  The class methods that take
    more arguments ([read], [parse], [tostring], [sanitize_item]) and
    the class constants are found by [getattr] and fail when called
    with one string; so does [mro], which every class has.  The other
    attributes every class has start with two underscores and are those
    of the environment; any other name is no attribute, and [getattr]
    returns [cls.default] for it. *)
Definition own_attr (cls : klass) (name : string) : bool :=
  match cls with
  | CWikiparser => false
  | CUntagged =>
      bool_decide (name ∈ ["search"; "search_generous"; "unique_items"; "read"; "parse"])
  | CVcard => bool_decide (name ∈ ["search"; "read"; "tostring"; "parse"])
  | CTag =>
      bool_decide (name ∈ ["types"; "search"; "fields"; "template"; "template_sleep";
                           "xml_header"; "formatter"; "tagtype_translation";
                           "read"; "tostring"; "parse"])
  end.

Definition getattr (cls : klass) (name : string) : attr :=
  if bool_decide (name = "description") then Sanitizer description
  else if bool_decide (name = "directions") then Sanitizer (λ v, Ok (directions v))
  else if bool_decide (name = "numbers") then Sanitizer numbers
  else if bool_decide (name = "url") then Sanitizer (λ v, Ok (url v))
  else if bool_decide (name = "email") then Sanitizer (λ v, Ok (email v))
  else if bool_decide (name = "price") then Sanitizer price
  else if bool_decide (name = "default") then Sanitizer (λ v, Ok (default_ v))
  else if bool_decide (name ∈ ["item_lookup"; "sanitize_item"; "sanitize"; "mro"])
  then NotSanitizer
  else if Py.startswith "__" name then
    match dunder_attr E name with
    | Some (Some f) => Sanitizer (λ v, Ok (f v))
    | Some None => NotSanitizer
    | None => Absent
    end
  else if own_attr cls name then NotSanitizer
  else Absent.

(** [Wikiparser.sanitize_item]. *)
Definition sanitize_item (cls : klass) (key val : string) : res (string * string) :=
  let key := squeeze E key in
  let val := squeeze E val in
  if Py.is_empty val then Ok (key, val)
  else
    let func_name := default key (item_lookup !! key) in
    let func_name :=
      if Py.startswith "sanitize" func_name then "default" else func_name in
    val ←
      match getattr cls func_name with
      | Sanitizer f => f val
      | NotSanitizer => Raise TypeError
      | Absent => Ok (default_ val)
      end;
    Ok (key, val).

(** [Wikiparser.sanitize]: the items are sanitized in the order the
    dictionary yields them; the first failure ends the pass. *)
Definition sanitize (cls : klass) (d : gmap string string) : res (gmap string string) :=
  pairs ← mapM (λ kv, sanitize_item cls kv.1 kv.2) (map_to_list d);
  Ok (dict pairs).

End WithEnv.

End Wikiparser.


(** ** The heuristic extractor: [class Untagged] *)

Module Untagged.

Definition flags : Re.flags := Re.Flags false true false.

Definition lead_in : Re.regex :=
  Re.Rep true 0 (Some 1)
    (Re.Seq (Re.Chr "*")
       (Re.Seq (Re.Rep true 0 None (Re.Set_ ":*")) (Re.Rep true 0 (Some 3) Re.Space))).

(** [Untagged.search]. *)
Definition search : Re.regex :=
  Re.Seq Re.Bol
    (Re.Seq lead_in
       (Re.Seq (Re.Lit "'''")
          (Re.Seq (Re.Rep true 3 (Some 40) Re.Dot)
             (Re.Seq (Re.Lit "'''")
                (Re.Seq (Re.Set_ ",. ") (Re.Rep true 20 (Some 2000) Re.Dot)))))).

(** [Untagged.search_generous]. *)
Definition search_generous : Re.regex :=
  Re.Seq Re.Bol
    (Re.Seq lead_in
       (Re.Seq (Re.Rep true 3 (Some 40) Re.Dot)
          (Re.Seq (Re.Set_ ",. ") (Re.Rep true 20 (Some 2000) Re.Dot)))).

Definition unique_items : list string :=
  ["name"; "address"; "phone"; "fax"; "email"; "url"].

(** [sorted(pairs, key=operator.itemgetter(0))]: a stable sort on the
    labels. *)
Fixpoint insert_sorted (x : string * string) (l : list (string * string)) :=
  match l with
  | [] => [x]
  | y :: l' => if String.ltb y.1 x.1 then y :: insert_sorted x l' else x :: l
  end.
Definition sorted (l : list (string * string)) : list (string * string) :=
  foldr insert_sorted [] l.

(** [itertools.groupby(pairs, key=operator.itemgetter(0))], each group
    with the second components of its pairs. *)
Fixpoint groupby (l : list (string * string)) : list (string * list string) :=
  match l with
  | [] => []
  | (k, v) :: l' =>
      match groupby l' with
      | (k', g) :: gs =>
          if bool_decide (k = k') then (k, v :: g) :: gs
          else (k, [v]) :: (k', g) :: gs
      | [] => [(k, [v])]
      end
  end.

Section WithEnv.
Context (E : Env).

(** [zip(chunk_types, chunks)]: every chunk with its label, in the order
    of the text. *)
Definition labelled (untagged_str : string) (lang : language E)
    : list (string * string) :=
  let chunks := chunkify E untagged_str lang in
  let cf := get_chunk_filter E lang in
  let chunk_types := imap (λ pos chunk, classify_chunk E chunk cf pos) chunks in
  zip chunk_types chunks.

(** The grouping step of [Untagged.read]: the first chunk of a
    unique label, the merged chunks of any other. *)
Definition grouped (untagged_str : string) (lang : language E)
    : list (string * string) :=
  (λ kg : string * list string,
     (kg.1, if bool_decide (kg.1 ∈ unique_items)
            then default "" (head kg.2)
            else merge_chunks E kg.2 untagged_str))
    <$> groupby (sorted (labelled untagged_str lang)).

(** [Untagged.read]. *)
Definition read (untagged_str : string) (lang : language E)
    : res (gmap string string) :=
  let tag_type := determine_tagtype E untagged_str lang in
  let d := dict (grouped untagged_str lang) in
  let d := <["type" := tag_type.1]> d in
  let d := <["subtype" := tag_type.2]> d in
  Wikiparser.sanitize E CUntagged d.

(** [Untagged.parse]. *)
Definition parse (line : string) (lang : language E) (restrictive : bool)
    : res (list (gmap string string)) :=
  let lst :=
    Re.whole <$> Re.finditer flags (if restrictive then search else search_generous) line in
  mapM (λ l, read l lang) lst.

End WithEnv.

End Untagged.

(** ** The card dialect: [class Vcard] *)

Module Vcard.

Definition flags : Re.flags := Re.Flags true true false.

(** [Vcard.search]. *)
Definition search : Re.regex :=
  Re.Seq (Re.Lit "{{vcard")
    (Re.Seq (Re.Rep true 0 None Re.Space)
       (Re.Seq (Re.Chr "|")
          (Re.Seq (Re.Rep true 1 None Re.Dot)
             (Re.Seq (Re.Lit "}}") (Re.Seq (Re.Rep true 0 None Re.Dot) Re.Eol))))).

Section WithEnv.
Context (E : Env).

(** One [key=value] part: [(p[0].strip().lower(), p[1])]. *)
Definition pair_of (pt : string) : res (string * string) :=
  match Py.split "=" pt with
  | p0 :: p1 :: _ => Ok (Py.lower (Py.strip_ws p0), p1)
  | _ => Raise IndexError
  end.

(** The pairs of a card, its name part left out. *)
Definition pairs (vcard_str : string) : res (list (string * string)) :=
  mapM pair_of (List.tl (Py.split "|" (Py.strip "{},. " vcard_str))).

(** [Vcard.read]. *)
Definition read (vcard_str : string) (lang : language E)
    : res (gmap string string) :=
  match Py.split1 "}}" vcard_str with
  | [vcard_str; description] =>
      pairs ← pairs vcard_str;
      let d := dict pairs in
      let d :=
        match d !! "description" with
        | Some _ => d
        | None => <["description" := description]> d
        end in
      let description := default "" (d !! "description") in
      let d :=
        if Py.is_empty (default "" (d !! "subtype")) && negb (Py.is_empty description)
        then <["subtype" :=
                (determine_tagtype E
                   (default "" (d !! "name") +:+ " " +:+ description) lang).2]> d
        else d in
      Wikiparser.sanitize E CVcard d
  | _ => Raise (ValueError "need more than 1 value to unpack")
  end.

(** [Vcard.tostring]. *)
Definition tostring (d : gmap string string) (lang : language E) : string :=
  let d := translate_vcard E lang d in
  let d := delete "tag" d in
  let formatter := default (common_format_vcard E) (format_vcard E lang) in
  formatter d.

(** [Vcard.parse]. *)
Definition parse (line : string) (lang : language E)
    : res (list (gmap string string)) :=
  let lst := Re.whole <$> Re.finditer flags search line in
  mapM (λ l, read l lang) lst.

End WithEnv.

End Vcard.

(** ** The tag dialect: [class Tag] *)

Module Tag.

Definition types : list string := ["eat"; "drink"; "buy"; "do"; "see"; "sleep"].

Definition flags : Re.flags := Re.Flags true false true.

(** [Tag.search]; the alternatives are [sorted(types)]. *)
Definition search : Re.regex :=
  Re.Group 1
    (Re.Seq (Re.Chr "<")
       (Re.Seq (Re.Group 2 (Re.Alts (Re.Lit <$> ["buy"; "do"; "drink"; "eat"; "see"; "sleep"])))
          (Re.Seq (Re.Rep true 1 None Re.Dot)
             (Re.Seq (Re.Chr ">")
                (Re.Seq (Re.Rep false 0 None Re.Dot)
                   (Re.Seq (Re.Lit "</") (Re.Seq (Re.Backref 2) (Re.Chr ">")))))))).

Definition fields : list string :=
  ["name"; "alt"; "address"; "directions"; "phone"; "tollfree"; "email";
   "fax"; "url"; "hours"; "checkin"; "checkout"; "price"; "lat"; "long"].

(** ['%s="{%s}"' % (x, x)]. *)
Definition attribute (x : string) : string :=
  x +:+ "=" +:+ Py.dq +:+ "{" +:+ x +:+ "}" +:+ Py.dq.

Fixpoint join (sep : string) (l : list string) : string :=
  match l with
  | [] => ""
  | [x] => x
  | x :: l' => x +:+ sep +:+ join sep l'
  end.

Definition template_of (flds : list string) : string :=
  "<{tag} " +:+ join " " (attribute <$> flds) +:+ ">{description}</{tag}>".

(** The fields of [Tag.template]: [x for x in fields if x not in
    ('checkin', 'checkout')]. *)
Definition plain_fields : list string :=
  List.filter (λ x, negb (bool_decide (x ∈ ["checkin"; "checkout"]))) fields.

(** [Tag.template] and [Tag.template_sleep]. *)
Definition template : string := template_of plain_fields.
Definition template_sleep : string := template_of fields.

Section WithEnv.
Context (E : Env).

(** The element [Tag.read] works on: what the parser returns, or its
    first child when the parser wrapped it in [html]. *)
Definition root (tag_str : string) : res element :=
  let tag_str := Py.lstrip "*: " tag_str in
  let t := soup_parse E tag_str in
  if bool_decide (tag t = "html")
  then match children t with
       | t0 :: _ => Ok t0
       | [] => Raise IndexError
       end
  else Ok t.

(** [Tag.read]. *)
Definition read (tag_str : string) (lang : language E) : res (gmap string string) :=
  t ← root tag_str;
  let d := dict (items t) in
  let d := <["type" := tag t]> d in
  d ← match text t with
      | Some txt =>
          if Py.is_empty txt then Ok d
          else
            let d := <["description" := txt]> d in
            match d !! "name" with
            | None => Raise (KeyError "name")
            | Some name =>
                Ok (<["subtype" :=
                      (determine_tagtype E (name +:+ " " +:+ txt) lang).2]> d)
            end
      | None => Ok d
      end;
  Wikiparser.sanitize E CTag d.

(** [Tag.tostring], first the record handed to the formatter, then the
    formatting.  Neither [Vcard] nor [Wikiparser] defines
    [number_fields]: reading [Vcard.number_fields] raises
    [AttributeError]. *)
Definition tostring_record (d : gmap string string) (lang : language E)
    : res (gmap string string) :=
  match d !! "type" with
  | None => Raise (KeyError "type")
  | Some ty =>
      let type_lower := Py.lower ty in
      let type_lower :=
        if bool_decide (type_lower ∈ types) then type_lower
        else (determine_tagtype E type_lower lang).1 in
      let d := <["tag" := type_lower]> d in
      match d !! "intl-area-code" with
      | None => Ok d
      | Some phone_prefix =>
          if Py.is_empty phone_prefix then Ok d
          else Raise (AttributeError "number_fields")
      end
  end.

Definition tostring (d : gmap string string) (lang : language E) : res string :=
  d ← tostring_record d lang;
  Ok (tolerant_format E
        (if bool_decide (d !! "tag" = Some "sleep") then template_sleep else template)
        d).

(** [Tag.parse]: [l[0]] is the first group of a match. *)
Definition parse (line : string) (lang : language E)
    : res (list (gmap string string)) :=
  let lst := Re.finditer flags search line in
  mapM (λ l, read (default "" (Re.group 1 (Re.captured l))) lang) lst.

End WithEnv.

End Tag.

(** ** The entry point: [parse_wikicode] *)

Inductive output : Type :=
  | Records (found : list (gmap string string))
  | Strings (out : list string).

Section Convert.
Context (E : Env).

(** The language module, or [translation.english] on ImportError. *)
Definition resolve_language (key : string) : language E :=
  default (english E) (import_language E key).

Definition entry_lines (input_str : string) : list string :=
  Py.split (String "010" "*") input_str.

(** The first loop: every line, prefixed with its asterisk, goes to
    the three extractors in turn. *)
Definition strict_pass (input_str : string) (lang : language E)
    : res (list (gmap string string)) :=
  @concat _ <$> mapM (λ line,
    let line := "*" +:+ line in
    t ← Tag.parse E line lang;
    v ← Vcard.parse E line lang;
    u ← Untagged.parse E line lang true;
    Ok (t ++ v ++ u)) (entry_lines input_str).

(** The second loop, run when the first found nothing. *)
Definition generous_pass (input_str : string) (lang : language E)
    : res (list (gmap string string)) :=
  @concat _ <$> mapM (λ line, Untagged.parse E line lang false) (entry_lines input_str).

Definition extract (input_str : string) (lang : language E)
    : res (list (gmap string string)) :=
  found ← strict_pass input_str lang;
  match found with
  | [] => generous_pass input_str lang
  | _ => Ok found
  end.

Definition invalid_format (outputformat : string) : exn :=
  ValueError ("Invalid output outputformat: " +:+ outputformat).

(** The last statement of [parse_wikicode]: the output format is
    looked at once the records are there. *)
Definition render (found : list (gmap string string)) (outputformat : string)
    (lang : language E) : res output :=
  if bool_decide (outputformat = "raw") then Ok (Records found)
  else if bool_decide (outputformat = "json") then Ok (Strings (json_dumps E <$> found))
  else if bool_decide (outputformat = "tag")
  then Strings <$> mapM (λ l, Tag.tostring E l lang) found
  else if bool_decide (outputformat = "vcard")
  then Ok (Strings ((λ l, Vcard.tostring E l lang) <$> found))
  else Raise (invalid_format outputformat).

(** [parse_wikicode]. *)
Definition parse_wikicode (input_str outputformat language : string) : res output :=
  let lang := resolve_language language in
  let input_str := html_decode E input_str in
  found ← extract input_str lang;
  render found outputformat lang.

End Convert.

(** ** An instance of the collaborators

    The functions of [utils] follow what the specification says about
    them; the others are small stand-ins that make the program run on
    examples. *)

Module Sample.

(** Modelled from the spec: [utils.squeeze] is missing from the sources;
    section 4.5 has it "squeeze repeated whitespace": every run of
    whitespace becomes one space. *)
Fixpoint squeeze_from (in_ws : bool) (s : string) : string :=
  match s with
  | "" => ""
  | String c r =>
      if Ascii.is_space c
      then if in_ws then squeeze_from true r else String " " (squeeze_from true r)
      else String c (squeeze_from false r)
  end.
Definition squeeze_ws (s : string) : string := squeeze_from false s.

(** The text up to the first closing brace, and what follows it. *)
Fixpoint field_name (s : string) : string * string :=
  match s with
  | "" => ("", "")
  | String c r =>
      if Ascii.eqb c "}" then ("", r)
      else let '(n, r') := field_name r in (String c n, r')
  end.

Fixpoint format_fuel (n : nat) (template : string) (d : gmap string string) : string :=
  match n, template with
  | S n', String c r =>
      if Ascii.eqb c "{"
      then let '(name, r') := field_name r in
           default "" (d !! name) +:+ format_fuel n' r' d
      else String c (format_fuel n' r d)
  | _, _ => ""
  end.

(** Modelled from the spec: [utils.TolerantFormatter] is missing from
    the sources; by sections 4.2 and 7 a replacement field whose name
    the record lacks is rendered as the empty string. *)
Definition format_tolerant (template : string) (d : gmap string string) : string :=
  format_fuel (String.length template) template d.

(** A reader of one element [<tag a="v" ...>text</tag>], names in lower
    case. *)
Fixpoint attributes (n : nat) (s : string) : list (string * string) :=
  match n with
  | 0 => []
  | S n' =>
      match Py.split_once ("=" +:+ Py.dq) (Py.lstrip " " s) with
      | Some (k, r) =>
          match Py.split_once Py.dq r with
          | Some (v, r') => (Py.lower k, v) :: attributes n' r'
          | None => []
          end
      | None => []
      end
  end.

Definition parse_element (s : string) : element :=
  match Py.split_once ">" (Py.lstrip "<" s) with
  | Some (opening, r) =>
      let name := default "" (head (Py.split " " opening)) in
      let txt := default r (fst <$> Py.split_once "<" r) in
      Element (Py.lower name)
        (attributes (String.length opening) (Py.drop (String.length name) opening))
        (if Py.is_empty txt then None else Some txt) []
  | None => Element "html" [] None []
  end.

Definition show_items (sep : string) (d : gmap string string) : string :=
  Tag.join sep ((λ kv : string * string, kv.1 +:+ "=" +:+ kv.2) <$> map_to_list d).

Definition tagtype_of (s lang : string) : string * string :=
  if Py.contains "hotel" (Py.lower s) then ("sleep", "hotel")
  else if Py.contains "restaurant" (Py.lower s) then ("eat", "restaurant")
  else ("see", "sight").

Definition label_of (chunk : string) (cf : unit) (pos : nat) : string :=
  if Nat.eqb pos 0 then "name"
  else if Py.contains "@" chunk then "email"
  else if Py.contains "http" chunk then "url"
  else "description".

Definition env : Env := {|
  squeeze := squeeze_ws;
  html_decode := λ s, s;
  tolerant_format := format_tolerant;
  soup_parse := parse_element;
  json_dumps := λ d, "{" +:+ show_items ", " d +:+ "}";
  language := string;
  import_language := λ key, if bool_decide (key ∈ ["english"; "german"]) then Some key else None;
  english := "english";
  translate_vcard := λ _ d, d;
  format_vcard := λ _, None;
  common_format_vcard := λ d, "{{vcard| " +:+ show_items " | " d +:+ "}}";
  determine_tagtype := tagtype_of;
  chunkify := λ s _, Py.split ", " s;
  chunk_filter := unit;
  get_chunk_filter := λ _, tt;
  classify_chunk := label_of;
  merge_chunks := λ l _, Tag.join ", " l;
  dunder_attr := λ name,
    if bool_decide (name ∈ ["__doc__"; "__module__"; "__dict__"; "__name__";
                            "__bases__"; "__mro__"; "__new__"])
    then Some None
    else if bool_decide (name = "__class__") then Some (Some (λ _, "<type 'str'>"))
    else if bool_decide (name = "__init__") then Some (Some (λ _, "None"))
    else None
|}.

End Sample.

(** ** Predicates of the specification *)

(** The value ends in [.], [!] or [?]. *)
Definition ends_terminal (s : string) : bool :=
  match Py.last s with
  | Some c => Py.mem c ".!?"
  | None => false
  end.

(** The value has a character other than an apostrophe. *)
Fixpoint has_text (s : string) : bool :=
  match s with
  | "" => false
  | String c r => negb (Ascii.eqb c "'") || has_text r
  end.

(** [//] occurs in the value with at least one character before it:
    the least that "preceded by a scheme token" asks for. *)
Definition slashes_after_scheme (u : string) : bool :=
  match u with
  | "" => false
  | String _ r => Py.contains "//" r
  end.

(** The output formats [parse_wikicode] knows. *)
Definition formats : list string := ["raw"; "json"; "tag"; "vcard"].

(** The rule [sanitize_item] picks for a key is the identity: the name
    is looked up as [sanitize_item] does, and is [default] or the name
    of no attribute. *)
Definition identity_rule (E : Env) (cls : klass) (key : string) : bool :=
  let func_name := default key (Wikiparser.item_lookup !! key) in
  let func_name :=
    if Py.startswith "sanitize" func_name then "default" else func_name in
  bool_decide (func_name = "default") ||
  match Wikiparser.getattr E cls func_name with
  | Wikiparser.Absent => true
  | _ => false
  end.

(** [squeeze] leaves the field name alone, and squeezes no other key
    onto it. *)
Definition squeeze_keeps (E : Env) (name : string) : Prop :=
  squeeze E name = name ∧ ∀ k, squeeze E k = name → k = name.




(** The exceptions the extractors can raise: an index out of range
    ([p[1]], [number[1]], [description[-1]], [t[0]]), a call of an
    attribute that is no sanitizer, the missing [name] of [Tag.read],
    the unpacking in [Vcard.read]. *)
Definition extractor_error (e : exn) : Prop :=
  e = IndexError ∨ e = TypeError ∨ e = KeyError "name" ∨
  e = ValueError "need more than 1 value to unpack".

(** The exceptions [Tag.tostring] can raise. *)
Definition serializer_error (e : exn) : Prop :=
  e = KeyError "type" ∨ e = AttributeError "number_fields".

(** The first [k] characters are apostrophes. *)
Fixpoint quotes_prefix (k : nat) (s : string) : Prop :=
  match k, s with
  | S k', String c r => c = "'"%char ∧ quotes_prefix k' r
  | _, _ => True
  end.

Fixpoint all_quotes (s : string) : Prop :=
  match s with
  | "" => True
  | String c r => c = "'"%char ∧ all_quotes r
  end.

(** The characters of the string are no whitespace. *)
Fixpoint no_space (s : string) : Prop :=
  match s with
  | "" => True
  | String c r => Ascii.is_space c = false ∧ no_space r
  end.

(** The pair [x], inserted in front of [R], stays there: [R] begins with
    no smaller label. *)
Definition stops (x : string * string) (R : list (string * string)) : Prop :=
  match R with
  | [] => True
  | y :: _ => String.ltb y.1 x.1 = false
  end.

(** The name of the rule [sanitize_item] looks up for a key. *)
Definition rule_name (key : string) : string :=
  let func_name := default key (Wikiparser.item_lookup !! key) in
  if Py.startswith "sanitize" func_name then "default" else func_name.

(** The rule of the key is one a second pass leaves alone: the identity,
    [url] or [price]. *)
Definition stable_rule (E : Env) (cls : klass) (key : string) : bool :=
  identity_rule E cls key || bool_decide (rule_name key ∈ ["url"; "price"]).

(** The only whitespace of the string is single spaces; [after_space]
    tells that a space stands just before it. *)
Fixpoint tidy (after_space : bool) (s : string) : bool :=
  match s with
  | "" => true
  | String c r =>
      if Ascii.is_space c
      then Ascii.eqb c " " && negb after_space && tidy true r
      else tidy false r
  end.

(** The character occurs in the string. *)
Fixpoint has_char (c : ascii) (s : string) : bool :=
  match s with
  | "" => false
  | String x r => Ascii.eqb x c || has_char c r
  end.

(** None of the characters [chars] occurs in the string. *)
Fixpoint free_of (chars : string) (s : string) : bool :=
  match s with
  | "" => true
  | String x r => negb (Py.mem x chars) && free_of chars r
  end.

(** Every text the pattern matches has the character [c]: a sufficient
    syntactic test. *)
Fixpoint needs (c : ascii) (r : Re.regex) : bool :=
  match r with
  | Re.Chr a => Ascii.eqb a c
  | Re.Seq r1 r2 => needs c r1 || needs c r2
  | Re.Alt r1 r2 => needs c r1 && needs c r2
  | Re.Rep _ lo _ r' => (0 <? lo) && needs c r'
  | Re.Group _ r' => needs c r'
  | _ => false
  end.

(** A lower bound on the length of the texts the pattern matches. *)
Fixpoint min_len (r : Re.regex) : nat :=
  match r with
  | Re.Chr _ | Re.Dot | Re.Set_ _ | Re.Space => 1
  | Re.Seq r1 r2 => min_len r1 + min_len r2
  | Re.Alt r1 r2 => min_len r1 `min` min_len r2
  | Re.Rep _ lo _ r' => lo * min_len r'
  | Re.Group _ r' => min_len r'
  | _ => 0
  end.

(** [x] may stand before [y] in the sorted chunks: the label of [y] is
    not the smaller one. *)
Definition label_before (x y : string * string) : Prop := String.ltb y.1 x.1 = false.

(** Only [c] itself matches the pattern character [c], with or without
    IGNORECASE. *)
Definition strict_char (c : ascii) : Prop :=
  ∀ f b, Re.chr_eq f c b = true → b = c.



(** * Facts about the string operations *)

Module PyFacts.

Lemma append_nil_l (s : string) : "" +:+ s = s.
Proof. reflexivity. Qed.

Lemma append_cons (c : ascii) (s t : string) : String c s +:+ t = String c (s +:+ t).
Proof. reflexivity. Qed.

Lemma append_nil_r (s : string) : s +:+ "" = s.
Proof. induction s as [|c s IH]; [done|]. by rewrite append_cons, IH. Qed.

Lemma append_assoc (s t u : string) : (s +:+ t) +:+ u = s +:+ t +:+ u.
Proof. induction s as [|c s IH]; [done|]. by rewrite !append_cons, IH. Qed.

Lemma eqb_true (a b : ascii) : Ascii.eqb a b = true ↔ a = b.
Proof. apply Ascii.eqb_eq. Qed.

Lemma eqb_false (a b : ascii) : Ascii.eqb a b = false ↔ a ≠ b.
Proof. apply Ascii.eqb_neq. Qed.

Lemma is_empty_true (s : string) : Py.is_empty s = true ↔ s = "".
Proof. by destruct s. Qed.

Lemma is_empty_false (s : string) : Py.is_empty s = false ↔ s ≠ "".
Proof. by destruct s. Qed.

Lemma last_None (s : string) : Py.last s = None ↔ s = "".
Proof.
  split; [|by intros ->].
  induction s as [|c s IH]; [done|].
  simpl. destruct s; [done|]. intros H. by specialize (IH H).
Qed.

Lemma last_append_char (s : string) (c : ascii) : Py.last (s +:+ String c "") = Some c.
Proof.
  induction s as [|a s IH]; [done|].
  rewrite append_cons. simpl. rewrite IH.
  by destruct (s +:+ String c "") eqn:Hs; [destruct s|].
Qed.

Lemma startswith_app (p s : string) : Py.startswith p (p +:+ s) = true.
Proof.
  induction p as [|c p IH]; [done|].
  rewrite append_cons. simpl. by rewrite Ascii.eqb_refl.
Qed.

Lemma startswith_inv (p s : string) :
  Py.startswith p s = true → ∃ r, s = p +:+ r.
Proof.
  revert s. induction p as [|c p IH]; intros s H; [by exists s|].
  destruct s as [|b s]; [done|]. simpl in H.
  destruct (Ascii.eqb c b) eqn:Hcb; [|done].
  apply eqb_true in Hcb as ->. destruct (IH _ H) as [r ->]. by exists r.
Qed.

Lemma contains_here (sub s : string) :
  Py.startswith sub s = true → Py.contains sub s = true.
Proof.
  destruct s as [|c s]; simpl.
  - by destruct sub.
  - by intros ->.
Qed.

Lemma contains_app (sub a b : string) : Py.contains sub (a +:+ sub +:+ b) = true.
Proof.
  induction a as [|c a IH].
  - rewrite append_nil_l. apply contains_here, startswith_app.
  - rewrite append_cons. simpl. rewrite IH. by destruct (Py.startswith _ _).
Qed.

Lemma contains_cons (sub : string) (c : ascii) (s : string) :
  Py.contains sub s = true → Py.contains sub (String c s) = true.
Proof. simpl. intros ->. by destruct (Py.startswith _ _). Qed.

(** A one-character separator splits at its first occurrence. *)
Lemma split_once_char (c : ascii) (pre post : string) :
  Py.contains (String c "") pre = false →
  Py.split_once (String c "") (pre +:+ String c "" +:+ post) = Some (pre, post).
Proof.
  induction pre as [|a pre IH]; intros Hpre.
  - rewrite append_nil_l. simpl. by rewrite Ascii.eqb_refl.
  - rewrite append_cons. simpl in *.
    destruct (Ascii.eqb c a) eqn:Hca; [done|].
    rewrite IH; [done|]. by destruct pre.
Qed.

End PyFacts.

(** * The description rule (claim C8) *)

Module DescriptionFacts.
Import PyFacts.

Lemma startswith_quotes (old s : string) :
  all_quotes old → Py.startswith old s = true → quotes_prefix (String.length old) s.
Proof.
  revert s. induction old as [|c old IH]; intros s Hq Hs; [done|].
  destruct s as [|b s]; [done|]. simpl in *.
  destruct Hq as [-> Hq]. destruct (Ascii.eqb "'" b) eqn:Hb; [|done].
  apply eqb_true in Hb as <-. split; [done|]. by apply IH.
Qed.

Lemma has_text_quote (s : string) : has_text (String "'" s) = has_text s.
Proof. done. Qed.

(** Removing a marker made of apostrophes keeps every other character. *)
Lemma replace_keeps_text (old : string) (s : string) (k : nat) :
  all_quotes old → old ≠ "" → quotes_prefix k s →
  has_text s = true → has_text (Py.replace_from k old "" s) = true.
Proof.
  intros Hold Hne. revert k. induction s as [|c s IH]; intros k Hk Ht; [done|].
  destruct k as [|k]; simpl.
  - destruct (Py.startswith old (String c s)) eqn:Hs.
    + rewrite append_nil_l.
      pose proof (startswith_quotes _ _ Hold Hs) as Hq.
      destruct old as [|q old]; [done|]. simpl in Hq. destruct Hq as [-> Hq].
      rewrite has_text_quote in Ht. apply IH; [|done].
      simpl. by rewrite Nat.sub_0_r.
    + simpl in *. destruct (negb (Ascii.eqb c "'")); [done|].
      simpl in *. by apply IH.
  - simpl in Hk. destruct Hk as [-> Hk]. rewrite has_text_quote in Ht. by apply IH.
Qed.

Lemma drop_marker_keeps_text (old s : string) :
  all_quotes old → old ≠ "" → has_text s = true →
  has_text (if Py.count old s =? 1 then Py.replace old "" s else s) = true.
Proof.
  intros. destruct (_ =? _); [|done]. by apply replace_keeps_text.
Qed.

Lemma upper_char_quote (c : ascii) :
  Ascii.eqb (Py.upper_char c) "'" = Ascii.eqb c "'".
Proof.
  destruct (Ascii.eqb c "'") eqn:Hc.
  - by apply eqb_true in Hc as ->.
  - apply eqb_false in Hc. apply eqb_false. intros Hu. apply Hc. clear Hc.
    revert Hu. unfold Py.upper_char.
    destruct (_ && _) eqn:Hr; [|done].
    apply andb_prop in Hr as [H1 H2].
    apply Nat.leb_le in H1. apply Nat.leb_le in H2.
    intros Hu. apply (f_equal nat_of_ascii) in Hu.
    rewrite nat_ascii_embedding in Hu by lia.
    change (nat_of_ascii "'") with 39 in Hu. lia.
Qed.

Lemma has_text_nonempty (s : string) : has_text s = true → s ≠ "".
Proof. by destruct s. Qed.

Lemma ends_terminal_append_dot (s : string) : ends_terminal (s +:+ ".") = true.
Proof. unfold ends_terminal. by rewrite last_append_char. Qed.

End DescriptionFacts.

(** C8, as the code has it.  A value that keeps a character other than
    an apostrophe once its leading [;], [.], [,] and spaces are stripped
    comes back ending in [.], [!] or [?]; a value with nothing left
    after the stripping comes back empty, with no punctuation added. *)
Theorem description_ends_terminal (s : string) :
  (Py.lstrip ";., " s = "" → Wikiparser.description s = Ok "") ∧
  (has_text (Py.lstrip ";., " s) = true →
   ∃ r, Wikiparser.description s = Ok r ∧ ends_terminal r = true).
Proof.
  unfold Wikiparser.description. split.
  - by intros ->.
  - intros Ht. destruct (Py.lstrip ";., " s) as [|c d] eqn:Hd; [done|].
    cbv beta iota zeta delta [Py.is_empty].
    set (d1 := String (Py.upper_char c) d).
    assert (has_text d1 = true) as H1.
    { subst d1. simpl in *. by rewrite DescriptionFacts.upper_char_quote. }
    set (d2 := if Py.count "'''" d1 =? 1 then _ else _).
    assert (has_text d2 = true) as H2.
    { by apply DescriptionFacts.drop_marker_keeps_text. }
    set (d3 := if Py.count "''" d2 =? 1 then _ else _).
    assert (has_text d3 = true) as H3.
    { by apply DescriptionFacts.drop_marker_keeps_text. }
    destruct (Py.last d3) as [l|] eqn:Hl.
    + destruct (Py.mem l ".!?") eqn:Hm.
      * exists d3. split; [done|]. unfold ends_terminal. by rewrite Hl.
      * exists (d3 +:+ "."). split; [done|].
        apply DescriptionFacts.ends_terminal_append_dot.
    + apply PyFacts.last_None in Hl.
      by apply DescriptionFacts.has_text_nonempty in H3.
Qed.

Lemma description_ends_terminal_witness :
  Wikiparser.description ";. " = Ok "" ∧
  ∃ r, Wikiparser.description "it's a ''nice place" = Ok r ∧ ends_terminal r = true.
Proof.
  split.
  - apply (description_ends_terminal ";. "). reflexivity.
  - apply (description_ends_terminal "it's a ''nice place"). reflexivity.
Defined.

(** C8 as stated fails: a value made of leading punctuation only comes
    back empty, ending in no punctuation at all. *)
Lemma description_blank_counterexample :
  Wikiparser.description ";. " = Ok "" ∧ ends_terminal "" = false.
Proof. split; reflexivity. Qed.

(** * The url rule (claim C9) *)

Lemma startswith_http_slashes (u : string) :
  Py.startswith "http://" u = true → Py.contains "//" u = true.
Proof.
  intros [r ->]%PyFacts.startswith_inv.
  apply (PyFacts.contains_app "//" "http:" r).
Qed.

(** C9, as the code has it.  The returned value always contains [//].
    When the value, once the wiki brackets and the link text are
    removed, has no [//], [http://] is put in front of it, which gives a
    scheme before the [//]; a value that has [//] already is returned as
    it is, whatever stands before the [//]. *)
Theorem url_contains_slashes (s : string) :
  Py.contains "//" (Wikiparser.url s) = true ∧
  (Py.contains "//" (Wikiparser.url_unwrap s) = false →
   Wikiparser.url s = "http://" +:+ Wikiparser.url_unwrap s ∧
   slashes_after_scheme (Wikiparser.url s) = true) ∧
  (Py.contains "//" (Wikiparser.url_unwrap s) = true →
   Wikiparser.url s = Wikiparser.url_unwrap s).
Proof.
  unfold Wikiparser.url. set (u := Wikiparser.url_unwrap s).
  destruct (Py.contains "//" u) eqn:Hc.
  - rewrite andb_false_r. by repeat split.
  - destruct (Py.startswith "http://" u) eqn:Hs.
    { apply startswith_http_slashes in Hs. congruence. }
    simpl negb. simpl andb. cbv iota.
    split; [|split; [|done]].
    + apply (PyFacts.contains_app "//" "http:" u).
    + intros _. split; [done|].
      apply (PyFacts.contains_app "//" "ttp:" u).
Qed.

Lemma url_contains_slashes_witness :
  Wikiparser.url "[www.example.org Example]" = "http://www.example.org" ∧
  Wikiparser.url "ftp://example.org" = "ftp://example.org".
Proof.
  split.
  - refine (proj1 (proj1 (proj2 (url_contains_slashes "[www.example.org Example]")) _)).
    reflexivity.
  - refine (proj2 (proj2 (url_contains_slashes "ftp://example.org")) _).
    reflexivity.
Defined.

(** C9 as stated fails: a value that begins with [//] is returned as it
    is, with nothing before the [//]. *)
Lemma url_no_scheme_counterexample :
  Wikiparser.url "//example.org/pub" = "//example.org/pub" ∧
  slashes_after_scheme (Wikiparser.url "//example.org/pub") = false.
Proof. split; reflexivity. Qed.

(** * The email rule (claim C10) *)

(** A value that contains the character splits at its first
    occurrence. *)
Lemma first_char (a : ascii) (s : string) :
  Py.contains (String a "") s = true →
  ∃ pre post, s = pre +:+ String a "" +:+ post ∧ Py.contains (String a "") pre = false.
Proof.
  induction s as [|c s IH]; [done|]. simpl.
  destruct (Ascii.eqb a c) eqn:Hc.
  - intros _. apply PyFacts.eqb_true in Hc as <-. by exists "", s.
  - intros (pre & post & -> & Hpre)%IH. exists (String c pre), post.
    split; [done|]. simpl. by rewrite Hc.
Qed.

Lemma email_of_parts (pre post : string) :
  Py.contains ":" pre = false →
  Wikiparser.email (pre +:+ ":" +:+ post) =
    Py.replace "'" "" (default "" (Py.split " " (Py.strip_ws post) !! 0)).
Proof.
  intros Hpre. unfold Wikiparser.email.
  rewrite (PyFacts.contains_app ":" pre post).
  unfold Py.split1. by rewrite (PyFacts.split_once_char ":" pre post Hpre).
Qed.

(** C10.  Every email value that contains a colon is cut at its first
    colon: whatever stands before it, and the colon itself, is dropped,
    and the result is computed from the text after it alone. *)
Theorem email_after_first_colon (s : string) :
  Py.contains ":" s = true →
  ∃ pre post,
    s = pre +:+ ":" +:+ post ∧ Py.contains ":" pre = false ∧
    Wikiparser.email s =
      Py.replace "'" "" (default "" (Py.split " " (Py.strip_ws post) !! 0)).
Proof.
  intros (pre & post & -> & Hpre)%(first_char ":").
  exists pre, post. split; [done|]. split; [done|]. by apply email_of_parts.
Qed.

Lemma email_after_first_colon_witness :
  ∃ pre post,
    "contact:info@example.org:8080 (office)" = pre +:+ ":" +:+ post ∧
    Py.contains ":" pre = false ∧
    Wikiparser.email "contact:info@example.org:8080 (office)" =
      Py.replace "'" "" (default "" (Py.split " " (Py.strip_ws post) !! 0)).
Proof.
  apply (email_after_first_colon "contact:info@example.org:8080 (office)").
  reflexivity.
Defined.

(** The cut is not limited to [mailto:] and [email:]. *)
Remark email_any_prefix :
  Wikiparser.email "contact:info@example.org:8080 (office)" = "info@example.org:8080".
Proof. reflexivity. Qed.

(** * Facts about results and dictionaries *)

Module ResFacts.

Lemma mapM_ok {A B} (f : A → res B) (g : A → B) (l : list A) :
  (∀ x, x ∈ l → f x = Ok (g x)) → mapM f l = Ok (g <$> l).
Proof.
  induction l as [|x l IH]; intros H; [done|].
  simpl. rewrite (H x) by apply list_elem_of_here. simpl.
  rewrite IH; [done|]. intros y Hy. apply H. by apply list_elem_of_further.
Qed.

Lemma mapM_ok_id {A} (f : A → res A) (l : list A) :
  (∀ x, x ∈ l → f x = Ok x) → mapM f l = Ok l.
Proof.
  intros H. rewrite (mapM_ok f id) by done. by rewrite list_fmap_id.
Qed.

(** A pass that succeeds has succeeded on every element, in order. *)
Lemma mapM_ok_inv {A B} (f : A → res B) (l : list A) (l' : list B) :
  mapM f l = Ok l' → Forall2 (λ x y, f x = Ok y) l l'.
Proof.
  revert l'. induction l as [|x l IH]; intros l' H; simpl in H.
  - injection H as <-. constructor.
  - destruct (f x) as [y|e] eqn:Hx; [|done]. simpl in H.
    destruct (mapM f l) as [k|e] eqn:Hl; [|done]. simpl in H.
    injection H as <-. constructor; [done|]. by apply IH.
Qed.

(** A pass that fails has failed on one of the elements. *)
Lemma mapM_raise {A B} (f : A → res B) (l : list A) (e : exn) :
  mapM f l = Raise e → ∃ x, x ∈ l ∧ f x = Raise e.
Proof.
  induction l as [|x l IH]; intros H; simpl in H; [done|].
  destruct (f x) as [y|e'] eqn:Hx; simpl in H.
  - destruct (mapM f l) as [k|e'] eqn:Hl; [done|]. simpl in H.
    injection H as ->. destruct IH as (z & Hz & Hfz); [done|].
    exists z. split; [by apply list_elem_of_further|done].
  - injection H as ->. exists x. split; [apply list_elem_of_here|done].
Qed.

Lemma mapM_elem {A B} (f : A → res B) (l : list A) (l' : list B) (x : A) :
  mapM f l = Ok l' → x ∈ l → ∃ y, f x = Ok y ∧ y ∈ l'.
Proof.
  intros H%mapM_ok_inv Hx.
  induction H as [|a b l l' Hab H IH]; [by apply elem_of_nil in Hx|].
  apply elem_of_cons in Hx as [->|Hx].
  - exists b. split; [done|apply list_elem_of_here].
  - destruct (IH Hx) as (y & Hy & Hin). exists y.
    split; [done|by apply list_elem_of_further].
Qed.

Lemma mapM_elem_inv {A B} (f : A → res B) (l : list A) (l' : list B) (y : B) :
  mapM f l = Ok l' → y ∈ l' → ∃ x, f x = Ok y ∧ x ∈ l.
Proof.
  intros H%mapM_ok_inv Hy.
  induction H as [|a b l l' Hab H IH]; [by apply elem_of_nil in Hy|].
  apply elem_of_cons in Hy as [->|Hy].
  - exists a. split; [done|apply list_elem_of_here].
  - destruct (IH Hy) as (x & Hx & Hin). exists x.
    split; [done|by apply list_elem_of_further].
Qed.

Lemma dict_lookup_elem (l : list (string * string)) (k v : string) :
  dict l !! k = Some v → (k, v) ∈ l.
Proof.
  unfold dict. intros H. apply elem_of_list_to_map_2 in H. by rewrite elem_of_reverse in H.
Qed.

Lemma dict_lookup_unique (l : list (string * string)) (k v : string) :
  (k, v) ∈ l → (∀ v', (k, v') ∈ l → v' = v) → dict l !! k = Some v.
Proof.
  intros Hin Hu. unfold dict. apply elem_of_list_to_map_1'.
  - intros y Hy. rewrite elem_of_reverse in Hy. symmetry. by apply Hu.
  - by rewrite elem_of_reverse.
Qed.

Lemma dict_lookup_is_Some (l : list (string * string)) (k v : string) :
  (k, v) ∈ l → is_Some (dict l !! k).
Proof.
  intros Hin. unfold dict.
  destruct (list_to_map (reverse l) !! k) as [x|] eqn:Hx; [by exists x|].
  apply not_elem_of_list_to_map_2 in Hx. exfalso. apply Hx.
  apply list_elem_of_fmap. exists (k, v). split; [done|]. by rewrite elem_of_reverse.
Qed.

Lemma dict_lookup_None (l : list (string * string)) (k : string) :
  k ∉ l.*1 → dict l !! k = None.
Proof.
  intros Hk. unfold dict. apply not_elem_of_list_to_map_1.
  by rewrite fmap_reverse, elem_of_reverse.
Qed.

(** Rebuilding a dictionary from its own items gives it back. *)
Lemma dict_map_to_list (m : gmap string string) : dict (map_to_list m) = m.
Proof.
  unfold dict. rewrite <- (list_to_map_to_list m) at 2.
  apply list_to_map_proper.
  - rewrite fmap_reverse, reverse_Permutation. apply NoDup_fst_map_to_list.
  - apply reverse_Permutation.
Qed.

Lemma dict_app (l1 l2 : list (string * string)) :
  dict (l1 ++ l2) = dict l2 ∪ dict l1.
Proof. unfold dict. by rewrite reverse_app, list_to_map_app. Qed.

(** The last pair of a key is the one a dictionary keeps. *)
Lemma dict_last_wins (l1 l2 : list (string * string)) (k v : string) :
  k ∉ l2.*1 → dict (l1 ++ (k, v) :: l2) !! k = Some v.
Proof.
  intros Hk. rewrite dict_app. apply lookup_union_Some_raw. left.
  change ((k, v) :: l2) with ([(k, v)] ++ l2). rewrite dict_app.
  apply lookup_union_Some_raw. right. split; [by apply dict_lookup_None|].
  unfold dict. simpl. apply lookup_insert_eq.
Qed.

End ResFacts.


(** * The sanitizer over a record (claim C3) *)

Module SanitizeFacts.
Import ResFacts.

Section WithEnv.
Context (E : Env).

(** The key [sanitize_item] returns is the squeezed key. *)
Lemma sanitize_item_key (cls : klass) (k v k' v' : string) :
  Wikiparser.sanitize_item E cls k v = Ok (k', v') → k' = squeeze E k.
Proof.
  unfold Wikiparser.sanitize_item.
  destruct (Py.is_empty _); [congruence|].
  destruct (Wikiparser.getattr _ _ _) as [f| |]; simpl; [|done|congruence].
  destruct (f _); simpl; congruence.
Qed.

Lemma sanitize_item_identity (cls : klass) (k v : string) :
  identity_rule E cls (squeeze E k) = true →
  Wikiparser.sanitize_item E cls k v = Ok (squeeze E k, squeeze E v).
Proof.
  unfold identity_rule, Wikiparser.sanitize_item.
  destruct (Py.is_empty _); [done|].
  set (fn := if Py.startswith "sanitize" _ then _ else _).
  destruct (bool_decide (fn = "default")) eqn:Hfn.
  - apply bool_decide_eq_true in Hfn as ->. done.
  - simpl. by destruct (Wikiparser.getattr E cls fn).
Qed.

(** What a successful pass leaves under a key that no other key of the
    record is squeezed onto. *)
Lemma sanitize_lookup (cls : klass) (d d' : gmap string string) (k v : string) :
  Wikiparser.sanitize E cls d = Ok d' →
  d !! k = Some v →
  (∀ k2, is_Some (d !! k2) → squeeze E k2 = squeeze E k → k2 = k) →
  ∃ v', Wikiparser.sanitize_item E cls k v = Ok (squeeze E k, v') ∧
        d' !! squeeze E k = Some v'.
Proof.
  unfold Wikiparser.sanitize. intros Hs Hk Hinj.
  destruct (mapM _ _) as [pairs|e] eqn:Hm; [|done]. simpl in Hs.
  injection Hs as <-.
  destruct (mapM_elem _ _ _ (k, v) Hm) as ([k' v'] & Hkv & Hin).
  { by apply elem_of_map_to_list. }
  simpl in Hkv. pose proof (sanitize_item_key _ _ _ _ _ Hkv) as ->.
  exists v'. split; [done|]. apply dict_lookup_unique; [done|].
  intros v'' Hin''.
  destruct (mapM_elem_inv _ _ _ _ Hm Hin'') as ([k2 v2] & Hkv2 & Hin2).
  simpl in Hkv2. apply elem_of_map_to_list in Hin2.
  pose proof (sanitize_item_key _ _ _ _ _ Hkv2) as Hk2.
  assert (k2 = k) as -> by (apply Hinj; [by exists v2|done]).
  congruence.
Qed.

(** A key that squeezing leaves alone is still there after a pass. *)
Lemma sanitize_keeps_key (cls : klass) (d d' : gmap string string) (k : string) :
  Wikiparser.sanitize E cls d = Ok d' →
  is_Some (d !! k) → squeeze E k = k → is_Some (d' !! k).
Proof.
  unfold Wikiparser.sanitize. intros Hs [v Hk] Hsq.
  destruct (mapM _ _) as [pairs|e] eqn:Hm; [|done]. simpl in Hs.
  injection Hs as <-.
  destruct (mapM_elem _ _ _ (k, v) Hm) as ([k' v'] & Hkv & Hin).
  { by apply elem_of_map_to_list. }
  simpl in Hkv. pose proof (sanitize_item_key _ _ _ _ _ Hkv) as ->.
  rewrite Hsq in Hin. by eapply dict_lookup_is_Some.
Qed.

End WithEnv.

End SanitizeFacts.

(** With any [squeeze] that is itself idempotent, a second pass of the
    sanitizer changes nothing in a record whose fields all fall under
    the identity rule. *)
Lemma sanitize_identity_twice (E : Env) (cls : klass) (d : gmap string string) :
  (∀ s, squeeze E (squeeze E s) = squeeze E s) →
  (∀ k v, d !! k = Some v → identity_rule E cls (squeeze E k) = true) →
  ∃ d', Wikiparser.sanitize E cls d = Ok d' ∧ Wikiparser.sanitize E cls d' = Ok d'.
Proof.
  intros Hidem Hrule.
  set (g := λ kv : string * string, (squeeze E kv.1, squeeze E kv.2)).
  assert (mapM (λ kv, Wikiparser.sanitize_item E cls kv.1 kv.2) (map_to_list d)
          = Ok (g <$> map_to_list d)) as Hfirst.
  { apply ResFacts.mapM_ok. intros [k v] Hin%elem_of_map_to_list. simpl.
    apply SanitizeFacts.sanitize_item_identity. by eapply Hrule. }
  exists (dict (g <$> map_to_list d)). split.
  { unfold Wikiparser.sanitize. by rewrite Hfirst. }
  unfold Wikiparser.sanitize at 1.
  rewrite (ResFacts.mapM_ok_id _ (map_to_list (dict (g <$> map_to_list d)))).
  { simpl. by rewrite ResFacts.dict_map_to_list. }
  intros [k' v'] Hin%elem_of_map_to_list%ResFacts.dict_lookup_elem.
  apply list_elem_of_fmap in Hin as ([k v] & Hg & Hin).
  apply elem_of_map_to_list in Hin. unfold g in Hg. simpl in Hg.
  injection Hg as -> ->. simpl.
  rewrite SanitizeFacts.sanitize_item_identity.
  - by rewrite !Hidem.
  - rewrite Hidem. by eapply Hrule.
Qed.

(** Facts about the sample [squeeze]. *)
Module SampleFacts.

Lemma squeeze_from_idem (s : string) :
  (∀ b, Sample.squeeze_from false (Sample.squeeze_from b s) = Sample.squeeze_from b s) ∧
  Sample.squeeze_from true (Sample.squeeze_from true s) = Sample.squeeze_from true s.
Proof.
  induction s as [|c s [IH1 IH2]]; [done|]. simpl.
  destruct (Ascii.is_space c) eqn:Hc.
  - split; [intros [|]|]; simpl; auto. by rewrite IH2.
  - split; [intros b|]; simpl; rewrite Hc; by rewrite IH1.
Qed.

Lemma squeeze_idem (s : string) :
  Sample.squeeze_ws (Sample.squeeze_ws s) = Sample.squeeze_ws s.
Proof. apply squeeze_from_idem. Qed.

Lemma squeeze_no_space (s : string) : no_space s → Sample.squeeze_ws s = s.
Proof.
  unfold Sample.squeeze_ws. induction s as [|c s IH]; [done|].
  simpl. intros [-> Hs]. by rewrite IH.
Qed.

(** Only a string without whitespace is squeezed onto itself-without-
    whitespace: nothing else is squeezed onto such a name. *)
Lemma squeeze_onto_no_space (k s : string) :
  Sample.squeeze_ws k = s → no_space s → k = s.
Proof.
  unfold Sample.squeeze_ws. revert s. induction k as [|c k IH]; intros s; [done|].
  simpl. destruct (Ascii.is_space c) eqn:Hc.
  - intros <- [Hs _]. done.
  - intros <- [_ Hs]. f_equal. by apply IH.
Qed.

End SampleFacts.

(** C3 as stated fails: the email rule drops the text up to the first
    colon at every pass, so a value with two colons changes twice. *)
Lemma sanitize_email_counterexample :
  Wikiparser.sanitize Sample.env CTag {[ "email" := "E-mail: mailto:info@example.org" ]}
    = Ok {[ "email" := "mailto:info@example.org" ]} ∧
  Wikiparser.sanitize Sample.env CTag {[ "email" := "mailto:info@example.org" ]}
    = Ok {[ "email" := "info@example.org" ]}.
Proof. split; vm_compute; reflexivity. Qed.

(** The other rules that a second pass does not leave alone. *)
Remark sanitize_description_twice :
  Wikiparser.sanitize Sample.env CTag {[ "description" := "''';open daily" ]}
    = Ok {[ "description" := ";open daily." ]} ∧
  Wikiparser.sanitize Sample.env CTag {[ "description" := ";open daily." ]}
    = Ok {[ "description" := "Open daily." ]}.
Proof. split; vm_compute; reflexivity. Qed.

Remark sanitize_directions_twice :
  Wikiparser.sanitize Sample.env CTag {[ "directions" := "near ' the station" ]}
    = Ok {[ "directions" := "near  the station" ]} ∧
  Wikiparser.sanitize Sample.env CTag {[ "directions" := "near  the station" ]}
    = Ok {[ "directions" := "near the station" ]}.
Proof. split; vm_compute; reflexivity. Qed.

Remark sanitize_phone_twice :
  Wikiparser.sanitize Sample.env CTag {[ "phone" := "0 ' 30 1234" ]}
    = Ok {[ "phone" := "0 30 1234" ]} ∧
  Wikiparser.sanitize Sample.env CTag {[ "phone" := "0 30 1234" ]}
    = Ok {[ "phone" := "030 1234" ]}.
Proof. split; vm_compute; reflexivity. Qed.

(** * The [type] and [subtype] of a record (claim C4) *)

Module TypeFacts.
Import ResFacts SanitizeFacts.

Section WithEnv.
Context (E : Env).

(** A key that only itself is squeezed onto is in the sanitized record
    exactly when it is in the record. *)
Lemma sanitize_key_iff (cls : klass) (d d' : gmap string string) (k : string) :
  squeeze_keeps E k →
  Wikiparser.sanitize E cls d = Ok d' →
  is_Some (d' !! k) ↔ is_Some (d !! k).
Proof.
  intros [Hfix Honly] Hs. split.
  - intros [v' Hv']. revert Hs. unfold Wikiparser.sanitize.
    destruct (mapM _ _) as [pairs|] eqn:Hm; [|done]. simpl. intros [= <-].
    apply dict_lookup_elem in Hv'.
    destruct (mapM_elem_inv _ _ _ _ Hm Hv') as ([k0 v] & Hkv & Hin).
    apply elem_of_map_to_list in Hin. simpl in Hkv.
    apply sanitize_item_key in Hkv. symmetry in Hkv. apply Honly in Hkv as ->.
    by exists v.
  - intros Hk. by eapply sanitize_keeps_key.
Qed.

Lemma dict_is_Some (l : list (string * string)) (k : string) :
  is_Some (dict l !! k) ↔ (k ∈ l.*1).
Proof.
  split.
  - intros [v Hv]. apply dict_lookup_elem in Hv.
    apply list_elem_of_fmap. by exists (k, v).
  - intros ([k' v] & -> & Hin)%list_elem_of_fmap. by eapply dict_lookup_is_Some.
Qed.

Lemma untagged_keys (s : string) (lang : language E) (d : gmap string string) :
  squeeze_keeps E "type" → squeeze_keeps E "subtype" →
  Untagged.read E s lang = Ok d →
  is_Some (d !! "type") ∧ is_Some (d !! "subtype").
Proof.
  intros Ht Hs. unfold Untagged.read. intros Hd. split.
  - apply (sanitize_key_iff _ _ _ _ Ht Hd).
    rewrite lookup_insert_ne by done. rewrite lookup_insert_eq. by eexists.
  - apply (sanitize_key_iff _ _ _ _ Hs Hd).
    rewrite lookup_insert_eq. by eexists.
Qed.

Lemma tag_keys (s : string) (lang : language E) (t : element) (d : gmap string string) :
  squeeze_keeps E "type" → squeeze_keeps E "subtype" →
  Tag.root E s = Ok t → Tag.read E s lang = Ok d →
  is_Some (d !! "type") ∧
  (is_Some (d !! "subtype") ↔
   (∃ txt, text t = Some txt ∧ txt ≠ "") ∨ ("subtype" ∈ (items t).*1)).
Proof.
  intros Ht Hs Hroot. unfold Tag.read. rewrite Hroot. simpl.
  set (d0 := <["type" := tag t]> (dict (items t))).
  assert (is_Some (d0 !! "type")) as H0.
  { unfold d0. rewrite lookup_insert_eq. by eexists. }
  assert (is_Some (d0 !! "subtype") ↔ ("subtype" ∈ (items t).*1)) as H1.
  { unfold d0. rewrite lookup_insert_ne by done. apply dict_is_Some. }
  destruct (text t) as [txt|] eqn:Htxt.
  - destruct (Py.is_empty txt) eqn:Hemp; simpl.
    + intros Hd. split; [by apply (sanitize_key_iff _ _ _ _ Ht Hd)|].
      rewrite (sanitize_key_iff _ _ _ _ Hs Hd), H1.
      apply PyFacts.is_empty_true in Hemp. split; [by right|].
      intros [(txt' & [= <-] & Hne)|Hin]; done.
    + destruct (<["description" := txt]> d0 !! "name") as [name|]; [|done].
      simpl. intros Hd. split.
      * apply (sanitize_key_iff _ _ _ _ Ht Hd).
        rewrite !lookup_insert_ne by done. exact H0.
      * rewrite (sanitize_key_iff _ _ _ _ Hs Hd). rewrite lookup_insert_eq.
        split; [|by eexists]. intros _. left. exists txt. split; [done|].
        by apply PyFacts.is_empty_false in Hemp.
  - simpl. intros Hd. split; [by apply (sanitize_key_iff _ _ _ _ Ht Hd)|].
    rewrite (sanitize_key_iff _ _ _ _ Hs Hd), H1. split; [by right|].
    intros [(txt' & [=] & _)|Hin]; done.
Qed.

Lemma vcard_keys (s body desc : string) (pairs : list (string * string))
    (lang : language E) (d : gmap string string) :
  squeeze_keeps E "type" → squeeze_keeps E "subtype" →
  Py.split1 "}}" s = [body; desc] → Vcard.pairs body = Ok pairs →
  Vcard.read E s lang = Ok d →
  (is_Some (d !! "type") ↔ ("type" ∈ pairs.*1)) ∧
  (is_Some (d !! "subtype") ↔
   ("subtype" ∈ pairs.*1) ∨ default desc (dict pairs !! "description") ≠ "").
Proof.
  intros Ht Hs Hsplit Hpairs. unfold Vcard.read. rewrite Hsplit, Hpairs. simpl.
  set (d0 := match dict pairs !! "description" with
             | Some _ => dict pairs
             | None => <["description" := desc]> (dict pairs)
             end).
  assert (∀ k, k ≠ "description" → d0 !! k = dict pairs !! k) as Hsame.
  { intros k Hk. unfold d0. destruct (dict pairs !! "description"); [done|].
    by rewrite lookup_insert_ne. }
  assert (d0 !! "description" = Some (default desc (dict pairs !! "description")))
    as Hdesc.
  { unfold d0. destruct (dict pairs !! "description") eqn:Hx; [done|].
    by rewrite lookup_insert_eq. }
  rewrite Hdesc. simpl.
  set (eff := default desc (dict pairs !! "description")).
  set (cond := Py.is_empty _ && negb (Py.is_empty eff)).
  intros Hd. split.
  - rewrite (sanitize_key_iff _ _ _ _ Ht Hd), <- dict_is_Some, <- Hsame by done.
    destruct cond; [by rewrite lookup_insert_ne|done].
  - rewrite (sanitize_key_iff _ _ _ _ Hs Hd), <- dict_is_Some, <- Hsame by done.
    destruct cond eqn:Hcond.
    + rewrite lookup_insert_eq. split; [|by eexists]. intros _. right.
      unfold cond in Hcond. apply andb_prop in Hcond as [_ Hne].
      apply negb_true_iff in Hne. by apply PyFacts.is_empty_false in Hne.
    + split; [by left|]. intros [Hin|Hne]; [done|].
      unfold cond in Hcond. apply andb_false_iff in Hcond as [Hc|Hc].
      * by destruct (d0 !! "subtype").
      * apply negb_false_iff, PyFacts.is_empty_true in Hc. done.
Qed.

End WithEnv.
End TypeFacts.

(** C4, as the code has it.  With a [squeeze] that takes the two names,
    and no other name, to themselves: a record of the Untagged
    extractor carries [type] and [subtype]; a record of the Tag
    extractor carries [type], and carries [subtype] exactly when the
    element has text that is not empty or a subtype attribute; a record
    of the Card extractor carries [type] exactly when the card has a
    [type] pair, and [subtype] exactly when the card has a [subtype]
    pair or a description that is not empty, the description being that
    of the card's last [description] pair when it has one and the text
    after the closing braces otherwise. *)
Theorem records_carry_type_subtype (E : Env) :
  squeeze_keeps E "type" → squeeze_keeps E "subtype" →
  (∀ s lang d, Untagged.read E s lang = Ok d →
     is_Some (d !! "type") ∧ is_Some (d !! "subtype")) ∧
  (∀ s lang t d, Tag.root E s = Ok t → Tag.read E s lang = Ok d →
     is_Some (d !! "type") ∧
     (is_Some (d !! "subtype") ↔
      (∃ txt, text t = Some txt ∧ txt ≠ "") ∨ ("subtype" ∈ (items t).*1))) ∧
  (∀ s body desc pairs lang d,
     Py.split1 "}}" s = [body; desc] → Vcard.pairs body = Ok pairs →
     Vcard.read E s lang = Ok d →
     (is_Some (d !! "type") ↔ ("type" ∈ pairs.*1)) ∧
     (is_Some (d !! "subtype") ↔
      ("subtype" ∈ pairs.*1) ∨ default desc (dict pairs !! "description") ≠ "")).
Proof.
  intros Ht Hs. split; [|split].
  - intros s lang d. by apply TypeFacts.untagged_keys.
  - intros s lang t d. by apply TypeFacts.tag_keys.
  - intros s body desc pairs lang d. by apply TypeFacts.vcard_keys.
Qed.

Lemma records_carry_type_subtype_witness :
  (is_Some (({[ "subtype" := "sight"; "name" := "'''The Pub'''"; "type" := "see";
               "description" := "Main street 5, open daily until late." ]}
             : gmap string string) !! "type") ∧
   is_Some (({[ "subtype" := "sight"; "name" := "'''The Pub'''"; "type" := "see";
               "description" := "Main street 5, open daily until late." ]}
             : gmap string string) !! "subtype")) ∧
  (is_Some (({[ "name" := "The Pub"; "type" := "eat" ]} : gmap string string) !! "type") ∧
   (is_Some (({[ "name" := "The Pub"; "type" := "eat" ]} : gmap string string)
             !! "subtype") ↔
    (∃ txt, text (Element "eat" [("name", "The Pub")] None []) = Some txt ∧ txt ≠ "") ∨
    ("subtype" ∈ (items (Element "eat" [("name", "The Pub")] None [])).*1))) ∧
  ((is_Some (({[ "subtype" := "sight"; "name" := "The Pub"; "type" := "eat";
                "description" := "Good food." ]} : gmap string string) !! "type") ↔
    ("type" ∈ [("type", "eat"); ("name", "The Pub")].*1)) ∧
   (is_Some (({[ "subtype" := "sight"; "name" := "The Pub"; "type" := "eat";
                "description" := "Good food." ]} : gmap string string) !! "subtype") ↔
    ("subtype" ∈ [("type", "eat"); ("name", "The Pub")].*1) ∨
    default " good food"
      (dict [("type", "eat"); ("name", "The Pub")] !! "description") ≠ "")) ∧
  ((is_Some (({[ "name" := "X"; "description" := "" ]} : gmap string string) !! "type") ↔
    ("type" ∈ [("name", "X"); ("description", "")].*1)) ∧
   (is_Some (({[ "name" := "X"; "description" := "" ]} : gmap string string)
             !! "subtype") ↔
    ("subtype" ∈ [("name", "X"); ("description", "")].*1) ∨
    default " a nice hotel"
      (dict [("name", "X"); ("description", "")] !! "description") ≠ "")).
Proof.
  assert (squeeze_keeps Sample.env "type") as Ht.
  { split; [by apply SampleFacts.squeeze_no_space|].
    intros k Hk. by apply SampleFacts.squeeze_onto_no_space. }
  assert (squeeze_keeps Sample.env "subtype") as Hs.
  { split; [by apply SampleFacts.squeeze_no_space|].
    intros k Hk. by apply SampleFacts.squeeze_onto_no_space. }
  destruct (records_carry_type_subtype Sample.env Ht Hs) as (HU & HT & HV).
  split_and!.
  - apply (HU "'''The Pub''', Main street 5, open daily until late" "english").
    vm_compute. reflexivity.
  - apply (HU "'''The Pub''', Main street 5, open daily until late" "english").
    vm_compute. reflexivity.
  - apply (HT ("<eat name=" +:+ Py.dq +:+ "The Pub" +:+ Py.dq +:+ "></eat>") "english"
              (Element "eat" [("name", "The Pub")] None [])).
    + vm_compute. reflexivity.
    + vm_compute. reflexivity.
  - apply (HT ("<eat name=" +:+ Py.dq +:+ "The Pub" +:+ Py.dq +:+ "></eat>") "english"
              (Element "eat" [("name", "The Pub")] None [])).
    + vm_compute. reflexivity.
    + vm_compute. reflexivity.
  - apply (HV "{{vcard|type=eat|name=The Pub}} good food"
              "{{vcard|type=eat|name=The Pub" " good food"
              [("type", "eat"); ("name", "The Pub")] "english").
    + reflexivity.
    + reflexivity.
    + vm_compute. reflexivity.
  - apply (HV "{{vcard|type=eat|name=The Pub}} good food"
              "{{vcard|type=eat|name=The Pub" " good food"
              [("type", "eat"); ("name", "The Pub")] "english").
    + reflexivity.
    + reflexivity.
    + vm_compute. reflexivity.
  - apply (HV "{{vcard|name=X|description=}} a nice hotel"
              "{{vcard|name=X|description=" " a nice hotel"
              [("name", "X"); ("description", "")] "english").
    + reflexivity.
    + reflexivity.
    + vm_compute. reflexivity.
  - apply (HV "{{vcard|name=X|description=}} a nice hotel"
              "{{vcard|name=X|description=" " a nice hotel"
              [("name", "X"); ("description", "")] "english").
    + reflexivity.
    + reflexivity.
    + vm_compute. reflexivity.
Defined.

(** C4 as stated fails: the Card extractor adds no [type], and no
    [subtype] either when the card comes without a description. *)
Lemma vcard_without_type_counterexample :
  parse_wikicode Sample.env "{{vcard|name=The Pub}}" "raw" "english"
    = Ok (Records [ {[ "name" := "The Pub"; "description" := "" ]} ]) ∧
  ({[ "name" := "The Pub"; "description" := "" ]} : gmap string string) !! "type" = None ∧
  ({[ "name" := "The Pub"; "description" := "" ]} : gmap string string) !! "subtype" = None.
Proof. repeat split; vm_compute; reflexivity. Qed.

(** Nor does the Tag extractor add a [subtype] to an element without
    text. *)
Remark tag_without_subtype :
  Tag.read Sample.env ("<eat name=" +:+ Py.dq +:+ "The Pub" +:+ Py.dq +:+ "></eat>") "english"
    = Ok {[ "name" := "The Pub"; "type" := "eat" ]}.
Proof. vm_compute. reflexivity. Qed.


(** * Sorting and grouping the labelled chunks (claim C7) *)

Module GroupFacts.
Import ResFacts.

Lemma compare_refl (a : string) : String.compare a a = Eq.
Proof.
  pose proof (String.compare_antisym a a) as H.
  by destruct (String.compare a a).
Qed.

Lemma ltb_leb (a b : string) :
  String.ltb a b = true ↔ String.leb a b = true ∧ a ≠ b.
Proof.
  unfold String.ltb, String.leb. split.
  - destruct (String.compare a b) eqn:Hc; try done.
    intros _. split; [done|]. intros ->. by rewrite compare_refl in Hc.
  - intros [Hle Hne]. destruct (String.compare a b) eqn:Hc; try done.
    by apply String.compare_eq_iff in Hc.
Qed.

Lemma ltb_irrefl (a : string) : String.ltb a a = false.
Proof. unfold String.ltb. by rewrite compare_refl. Qed.

Lemma ltb_neq (a b : string) : String.ltb a b = true → a ≠ b.
Proof. intros H ->. by rewrite ltb_irrefl in H. Qed.

Lemma ltb_asym (a b : string) : String.ltb a b = true → String.ltb b a = false.
Proof.
  unfold String.ltb. rewrite (String.compare_antisym a b).
  by destruct (String.compare b a).
Qed.

Lemma ltb_trans (a b c : string) :
  String.ltb a b = true → String.ltb b c = true → String.ltb a c = true.
Proof.
  rewrite !ltb_leb. intros [H1 N1] [H2 N2].
  apply Is_true_true in H1, H2.
  assert (String.le a c) as H3 by (by trans b).
  split; [by apply Is_true_true|].
  intros ->. apply N1. by apply (anti_symm String.le).
Qed.

Lemma ltb_total (a b : string) :
  String.ltb a b = true ∨ a = b ∨ String.ltb b a = true.
Proof.
  unfold String.ltb. rewrite (String.compare_antisym b a).
  destruct (String.compare a b) eqn:Hc; simpl; auto.
  right. left. by apply String.compare_eq_iff.
Qed.

(** The new pair goes past the pairs with a smaller label. *)
Lemma insert_skip (x : string * string) (A R : list (string * string)) :
  Forall (λ p, String.ltb p.1 x.1 = true) A →
  Untagged.insert_sorted x (A ++ R) = A ++ Untagged.insert_sorted x R.
Proof.
  induction 1 as [|y A Hy HA IH]; [done|]. simpl. by rewrite Hy, IH.
Qed.

Lemma insert_stop (x : string * string) (R : list (string * string)) :
  stops x R → Untagged.insert_sorted x R = x :: R.
Proof. destruct R as [|y R]; [done|]. simpl. by intros ->. Qed.

Lemma insert_early (x : string * string) (A R : list (string * string)) :
  stops x R → Untagged.insert_sorted x (A ++ R) = Untagged.insert_sorted x A ++ R.
Proof.
  intros HR. induction A as [|y A IH]; simpl.
  - by apply insert_stop.
  - destruct (String.ltb y.1 x.1); [by rewrite IH|done].
Qed.

Lemma insert_Forall (P : string * string → Prop) (x : string * string)
    (l : list (string * string)) :
  P x → Forall P l → Forall P (Untagged.insert_sorted x l).
Proof.
  intros Hx. induction 1 as [|y l Hy Hl IH]; simpl.
  - by constructor.
  - destruct (String.ltb y.1 x.1); constructor; auto.
Qed.

(** The sort is stable: the pairs of one label form a block, in their
    original order. *)
Lemma sorted_blocks (k : string) (l : list (string * string)) :
  ∃ A C, Untagged.sorted l = A ++ filter (λ p, p.1 = k) l ++ C ∧
         Forall (λ p, String.ltb p.1 k = true) A ∧
         Forall (λ p, String.ltb k p.1 = true) C.
Proof.
  induction l as [|x l (A & C & Heq & HA & HC)].
  - exists [], []. by repeat split.
  - unfold Untagged.sorted in *. simpl foldr. rewrite Heq.
    set (B := filter (λ p, p.1 = k) l) in *.
    assert (Forall (λ p : string * string, p.1 = k) B) as HB.
    { apply Forall_forall. intros p Hp. by apply list_elem_of_filter in Hp as [? _]. }
    destruct (ltb_total x.1 k) as [Hlt|[Heqk|Hgt]].
    + exists (Untagged.insert_sorted x A), C.
      rewrite filter_cons_False by (by apply ltb_neq). fold B.
      split; [|split; [by apply insert_Forall|done]].
      apply insert_early. destruct B as [|y B']; simpl.
      * destruct C as [|y C']; [done|]. simpl.
        apply Forall_cons in HC as [Hy _].
        apply ltb_asym. by apply (ltb_trans _ k).
      * apply Forall_cons in HB as [-> _]. by apply ltb_asym.
    + exists A, C. rewrite filter_cons_True by done. fold B.
      split; [|done]. rewrite insert_skip.
      2:{ eapply Forall_impl; [exact HA|]. intros p Hp. by rewrite Heqk. }
      f_equal. apply (insert_stop x (B ++ C)).
      destruct B as [|y B']; simpl.
      * destruct C as [|y C']; [done|]. simpl.
        apply Forall_cons in HC as [Hy _]. rewrite Heqk. by apply ltb_asym.
      * apply Forall_cons in HB as [-> _]. rewrite Heqk. apply ltb_irrefl.
    + exists A, (Untagged.insert_sorted x C).
      rewrite filter_cons_False by (intros Hx; apply ltb_neq in Hgt; congruence).
      fold B. split; [|split; [done|by apply insert_Forall]].
      rewrite insert_skip.
      2:{ eapply Forall_impl; [exact HA|]. intros p Hp. by apply (ltb_trans _ k). }
      f_equal. rewrite insert_skip; [done|].
      eapply Forall_impl; [exact HB|]. intros p ->. done.
Qed.

Lemma groupby_keys (l : list (string * string)) (k : string) :
  k ∈ (Untagged.groupby l).*1 → k ∈ l.*1.
Proof.
  revert k. induction l as [|[a v] l IH]; intros k; [done|].
  simpl. destruct (Untagged.groupby l) as [|[k' g] gs] eqn:Hg.
  - simpl. rewrite !elem_of_cons. intros [->|H]; [by left|by apply elem_of_nil in H].
  - case_bool_decide as Hak; simpl; rewrite !elem_of_cons; simpl in IH.
    + intros [->|H]; [by left|]. right. apply IH. by apply list_elem_of_further.
    + intros [->|H]; [by left|]. right. apply IH. by apply elem_of_cons in H.
Qed.

(** A block of one label, followed by other labels, is one group. *)
Lemma groupby_block (k v : string) (B C : list (string * string)) :
  Forall (λ p, p.1 = k) B → k ∉ C.*1 →
  Untagged.groupby ((k, v) :: B ++ C) = (k, v :: B.*2) :: Untagged.groupby C.
Proof.
  intros HB HC. revert v. induction HB as [|[k' v'] B Hk HB IH]; intros v.
  - simpl. destruct (Untagged.groupby C) as [|[k' g] gs] eqn:Hg; [done|].
    case_bool_decide as Hkk; [|done]. subst k'.
    exfalso. apply HC, groupby_keys. rewrite Hg. apply list_elem_of_here.
  - simpl in Hk. subst k'.
    change (Untagged.groupby ((k, v) :: ((k, v') :: B) ++ C))
      with (match Untagged.groupby ((k, v') :: B ++ C) with
            | (k', g) :: gs =>
                if bool_decide (k = k') then (k, v :: g) :: gs
                else (k, [v]) :: (k', g) :: gs
            | [] => [(k, [v])]
            end).
    rewrite IH. by rewrite bool_decide_eq_true_2.
Qed.

(** Pairs of other labels in front only add groups in front. *)
Lemma groupby_front (k : string) (g : list string) (G : list (string * list string))
    (A R : list (string * string)) :
  k ∉ A.*1 → Untagged.groupby R = (k, g) :: G →
  ∃ G1, Untagged.groupby (A ++ R) = G1 ++ (k, g) :: G.
Proof.
  intros HA HR. induction A as [|[a v] A IH].
  - by exists [].
  - rewrite fmap_cons in HA. apply not_elem_of_cons in HA as [Hak HA].
    destruct (IH HA) as [G1 HG1]. simpl in *. rewrite HG1.
    destruct G1 as [|[k' g'] G1]; simpl.
    + rewrite bool_decide_eq_false_2 by done. by exists [(a, [v])].
    + case_bool_decide.
      * by exists ((a, v :: g') :: G1).
      * by exists ((a, [v]) :: (k', g') :: G1).
Qed.

Lemma filter_none (k : string) (l : list (string * string)) :
  (∀ p, p ∈ l → p.1 ≠ k) → filter (λ p, p.1 = k) l = [].
Proof.
  induction l as [|x l IH]; intros H; [done|].
  rewrite filter_cons_False by (apply H, list_elem_of_here).
  apply IH. intros p Hp. by apply H, list_elem_of_further.
Qed.

(** The group of a label: its chunks in the order of the text, and no
    later group has the label. *)
Lemma groupby_sorted (k v : string) (l before after : list (string * string)) :
  l = before ++ (k, v) :: after → k ∉ before.*1 →
  ∃ G1 G2 vs, Untagged.groupby (Untagged.sorted l) = G1 ++ (k, v :: vs) :: G2 ∧
              k ∉ G2.*1.
Proof.
  intros -> Hb.
  destruct (sorted_blocks k (before ++ (k, v) :: after)) as (A & C & -> & HA & HC).
  rewrite filter_app, filter_cons_True by done.
  assert (filter (λ p : string * string, p.1 = k) before = []) as ->.
  { apply filter_none. intros [k' v'] Hin Hk. simpl in Hk. subst k'.
    apply Hb, list_elem_of_fmap. by exists (k, v'). }
  simpl app.
  set (B := filter _ after).
  assert (Forall (λ p : string * string, p.1 = k) B) as HB.
  { apply Forall_forall. intros p Hp. by apply list_elem_of_filter in Hp as [? _]. }
  assert (k ∉ C.*1) as HCk.
  { intros ([k' v'] & -> & Hin)%list_elem_of_fmap.
    rewrite Forall_forall in HC. specialize (HC _ Hin). simpl in HC.
    by rewrite ltb_irrefl in HC. }
  assert (k ∉ A.*1) as HAk.
  { intros ([k' v'] & -> & Hin)%list_elem_of_fmap.
    rewrite Forall_forall in HA. specialize (HA _ Hin). simpl in HA.
    by rewrite ltb_irrefl in HA. }
  destruct (groupby_front k (v :: B.*2) (Untagged.groupby C) A ((k, v) :: B ++ C) HAk)
    as [G1 HG1].
  { by apply groupby_block. }
  exists G1, (Untagged.groupby C), (B.*2). split; [done|].
  intros H. by apply HCk, groupby_keys.
Qed.

End GroupFacts.

Module NameFacts.
Import ResFacts SanitizeFacts GroupFacts.

Section WithEnv.
Context (E : Env).

(** In the grouped chunks, [name] holds the first chunk labelled so. *)
Lemma grouped_name (s : string) (lang : language E) (c : string)
    (before after : list (string * string)) :
  Untagged.labelled E s lang = before ++ ("name", c) :: after →
  "name" ∉ before.*1 →
  dict (Untagged.grouped E s lang) !! "name" = Some c.
Proof.
  intros Hl Hb. unfold Untagged.grouped.
  destruct (groupby_sorted "name" c _ before after Hl Hb) as (G1 & G2 & vs & -> & HG2).
  rewrite fmap_app, fmap_cons. simpl.
  apply (dict_last_wins _ _ "name" c).
  intros ([k v] & Hk & Hin)%list_elem_of_fmap. simpl in Hk. subst k.
  apply list_elem_of_fmap in Hin as ([k' g] & [= <- _] & Hin).
  apply HG2, list_elem_of_fmap. by exists ("name", g).
Qed.

Lemma untagged_read_name (s : string) (lang : language E) (c : string)
    (before after : list (string * string)) (d : gmap string string) :
  squeeze_keeps E "name" →
  Untagged.labelled E s lang = before ++ ("name", c) :: after →
  "name" ∉ before.*1 →
  Untagged.read E s lang = Ok d →
  ∃ v, Wikiparser.sanitize_item E CUntagged "name" c = Ok ("name", v) ∧
       d !! "name" = Some v.
Proof.
  intros [Hfix Honly] Hl Hb Hd. unfold Untagged.read in Hd.
  eapply sanitize_lookup in Hd as (v & Hv & Hdv).
  - exists v. rewrite Hfix in *. done.
  - rewrite !lookup_insert_ne by done. by eapply grouped_name.
  - intros k2 _ Hk2. rewrite Hfix in Hk2. by apply Honly.
Qed.

Lemma vcard_read_name (s body desc : string) (before after : list (string * string))
    (v : string) (lang : language E) (d : gmap string string) :
  squeeze_keeps E "name" →
  Py.split1 "}}" s = [body; desc] →
  Vcard.pairs body = Ok (before ++ ("name", v) :: after) →
  "name" ∉ after.*1 →
  Vcard.read E s lang = Ok d →
  ∃ v', Wikiparser.sanitize_item E CVcard "name" v = Ok ("name", v') ∧
        d !! "name" = Some v'.
Proof.
  intros [Hfix Honly] Hsplit Hpairs Ha. unfold Vcard.read.
  rewrite Hsplit, Hpairs. simpl. intros Hd.
  eapply sanitize_lookup in Hd as (v' & Hv & Hdv).
  - exists v'. rewrite Hfix in *. done.
  - assert (dict (before ++ ("name", v) :: after) !! "name" = Some v) as Hn
      by (by apply dict_last_wins).
    destruct (_ && _).
    + rewrite lookup_insert_ne by done.
      destruct (dict _ !! "description"); [done|]. by rewrite lookup_insert_ne.
    + destruct (dict _ !! "description"); [done|]. by rewrite lookup_insert_ne.
  - intros k2 _ Hk2. rewrite Hfix in Hk2. by apply Honly.
Qed.

Lemma tag_read_name (s : string) (lang : language E) (t : element)
    (before after : list (string * string)) (v : string) (d : gmap string string) :
  squeeze_keeps E "name" →
  Tag.root E s = Ok t →
  items t = before ++ ("name", v) :: after →
  "name" ∉ after.*1 →
  Tag.read E s lang = Ok d →
  ∃ v', Wikiparser.sanitize_item E CTag "name" v = Ok ("name", v') ∧
        d !! "name" = Some v'.
Proof.
  intros [Hfix Honly] Hroot Hitems Ha. unfold Tag.read. rewrite Hroot. simpl.
  assert (dict (items t) !! "name" = Some v) as Hn.
  { rewrite Hitems. by apply dict_last_wins. }
  intros Hd.
  assert (∃ d0, Wikiparser.sanitize E CTag d0 = Ok d ∧ d0 !! "name" = Some v)
    as (d0 & Hs & Hd0).
  { destruct (text t) as [txt|].
    - destruct (Py.is_empty txt).
      + simpl in Hd. eexists. split; [exact Hd|]. by rewrite lookup_insert_ne.
      + rewrite !lookup_insert_ne, Hn in Hd by done. simpl in Hd.
        eexists. split; [exact Hd|]. by rewrite !lookup_insert_ne.
    - simpl in Hd. eexists. split; [exact Hd|]. by rewrite lookup_insert_ne. }
  eapply sanitize_lookup in Hs as (v' & Hv & Hdv); [|exact Hd0|].
  - exists v'. rewrite Hfix in *. done.
  - intros k2 _ Hk2. rewrite Hfix in Hk2. by apply Honly.
Qed.

End WithEnv.

Lemma sample_squeeze_keeps (name : string) :
  no_space name → squeeze_keeps Sample.env name.
Proof.
  intros Hn. split.
  - by apply SampleFacts.squeeze_no_space.
  - intros k Hk. by apply SampleFacts.squeeze_onto_no_space.
Qed.

End NameFacts.

(** C7, as the code has it.  A record is a mapping, so it holds one
    [name] at most.  With a [squeeze] that leaves the name alone, the
    value kept is: in the Untagged extractor the first chunk labelled
    [name], in the order of the text; in the Card extractor the last
    [name] pair of the card; in the Tag extractor the last [name] item
    the markup parser reports.  Each goes through the sanitizer. *)
Theorem name_kept (E : Env) :
  squeeze_keeps E "name" →
  (∀ s lang c before after d,
     Untagged.labelled E s lang = before ++ ("name", c) :: after →
     ("name" ∉ before.*1) →
     Untagged.read E s lang = Ok d →
     ∃ v, Wikiparser.sanitize_item E CUntagged "name" c = Ok ("name", v) ∧
          d !! "name" = Some v) ∧
  (∀ s body desc before after v lang d,
     Py.split1 "}}" s = [body; desc] →
     Vcard.pairs body = Ok (before ++ ("name", v) :: after) →
     ("name" ∉ after.*1) →
     Vcard.read E s lang = Ok d →
     ∃ v', Wikiparser.sanitize_item E CVcard "name" v = Ok ("name", v') ∧
           d !! "name" = Some v') ∧
  (∀ s lang t before after v d,
     Tag.root E s = Ok t →
     items t = before ++ ("name", v) :: after →
     ("name" ∉ after.*1) →
     Tag.read E s lang = Ok d →
     ∃ v', Wikiparser.sanitize_item E CTag "name" v = Ok ("name", v') ∧
           d !! "name" = Some v').
Proof.
  intros HE. split; [|split].
  - intros. by eapply NameFacts.untagged_read_name.
  - intros. by eapply NameFacts.vcard_read_name.
  - intros. by eapply NameFacts.tag_read_name.
Qed.

Lemma name_kept_witness :
  (∃ v, Wikiparser.sanitize_item Sample.env CUntagged "name" "'''The Pub'''" = Ok ("name", v) ∧
        ({[ "subtype" := "sight"; "name" := "'''The Pub'''"; "type" := "see";
            "description" := "Main street 5, open daily until late." ]}
         : gmap string string) !! "name" = Some v) ∧
  (∃ v, Wikiparser.sanitize_item Sample.env CVcard "name" "Second" = Ok ("name", v) ∧
        ({[ "name" := "Second"; "description" := "" ]} : gmap string string) !! "name"
        = Some v).
Proof.
  assert (squeeze_keeps Sample.env "name") as HE.
  { apply NameFacts.sample_squeeze_keeps. simpl. done. }
  destruct (name_kept Sample.env HE) as (HU & HV & _).
  split.
  - apply (HU "'''The Pub''', Main street 5, open daily until late" "english"
              "'''The Pub'''" []
              [("description", "Main street 5"); ("description", "open daily until late")]).
    + reflexivity.
    + apply not_elem_of_nil.
    + vm_compute. reflexivity.
  - apply (HV "{{vcard|name=First|name=Second}}" "{{vcard|name=First|name=Second" ""
              [("name", "First")] [] "Second" "english").
    + reflexivity.
    + reflexivity.
    + apply not_elem_of_nil.
    + vm_compute. reflexivity.
Defined.

(** C7 as stated fails: of two [name] pairs in a card the last one is
    kept, not the first. *)
Lemma vcard_last_name_counterexample :
  parse_wikicode Sample.env "{{vcard|name=First|name=Second}}" "raw" "english"
    = Ok (Records [ {[ "name" := "Second"; "description" := "" ]} ]).
Proof. vm_compute. reflexivity. Qed.


(** * The Tag serializer (claims C5 and C6) *)

Module TagFacts.
Import ResFacts SanitizeFacts.


Section WithEnv.
Context (E : Env).




End WithEnv.
End TagFacts.

(** C6 fails on the code: with an area code in the record the
    serializer reads [Vcard.number_fields], which no class defines, and
    raises instead of prefixing anything. *)
Theorem tostring_area_code_raises (E : Env) (d : gmap string string)
    (lang : language E) (ty code : string) :
  d !! "type" = Some ty → d !! "intl-area-code" = Some code → code ≠ "" →
  Tag.tostring E d lang = Raise (AttributeError "number_fields").
Proof.
  intros Hty Hcode Hne. unfold Tag.tostring, Tag.tostring_record.
  rewrite Hty. rewrite lookup_insert_ne by done. rewrite Hcode.
  by destruct code.
Qed.

(** The same at the entry point, for a card with an area code. *)
Remark area_code_card_raises :
  parse_wikicode Sample.env
    "{{vcard|type=eat|name=The Pub|intl-area-code=+49|phone=030 1234}}" "tag" "english"
  = Raise (AttributeError "number_fields").
Proof. vm_compute. reflexivity. Qed.

Lemma tostring_area_code_raises_witness :
  Tag.tostring Sample.env
    {[ "type" := "eat"; "name" := "The Pub"; "intl-area-code" := "+49";
       "phone" := "030 1234" ]} "english"
  = Raise (AttributeError "number_fields").
Proof.
  apply (tostring_area_code_raises Sample.env _ "english" "eat" "+49").
  - reflexivity.
  - reflexivity.
  - discriminate.
Defined.



(** * What [parse_wikicode] raises (claims C1 and C2) *)

Module RaiseFacts.
Import ResFacts.

Lemma description_raise (s : string) (e : exn) :
  Wikiparser.description s = Raise e → e = IndexError.
Proof.
  unfold Wikiparser.description. destruct (Py.is_empty _); [done|].
  destruct (Py.last _); [|congruence]. by destruct (Py.mem _ _).
Qed.

Lemma price_raise (s : string) (e : exn) :
  Wikiparser.price s = Raise e → e = IndexError.
Proof. destruct s; simpl; congruence. Qed.

Section WithEnv.
Context (E : Env).

Lemma numbers_raise (s : string) (e : exn) :
  Wikiparser.numbers E s = Raise e → e = IndexError.
Proof.
  unfold Wikiparser.numbers.
  destruct (Py.is_empty _); [done|].
  destruct (squeeze E _) as [|c0 tl]; simpl; [congruence|].
  destruct (Ascii.eqb c0 "0"); simpl; [|done].
  destruct tl as [|c1 tl']; simpl; [congruence|].
  by destruct (Ascii.eqb c1 " ").
Qed.

Lemma getattr_raise (cls : klass) (name : string) (f : string → res string)
    (v : string) (e : exn) :
  Wikiparser.getattr E cls name = Wikiparser.Sanitizer f → f v = Raise e → e = IndexError.
Proof.
  unfold Wikiparser.getattr.
  repeat (case_bool_decide;
          [intros [= <-];
           first [apply description_raise | apply numbers_raise
                 | apply price_raise | done]|]).
  destruct (Py.startswith _ _); [|by destruct (Wikiparser.own_attr _ _)].
  destruct (dunder_attr E name) as [[g|]|]; [|done|done]. by intros [= <-].
Qed.

Lemma sanitize_item_raise (cls : klass) (k v : string) (e : exn) :
  Wikiparser.sanitize_item E cls k v = Raise e → e = IndexError ∨ e = TypeError.
Proof.
  unfold Wikiparser.sanitize_item. destruct (Py.is_empty _); [done|].
  destruct (Wikiparser.getattr _ _ _) as [f| |] eqn:Hg; simpl.
  - destruct (f _) eqn:Hf; simpl; [done|]. intros [= <-]. left.
    by eapply getattr_raise.
  - intros [= <-]. by right.
  - done.
Qed.

Lemma sanitize_raise (cls : klass) (d : gmap string string) (e : exn) :
  Wikiparser.sanitize E cls d = Raise e → extractor_error e.
Proof.
  unfold Wikiparser.sanitize. destruct (mapM _ _) eqn:Hm; [done|]. simpl.
  intros [= <-]. apply mapM_raise in Hm as ([k v] & _ & Hkv).
  apply sanitize_item_raise in Hkv as [-> | ->]; unfold extractor_error; auto.
Qed.

Lemma untagged_parse_raise (line : string) (lang : language E) (b : bool) (e : exn) :
  Untagged.parse E line lang b = Raise e → extractor_error e.
Proof.
  unfold Untagged.parse. intros (l & _ & Hl)%mapM_raise.
  by apply sanitize_raise in Hl.
Qed.

Lemma pair_of_raise (pt : string) (e : exn) :
  Vcard.pair_of pt = Raise e → e = IndexError.
Proof.
  unfold Vcard.pair_of. destruct (Py.split _ _) as [|p0 [|p1 ?]]; congruence.
Qed.

Lemma vcard_read_raise (s : string) (lang : language E) (e : exn) :
  Vcard.read E s lang = Raise e → extractor_error e.
Proof.
  unfold Vcard.read.
  destruct (Py.split1 _ _) as [|a [|b [|]]];
    try (intros [= <-]; unfold extractor_error; by auto).
  destruct (Vcard.pairs a) eqn:Hp; simpl.
  - apply sanitize_raise.
  - intros [= <-]. unfold Vcard.pairs in Hp.
    apply mapM_raise in Hp as (pt & _ & Hpt). apply pair_of_raise in Hpt as ->.
    unfold extractor_error; auto.
Qed.

Lemma vcard_parse_raise (line : string) (lang : language E) (e : exn) :
  Vcard.parse E line lang = Raise e → extractor_error e.
Proof.
  unfold Vcard.parse. intros (l & _ & Hl)%mapM_raise. by apply vcard_read_raise in Hl.
Qed.

Lemma tag_read_raise (s : string) (lang : language E) (e : exn) :
  Tag.read E s lang = Raise e → extractor_error e.
Proof.
  unfold Tag.read, Tag.root.
  destruct (bool_decide _).
  - destruct (children _) as [|t0 ?]; simpl.
    { intros [= <-]. unfold extractor_error; auto. }
    destruct (text t0) as [txt|]; simpl; [|apply sanitize_raise].
    destruct (Py.is_empty txt); simpl; [apply sanitize_raise|].
    destruct (_ !! "name"); simpl; [apply sanitize_raise|].
    intros [= <-]. unfold extractor_error; auto.
  - simpl. destruct (text _) as [txt|]; simpl; [|apply sanitize_raise].
    destruct (Py.is_empty txt); simpl; [apply sanitize_raise|].
    destruct (_ !! "name"); simpl; [apply sanitize_raise|].
    intros [= <-]. unfold extractor_error; auto.
Qed.

Lemma tag_parse_raise (line : string) (lang : language E) (e : exn) :
  Tag.parse E line lang = Raise e → extractor_error e.
Proof.
  unfold Tag.parse. intros (l & _ & Hl)%mapM_raise. by apply tag_read_raise in Hl.
Qed.

Lemma fmap_raise {A B} (f : A → B) (m : res A) (e : exn) :
  f <$> m = Raise e → m = Raise e.
Proof. destruct m; unfold fmap, res_fmap; congruence. Qed.

Lemma strict_pass_raise (s : string) (lang : language E) (e : exn) :
  strict_pass E s lang = Raise e → extractor_error e.
Proof.
  unfold strict_pass. intros H%fmap_raise.
  apply mapM_raise in H as (line & _ & Hl).
  destruct (Tag.parse _ _ _) eqn:Ht; simpl in Hl;
    [|injection Hl as <-; by eapply tag_parse_raise].
  destruct (Vcard.parse _ _ _) eqn:Hv; simpl in Hl;
    [|injection Hl as <-; by eapply vcard_parse_raise].
  destruct (Untagged.parse _ _ _ _) eqn:Hu; simpl in Hl; [done|].
  injection Hl as <-. by eapply untagged_parse_raise.
Qed.

Lemma generous_pass_raise (s : string) (lang : language E) (e : exn) :
  generous_pass E s lang = Raise e → extractor_error e.
Proof.
  unfold generous_pass. intros H%fmap_raise.
  apply mapM_raise in H as (line & _ & Hl). by eapply untagged_parse_raise.
Qed.

Lemma extract_raise (s : string) (lang : language E) (e : exn) :
  extract E s lang = Raise e → extractor_error e.
Proof.
  unfold extract. destruct (strict_pass _ _ _) as [found|e'] eqn:Hs; simpl.
  - destruct found; [apply generous_pass_raise|done].
  - intros [= <-]. by eapply strict_pass_raise.
Qed.

Lemma tostring_raise (d : gmap string string) (lang : language E) (e : exn) :
  Tag.tostring E d lang = Raise e → serializer_error e.
Proof.
  unfold Tag.tostring, Tag.tostring_record.
  destruct (d !! "type"); [|intros [= <-]; by left].
  destruct (_ !! "intl-area-code") as [code|]; [|done].
  destruct (Py.is_empty code); [done|]. intros [= <-]. by right.
Qed.

(** What the last statement does with the records. *)
Lemma render_cases (found : list (gmap string string)) (fmt : string)
    (lang : language E) :
  match render E found fmt lang with
  | Ok _ => fmt ∈ formats
  | Raise e =>
      ((fmt ∉ formats) ∧ e = invalid_format fmt) ∨
      (fmt = "tag" ∧ serializer_error e ∧
       ∃ d, (d ∈ found) ∧ Tag.tostring E d lang = Raise e)
  end.
Proof.
  unfold render, formats.
  case_bool_decide as H1; [subst; rewrite !elem_of_cons; by auto|].
  case_bool_decide as H2; [subst; rewrite !elem_of_cons; by auto|].
  case_bool_decide as H3.
  - subst. destruct (mapM _ _) eqn:Hm; simpl; [rewrite !elem_of_cons; by auto|].
    right. apply mapM_raise in Hm as (d & Hd & He).
    split; [done|]. split; [by eapply tostring_raise|]. by exists d.
  - case_bool_decide as H4; [subst; rewrite !elem_of_cons; by auto 6|].
    left. split; [|done].
    rewrite !elem_of_cons, elem_of_nil. by intros [?|[?|[?|[?|?]]]].
Qed.

End WithEnv.

Lemma extractor_error_not_format (e : exn) (x : string) :
  extractor_error e → e ≠ invalid_format x.
Proof. unfold invalid_format. by intros [->|[->|[-> | ->]]]. Qed.

Lemma serializer_error_not_format (e : exn) (x : string) :
  serializer_error e → e ≠ invalid_format x.
Proof. unfold invalid_format. by intros [-> | ->]. Qed.

End RaiseFacts.

Lemma invalid_format_inj (x y : string) : invalid_format x = invalid_format y → x = y.
Proof. unfold invalid_format. intros [= H]. by apply (inj (String.app _)) in H. Qed.

(** The invalid-format error is raised for an unknown format only, and
    names it. *)
Lemma invalid_format_only (E : Env) (input_str fmt language x : string) :
  parse_wikicode E input_str fmt language = Raise (invalid_format x) →
  x = fmt ∧ (fmt ∉ formats).
Proof.
  unfold parse_wikicode.
  destruct (extract E _ _) as [found|e] eqn:Hx; simpl.
  - pose proof (RaiseFacts.render_cases E found fmt (resolve_language E language)) as Hr.
    intros Hx'. rewrite Hx' in Hr.
    destruct Hr as [[Hn He]|(_ & He & _)].
    + split; [|done]. by apply invalid_format_inj.
    + by apply (RaiseFacts.serializer_error_not_format _ x) in He.
  - intros [= ->]. apply RaiseFacts.extract_raise in Hx.
    by apply (RaiseFacts.extractor_error_not_format _ x) in Hx.
Qed.







(** The same holds for a tag element with text and no name, and for a
    record without type that goes to the Tag serializer. *)
Remark tag_without_name_raises :
  parse_wikicode Sample.env
    ("<eat alt=" +:+ Py.dq +:+ "The Pub" +:+ Py.dq +:+ ">good food</eat>")
    "vcard" "english" = Raise (KeyError "name").
Proof. vm_compute. reflexivity. Qed.

Remark record_without_type_raises :
  parse_wikicode Sample.env "{{vcard|name=The Pub}}" "tag" "english"
    = Raise (KeyError "type").
Proof. vm_compute. reflexivity. Qed.

(** C2, as the code has it.  The output format is looked at after the
    extraction: once the extraction has gone through, an output format
    that is none of the four raises the invalid-argument error that
    names it; for each of the four, [parse_wikicode] raises that error
    for no value at all. *)
Theorem invalid_format_error (E : Env) (input_str fmt language : string) :
  ((fmt ∉ formats) →
   (∃ found, extract E (html_decode E input_str) (resolve_language E language)
             = Ok found) →
   parse_wikicode E input_str fmt language
     = Raise (ValueError ("Invalid output outputformat: " +:+ fmt))) ∧
  ((fmt ∈ formats) →
   ∀ x, parse_wikicode E input_str fmt language
          ≠ Raise (ValueError ("Invalid output outputformat: " +:+ x))).
Proof.
  split.
  - intros Hn [found Hf]. unfold parse_wikicode. rewrite Hf. simpl.
    unfold render, formats in *. rewrite !elem_of_cons, elem_of_nil in Hn.
    repeat (case_bool_decide; [exfalso; apply Hn; by auto 6|]). done.
  - intros Hin x Hx.
    by destruct (invalid_format_only E input_str fmt language x Hx) as [_ Hn].
Qed.

Lemma invalid_format_error_witness :
  parse_wikicode Sample.env "{{vcard|name=The Pub}}" "xml" "english"
    = Raise (ValueError "Invalid output outputformat: xml") ∧
  parse_wikicode Sample.env "{{vcard|name=The Pub}}" "json" "english"
    ≠ Raise (ValueError "Invalid output outputformat: json").
Proof.
  split.
  - apply (invalid_format_error Sample.env "{{vcard|name=The Pub}}" "xml" "english").
    + unfold formats. rewrite !elem_of_cons, elem_of_nil. by intros [|[|[|[|]]]].
    + exists [ {[ "name" := "The Pub"; "description" := "" ]} ].
      vm_compute. reflexivity.
  - apply (invalid_format_error Sample.env "{{vcard|name=The Pub}}" "json" "english").
    unfold formats. rewrite !elem_of_cons. auto.
Defined.

(** C2 as stated fails: when an extractor raises, an unknown output
    format is never looked at, and the caller gets the extractor's
    exception. *)
Lemma unknown_format_unreached_counterexample :
  parse_wikicode Sample.env "{{vcard|name}}" "xml" "english" = Raise IndexError ∧
  "xml" ∉ formats.
Proof.
  split; [vm_compute; reflexivity|].
  unfold formats. rewrite !elem_of_cons, elem_of_nil. by intros [|[|[|[|]]]].
Qed.

(** * The round trip through the Tag dialect (claim C5) *)

Module RoundTripFacts.
Import ResFacts SanitizeFacts.

Section WithEnv.
Context (E : Env).




End WithEnv.
End RoundTripFacts.



(** * The rules a second pass leaves alone: [url] and [price] *)

Module StableFacts.
Import PyFacts.

Lemma tidy_squeeze_from (s : string) (b : bool) :
  tidy b (Sample.squeeze_from b s) = true.
Proof.
  revert b. induction s as [|c s IH]; intros b; [done|]. simpl.
  destruct (Ascii.is_space c) eqn:Hc.
  - destruct b; [apply IH|]. simpl. by rewrite IH.
  - simpl. rewrite Hc. apply IH.
Qed.

Lemma tidy_fixed (s : string) (b : bool) :
  tidy b s = true → Sample.squeeze_from b s = s.
Proof.
  revert b. induction s as [|c s IH]; intros b; [done|]. simpl.
  destruct (Ascii.is_space c) eqn:Hc.
  - intros [[Hsp Hb%negb_true_iff]%andb_prop Ht]%andb_prop. subst b.
    apply eqb_true in Hsp as ->. by rewrite IH.
  - intros Ht. by rewrite IH.
Qed.

Lemma tidy_squeezed (s : string) : tidy false (Sample.squeeze_ws s) = true.
Proof. apply tidy_squeeze_from. Qed.

Lemma tidy_weaken (s : string) (b : bool) : tidy b s = true → tidy false s = true.
Proof.
  destruct s as [|c s]; [done|]. simpl. destruct (Ascii.is_space c); [|done].
  intros [[-> _]%andb_prop ->]%andb_prop. done.
Qed.

Lemma tidy_lstrip (p : ascii → bool) (s : string) (b : bool) :
  tidy b s = true → tidy false (Py.lstrip_by p s) = true.
Proof.
  revert b. induction s as [|c s IH]; intros b Ht; [done|]. simpl.
  destruct (p c); [|by eapply tidy_weaken].
  simpl in Ht. destruct (Ascii.is_space c).
  - apply andb_prop in Ht as [_ Ht]. by eapply IH.
  - by eapply IH.
Qed.

Lemma tidy_rstrip (p : ascii → bool) (s : string) (b : bool) :
  tidy b s = true → tidy b (Py.rstrip_by p s) = true.
Proof.
  revert b. induction s as [|c s IH]; intros b Ht; [done|]. simpl in *.
  destruct (Ascii.is_space c) eqn:Hc.
  - apply andb_prop in Ht as [Hcb Ht]. specialize (IH _ Ht).
    destruct (Py.rstrip_by p s) as [|c' s'].
    + destruct (p c); [done|]. simpl. by rewrite Hc, Hcb.
    + simpl in *. by rewrite Hc, Hcb, IH.
  - specialize (IH _ Ht). destruct (Py.rstrip_by p s) as [|c' s'].
    + destruct (p c); [done|]. simpl. by rewrite Hc.
    + simpl in *. by rewrite Hc, IH.
Qed.

Lemma tidy_split_once (sep s a r : string) (b : bool) :
  Py.split_once sep s = Some (a, r) → tidy b s = true → tidy b a = true.
Proof.
  revert a b. induction s as [|c s IH]; intros a b; simpl.
  - destruct (Py.startswith sep ""); [|done]. by intros [= <- _].
  - destruct (Py.startswith sep (String c s)); [by intros [= <- _]|].
    destruct (Py.split_once sep s) as [[a' r']|] eqn:Hs; [|done].
    intros [= <- <-]. simpl. destruct (Ascii.is_space c).
    + intros [Hcb Ht]%andb_prop. rewrite Hcb. by eapply IH.
    + by eapply IH.
Qed.

Lemma upper_char_idem (c : ascii) : Py.upper_char (Py.upper_char c) = Py.upper_char c.
Proof. by destruct c as [[] [] [] [] [] [] [] []]. Qed.

Lemma upper_char_space (c : ascii) :
  Ascii.is_space (Py.upper_char c) = Ascii.is_space c ∧
  Ascii.eqb (Py.upper_char c) " " = Ascii.eqb c " ".
Proof. by destruct c as [[] [] [] [] [] [] [] []]. Qed.

Lemma rstrip_idem (p : ascii → bool) (s : string) :
  Py.rstrip_by p (Py.rstrip_by p s) = Py.rstrip_by p s.
Proof.
  induction s as [|c s IH]; [done|]. simpl.
  destruct (Py.rstrip_by p s) as [|c' s'] eqn:Hr.
  - destruct (p c) eqn:Hp; [done|]. simpl. by rewrite Hp.
  - simpl in *. by rewrite IH.
Qed.

(** What is left of a stripped value begins with none of the stripped
    characters. *)
Lemma strip_head (chars s : string) :
  Py.strip chars s = "" ∨
  ∃ c r, Py.strip chars s = String c r ∧ Py.mem c chars = false.
Proof.
  unfold Py.strip, Py.rstrip, Py.lstrip.
  induction s as [|c s IH]; [by left|]. simpl.
  destruct (Py.mem c chars) eqn:Hc; [done|].
  right. simpl. destruct (Py.rstrip_by _ s).
  - rewrite Hc. by eexists _, _.
  - by eexists _, _.
Qed.

Lemma startswith_char (a c : ascii) (r : string) :
  Py.startswith (String a "") (String c r) = Ascii.eqb a c.
Proof. simpl. by destruct (Ascii.eqb a c). Qed.

Lemma split_once_head (a c : ascii) (r : string) :
  Ascii.eqb a c = false →
  Py.split_once (String a "") (String c r) =
    match Py.split_once (String a "") r with
    | Some (x, y) => Some (String c x, y)
    | None => None
    end.
Proof. intros H. simpl. by rewrite H. Qed.

Lemma url_unwrap_head (s : string) : Py.startswith "[" (Wikiparser.url_unwrap s) = false.
Proof.
  unfold Wikiparser.url_unwrap. destruct (Py.startswith "[" s) eqn:Hs; [|done].
  destruct (strip_head "[] " s) as [->|(c & r & -> & Hc)]; [done|].
  assert (Ascii.eqb "[" c = false ∧ Ascii.eqb " " c = false) as [N1 N2].
  { split; apply eqb_false; intros <-; done. }
  destruct (Py.contains " " (String c r)).
  - unfold Py.split1. rewrite (split_once_head " " c r N2).
    destruct (Py.split_once " " r) as [[a b]|]; simpl default.
    + by rewrite startswith_char.
    + by rewrite startswith_char.
  - by rewrite startswith_char.
Qed.

Lemma url_cases (s : string) :
  let u := Wikiparser.url_unwrap s in
  (Wikiparser.url s = u ∧ Py.contains "//" u = true) ∨
  (Wikiparser.url s = "http://" +:+ u ∧ Py.contains "//" u = false).
Proof.
  intros u. unfold Wikiparser.url. fold u.
  destruct (Py.contains "//" u) eqn:Hc.
  - left. by rewrite andb_false_r.
  - right. destruct (Py.startswith "http://" u) eqn:Hs; [|done].
    apply startswith_inv in Hs as [r Hr].
    pose proof (contains_app "//" "http:" r) as Hx.
    change ("http:" +:+ "//" +:+ r) with ("http://" +:+ r) in Hx. congruence.
Qed.

Lemma url_fixed (w : string) :
  Py.startswith "[" w = false → Py.contains "//" w = true → Wikiparser.url w = w.
Proof.
  intros Hh Hc. unfold Wikiparser.url, Wikiparser.url_unwrap.
  rewrite Hh, Hc. by rewrite andb_false_r.
Qed.

Lemma url_idem (s : string) : Wikiparser.url (Wikiparser.url s) = Wikiparser.url s.
Proof.
  destruct (url_cases s) as [[-> Hc]|[-> Hc]].
  - apply url_fixed; [apply url_unwrap_head|done].
  - apply url_fixed; [done|]. apply (contains_app "//" "http:").
Qed.

Lemma tidy_url_unwrap (s : string) :
  tidy false s = true → tidy false (Wikiparser.url_unwrap s) = true.
Proof.
  intros Ht. unfold Wikiparser.url_unwrap.
  destruct (Py.startswith "[" s); [|done].
  assert (tidy false (Py.strip "[] " s) = true) as Hs.
  { unfold Py.strip, Py.rstrip, Py.lstrip. by eapply tidy_rstrip, tidy_lstrip. }
  destruct (Py.contains " " _); [|done].
  unfold Py.split1. destruct (Py.split_once " " _) as [[a b]|] eqn:Hsp; simpl; [|done].
  by eapply tidy_split_once.
Qed.

Lemma tidy_url (s : string) : tidy false s = true → tidy false (Wikiparser.url s) = true.
Proof.
  intros Ht%tidy_url_unwrap.
  by destruct (url_cases s) as [[-> _]|[-> _]].
Qed.

Lemma price_stable (v v' : string) :
  Wikiparser.price v = Ok v' → Wikiparser.price v' = Ok v'.
Proof.
  destruct v as [|c r]; [done|]. intros [= <-]. simpl.
  rewrite upper_char_idem. unfold Py.rstrip. by rewrite rstrip_idem.
Qed.

Lemma tidy_price (v v' : string) :
  Wikiparser.price v = Ok v' → tidy false v = true → tidy false v' = true.
Proof.
  destruct v as [|c r]; [done|]. intros [= <-]. simpl.
  destruct (upper_char_space c) as [-> ->].
  destruct (Ascii.is_space c).
  - intros [Hc Ht]%andb_prop. rewrite Hc. by apply tidy_rstrip.
  - by apply tidy_rstrip.
Qed.

Lemma price_nonempty (v v' : string) : Wikiparser.price v = Ok v' → v' ≠ "".
Proof. destruct v; [done|]. by intros [= <-]. Qed.

End StableFacts.

Module ItemFacts.
Import PyFacts ResFacts SanitizeFacts StableFacts.

Section WithEnv.
Context (E : Env).
Hypothesis squeeze_spec : ∀ s, squeeze E s = Sample.squeeze_ws s.

Lemma squeeze_twice (s : string) : squeeze E (squeeze E s) = squeeze E s.
Proof. rewrite !squeeze_spec. apply SampleFacts.squeeze_idem. Qed.

Lemma squeeze_tidy (s : string) : tidy false (squeeze E s) = true.
Proof. rewrite squeeze_spec. apply tidy_squeezed. Qed.

Lemma squeeze_of_tidy (s : string) : tidy false s = true → squeeze E s = s.
Proof. rewrite squeeze_spec. apply tidy_fixed. Qed.

Lemma sanitize_item_unfold (cls : klass) (k v : string) :
  Wikiparser.sanitize_item E cls k v =
    if Py.is_empty (squeeze E v) then Ok (squeeze E k, squeeze E v)
    else
      match Wikiparser.getattr E cls (rule_name (squeeze E k)) with
      | Wikiparser.Sanitizer f => f (squeeze E v)
      | Wikiparser.NotSanitizer => Raise TypeError
      | Wikiparser.Absent => Ok (Wikiparser.default_ (squeeze E v))
      end ≫= λ val, Ok (squeeze E k, val).
Proof. reflexivity. Qed.

Lemma getattr_url (cls : klass) :
  Wikiparser.getattr E cls "url" = Wikiparser.Sanitizer (λ v, Ok (Wikiparser.url v)).
Proof. reflexivity. Qed.

Lemma getattr_price (cls : klass) :
  Wikiparser.getattr E cls "price" = Wikiparser.Sanitizer Wikiparser.price.
Proof. reflexivity. Qed.

(** An item under a stable rule is sanitized, and sanitizing the result
    gives the result back. *)
Lemma item_stable (cls : klass) (k v : string) :
  stable_rule E cls (squeeze E k) = true →
  ∃ v', Wikiparser.sanitize_item E cls k v = Ok (squeeze E k, v') ∧
        Wikiparser.sanitize_item E cls (squeeze E k) v' = Ok (squeeze E k, v').
Proof.
  unfold stable_rule. intros [Hid|Hin%bool_decide_eq_true]%orb_prop.
  - exists (squeeze E v). split; [by apply sanitize_item_identity|].
    rewrite sanitize_item_identity by (by rewrite squeeze_twice).
    by rewrite !squeeze_twice.
  - rewrite sanitize_item_unfold.
    destruct (Py.is_empty (squeeze E v)) eqn:Hv.
    { exists (squeeze E v). split; [done|].
      by rewrite sanitize_item_unfold, !squeeze_twice, Hv. }
    pose proof (squeeze_tidy v) as Ht.
    rewrite !elem_of_cons, elem_of_nil in Hin. destruct Hin as [Hr | [Hr | []]].
    + rewrite Hr, getattr_url. simpl.
      exists (Wikiparser.url (squeeze E v)). split; [done|].
      rewrite sanitize_item_unfold, squeeze_twice, Hr, getattr_url.
      rewrite (squeeze_of_tidy _ (tidy_url _ Ht)).
      simpl. rewrite url_idem.
      by destruct (Py.is_empty (Wikiparser.url (squeeze E v))).
    + rewrite Hr, getattr_price. simpl.
      destruct (squeeze E v) as [|c r] eqn:Hsv; [done|].
      destruct (Wikiparser.price (String c r)) as [v'|] eqn:Hp; [|done].
      simpl. exists v'. split; [done|].
      rewrite sanitize_item_unfold, squeeze_twice, Hr, getattr_price.
      rewrite (squeeze_of_tidy _ (tidy_price _ _ Hp Ht)).
      rewrite (proj2 (is_empty_false v')) by (by eapply price_nonempty).
      by rewrite (price_stable _ _ Hp).
Qed.

End WithEnv.
End ItemFacts.

(** C3, as the code has it.  With the [squeeze] of the specification, a
    second pass of the sanitizer changes nothing in a record whose
    fields all fall under the identity rule, the [url] rule or the
    [price] rule.  (The description, directions, numbers and email
    rules are not covered: the remarks show a second pass changing their
    values.) *)
Theorem sanitize_idempotent_stable (E : Env) (cls : klass) (d : gmap string string) :
  (∀ s, squeeze E s = Sample.squeeze_ws s) →
  (∀ k v, d !! k = Some v → stable_rule E cls (squeeze E k) = true) →
  ∃ d', Wikiparser.sanitize E cls d = Ok d' ∧ Wikiparser.sanitize E cls d' = Ok d'.
Proof.
  intros Hsq Hrule.
  assert (∃ pairs,
            mapM (λ kv, Wikiparser.sanitize_item E cls kv.1 kv.2) (map_to_list d)
            = Ok pairs) as [pairs Hfirst].
  { destruct (mapM _ _) as [pairs|e] eqn:Hm; [by exists pairs|].
    apply ResFacts.mapM_raise in Hm as ([k v] & Hin%elem_of_map_to_list & He).
    destruct (ItemFacts.item_stable E Hsq cls k v) as (v' & Hv & _); [by eapply Hrule|].
    simpl in He. congruence. }
  exists (dict pairs). split.
  { unfold Wikiparser.sanitize. by rewrite Hfirst. }
  unfold Wikiparser.sanitize at 1.
  rewrite (ResFacts.mapM_ok_id _ (map_to_list (dict pairs))).
  { simpl. by rewrite ResFacts.dict_map_to_list. }
  intros [k' v'] Hin%elem_of_map_to_list%ResFacts.dict_lookup_elem.
  destruct (ResFacts.mapM_elem_inv _ _ _ _ Hfirst Hin) as ([k v] & Hkv & Hd).
  apply elem_of_map_to_list in Hd. simpl in *.
  destruct (ItemFacts.item_stable E Hsq cls k v) as (v'' & Hv & Hv2); [by eapply Hrule|].
  rewrite Hv in Hkv. by injection Hkv as <- <-.
Qed.

Lemma sanitize_idempotent_stable_witness :
  ∃ d', Wikiparser.sanitize Sample.env CTag
          {[ "name" := "The  Old   Pub"; "url" := "[www.example.org  The Pub]";
             "price" := "from 5 euros." ]} = Ok d' ∧
        Wikiparser.sanitize Sample.env CTag d' = Ok d'.
Proof.
  apply (sanitize_idempotent_stable Sample.env CTag).
  - reflexivity.
  - intros k v Hk.
    refine (map_Forall_lookup_1
              (λ k _, stable_rule Sample.env CTag (squeeze Sample.env k) = true)
              _ k v _ Hk).
    apply (bool_decide_unpack _). vm_compute. exact I.
Defined.


(** * Further properties of the sanitizer rules *)

Module RuleFacts.
Import PyFacts StableFacts.

Lemma contains_char_step (c x : ascii) (s : string) :
  Py.contains (String c "") (String x s) =
    Ascii.eqb c x || Py.contains (String c "") s.
Proof. simpl. by destruct (Ascii.eqb c x). Qed.

Lemma has_char_contains (c : ascii) (s : string) :
  Py.contains (String c "") s = has_char c s.
Proof.
  induction s as [|x s IH]; [done|].
  rewrite contains_char_step, IH. simpl. by rewrite (Ascii.eqb_sym x c).
Qed.

Lemma replace_char_step (c x : ascii) (s : string) :
  Py.replace_from 0 (String c "") "" (String x s) =
    if Ascii.eqb c x then Py.replace_from 0 (String c "") "" s
    else String x (Py.replace_from 0 (String c "") "" s).
Proof. simpl. by destruct (Ascii.eqb c x). Qed.

(** Removing a character leaves none of it, and nothing new. *)
Lemma remove_char_gone (c : ascii) (s : string) :
  has_char c (Py.replace (String c "") "" s) = false.
Proof.
  unfold Py.replace. induction s as [|x s IH]; [done|].
  rewrite replace_char_step. destruct (Ascii.eqb c x) eqn:Hc; [done|].
  simpl. by rewrite (Ascii.eqb_sym x c), Hc.
Qed.

Lemma remove_char_keeps_free (c a : ascii) (s : string) :
  has_char a s = false → has_char a (Py.replace (String c "") "" s) = false.
Proof.
  unfold Py.replace. induction s as [|x s IH]; [done|].
  rewrite replace_char_step. simpl. intros [Hx Hs]%orb_false_elim.
  destruct (Ascii.eqb c x); [by apply IH|]. simpl. by rewrite Hx, IH.
Qed.

Lemma remove_char_absent (c : ascii) (s : string) :
  has_char c s = false → Py.replace (String c "") "" s = s.
Proof.
  unfold Py.replace. induction s as [|x s IH]; [done|].
  rewrite replace_char_step. simpl. intros [Hx Hs]%orb_false_elim.
  rewrite (Ascii.eqb_sym c x), Hx. by rewrite IH.
Qed.

Lemma has_char_lstrip (c : ascii) (p : ascii → bool) (s : string) :
  has_char c s = false → has_char c (Py.lstrip_by p s) = false.
Proof.
  induction s as [|x s IH]; [done|]. simpl.
  intros H. destruct (p x); [|done].
  apply orb_false_elim in H as [_ H]. by apply IH.
Qed.

Lemma has_char_rstrip (c : ascii) (p : ascii → bool) (s : string) :
  has_char c s = false → has_char c (Py.rstrip_by p s) = false.
Proof.
  induction s as [|x s IH]; [done|]. simpl.
  intros [Hx Hs]%orb_false_elim. specialize (IH Hs).
  destruct (Py.rstrip_by p s) as [|y r].
  - destruct (p x); [done|]. simpl. by rewrite Hx.
  - simpl in *. by rewrite Hx, IH.
Qed.

Lemma lstrip_head (p : ascii → bool) (s : string) :
  Py.lstrip_by p s = "" ∨ ∃ x r, Py.lstrip_by p s = String x r ∧ p x = false.
Proof.
  induction s as [|x s IH]; [by left|]. simpl.
  destruct (p x) eqn:Hp; [done|]. right. by exists x, s.
Qed.

Lemma rstrip_keeps_head (p : ascii → bool) (x : ascii) (r : string) :
  p x = false → ∃ r', Py.rstrip_by p (String x r) = String x r'.
Proof.
  intros Hp. simpl. destruct (Py.rstrip_by p r) as [|y r'].
  - rewrite Hp. by exists "".
  - by eexists.
Qed.

Lemma lstrip_fixed (p : ascii → bool) (x : ascii) (r : string) :
  p x = false → Py.lstrip_by p (String x r) = String x r.
Proof. intros Hp. simpl. by rewrite Hp. Qed.

(** Stripping both ends is idempotent. *)
Lemma strip_by_idem (p : ascii → bool) (s : string) :
  let t := Py.rstrip_by p (Py.lstrip_by p s) in
  Py.rstrip_by p (Py.lstrip_by p t) = t.
Proof.
  simpl. destruct (lstrip_head p s) as [->|(x & r & -> & Hp)]; [done|].
  destruct (rstrip_keeps_head p x r Hp) as [r' Hr].
  rewrite Hr, (lstrip_fixed p x r' Hp), <- Hr. apply rstrip_idem.
Qed.

(** What is left of a right strip ends with none of the stripped
    characters. *)
Lemma rstrip_last (p : ascii → bool) (s : string) :
  Py.rstrip_by p s = "" ∨
  ∃ x, Py.last (Py.rstrip_by p s) = Some x ∧ p x = false.
Proof.
  induction s as [|x s IH]; [by left|]. simpl.
  destruct (Py.rstrip_by p s) as [|y r] eqn:Hr.
  - destruct (p x) eqn:Hp; [by left|]. right. by exists x.
  - right. destruct IH as [|IH]; [done|]. exact IH.
Qed.

Lemma split_once_char_step (a c : ascii) (r : string) :
  Py.split_once (String a "") (String c r) =
    if Ascii.eqb a c then Some ("", r)
    else match Py.split_once (String a "") r with
         | Some (x, y) => Some (String c x, y)
         | None => None
         end.
Proof. simpl. by destruct (Ascii.eqb a c). Qed.

Lemma split_once_nil (a : ascii) : Py.split_once (String a "") "" = None.
Proof. done. Qed.

(** The piece before the first separator has no separator; without a
    piece, the whole string has none. *)
Lemma split_once_fst_free (a : ascii) (s x y : string) :
  Py.split_once (String a "") s = Some (x, y) → has_char a x = false.
Proof.
  revert x. induction s as [|c s IH]; intros x; [done|].
  rewrite split_once_char_step. destruct (Ascii.eqb a c) eqn:Hc.
  - by intros [= <- _].
  - destruct (Py.split_once _ s) as [[x' y']|]; [|done].
    intros [= <- <-]. simpl. rewrite (Ascii.eqb_sym c a), Hc. by apply IH.
Qed.

Lemma split_once_None_free (a : ascii) (s : string) :
  Py.split_once (String a "") s = None → has_char a s = false.
Proof.
  induction s as [|c s IH]; [done|].
  rewrite split_once_char_step. destruct (Ascii.eqb a c) eqn:Hc; [done|].
  destruct (Py.split_once _ s) as [[x' y']|]; [done|].
  intros _. simpl. rewrite (Ascii.eqb_sym c a), Hc. by apply IH.
Qed.

Lemma split_once_Some_has (a : ascii) (s x y : string) :
  Py.split_once (String a "") s = Some (x, y) →
  s = x +:+ String a "" +:+ y.
Proof.
  revert x. induction s as [|c s IH]; intros x; [done|].
  rewrite split_once_char_step. destruct (Ascii.eqb a c) eqn:Hc.
  - intros [= <- <-]. apply eqb_true in Hc as ->. reflexivity.
  - destruct (Py.split_once _ s) as [[x' y']|] eqn:Hs; [|done].
    intros [= <- <-]. rewrite append_cons. f_equal. by apply IH.
Qed.

(** The first piece of a split. *)
Lemma split_first (a : ascii) (s : string) :
  default "" (Py.split (String a "") s !! 0) =
    match Py.split_once (String a "") s with
    | Some (x, _) => x
    | None => s
    end.
Proof.
  unfold Py.split. destruct s as [|c s]; [done|].
  cbn [String.length Py.split_fuel].
  by destruct (Py.split_once _ _) as [[x y]|].
Qed.

Lemma split_first_free (a : ascii) (s : string) :
  has_char a (default "" (Py.split (String a "") s !! 0)) = false.
Proof.
  rewrite split_first. destruct (Py.split_once _ s) as [[x y]|] eqn:Hs.
  - by eapply split_once_fst_free.
  - by apply split_once_None_free.
Qed.

End RuleFacts.

(** The directions rule leaves no apostrophe and no whitespace at
    either end, and changes nothing when applied again. *)
Theorem directions_clean (s : string) :
  Py.contains "'" (Wikiparser.directions s) = false ∧
  Py.strip_ws (Wikiparser.directions s) = Wikiparser.directions s ∧
  Wikiparser.directions (Wikiparser.directions s) = Wikiparser.directions s.
Proof.
  assert (has_char "'" (Wikiparser.directions s) = false) as Hq.
  { unfold Wikiparser.directions, Py.strip_ws.
    apply RuleFacts.has_char_rstrip, RuleFacts.has_char_lstrip,
      RuleFacts.remove_char_gone. }
  assert (Py.strip_ws (Wikiparser.directions s) = Wikiparser.directions s) as Hs.
  { unfold Wikiparser.directions, Py.strip_ws. apply RuleFacts.strip_by_idem. }
  split; [by rewrite RuleFacts.has_char_contains|]. split; [done|].
  unfold Wikiparser.directions at 1.
  by rewrite (RuleFacts.remove_char_absent _ _ Hq).
Qed.

(** The url rule changes nothing when applied again, and its result
    never begins with a wiki bracket. *)
Theorem url_idempotent (s : string) :
  Wikiparser.url (Wikiparser.url s) = Wikiparser.url s ∧
  Py.startswith "[" (Wikiparser.url s) = false.
Proof.
  split; [apply StableFacts.url_idem|].
  destruct (StableFacts.url_cases s) as [[-> _]|[-> _]]; [|done].
  apply StableFacts.url_unwrap_head.
Qed.

(** The price rule fails on the empty value only.  On any other value
    its result is not empty, is left alone by a second application and,
    past its first character, ends in none of [.], [,] and space. *)
Theorem price_behaviour (s : string) :
  (s = "" → Wikiparser.price s = Raise IndexError) ∧
  (s ≠ "" →
   ∃ c r, Wikiparser.price s = Ok (String c r) ∧
          Wikiparser.price (String c r) = Ok (String c r) ∧
          (r = "" ∨ ∃ x, Py.last r = Some x ∧ Py.mem x "., " = false)).
Proof.
  split; [by intros ->|]. destruct s as [|c s]; [done|]. intros _.
  exists (Py.upper_char c), (Py.rstrip "., " s). split; [done|]. split.
  - by apply (StableFacts.price_stable (String c s)).
  - apply RuleFacts.rstrip_last.
Qed.

Lemma price_behaviour_witness :
  Wikiparser.price "" = Raise IndexError ∧
  ∃ c r, Wikiparser.price "from 5 euros. " = Ok (String c r) ∧
         Wikiparser.price (String c r) = Ok (String c r) ∧
         (r = "" ∨ ∃ x, Py.last r = Some x ∧ Py.mem x "., " = false).
Proof.
  split.
  - by apply (price_behaviour "").
  - by apply (price_behaviour "from 5 euros. ").
Defined.

(** The email rule returns a value without space and without
    apostrophe. *)
Theorem email_clean (s : string) :
  Py.contains " " (Wikiparser.email s) = false ∧
  Py.contains "'" (Wikiparser.email s) = false.
Proof.
  unfold Wikiparser.email. rewrite !RuleFacts.has_char_contains. split.
  - apply RuleFacts.remove_char_keeps_free, RuleFacts.split_first_free.
  - apply RuleFacts.remove_char_gone.
Qed.


(** * Further properties of [numbers] and of [sanitize] *)

Module NumberFacts.
Import PyFacts RuleFacts.

Lemma length_cons_sub (c : ascii) (s : string) :
  String.length (String c s) - String.length s = 1.
Proof. simpl. lia. Qed.

Lemma match_at_set (f : Re.flags) (cs : string) (b : option ascii) (c : ascii)
    (s : string) :
  Re.match_at f (Re.Set_ cs) b (String c s) =
    if Py.mem c cs then Some (Re.Found (String c "") []) else None.
Proof.
  unfold Re.match_at, Re.between.
  cbn [Re.run Re.step Re.rest Re.groups Re.before].
  destruct (Py.mem c cs); [|done].
  cbn [Re.rest Re.groups]. by rewrite length_cons_sub.
Qed.

Lemma sub_set_step (f : Re.flags) (cs repl : string) (b : option ascii)
    (c : ascii) (s : string) :
  Re.sub_from f (Re.Set_ cs) repl 0 b (String c s) =
    if Py.mem c cs then repl +:+ Re.sub_from f (Re.Set_ cs) repl 0 (Some c) s
    else String c (Re.sub_from f (Re.Set_ cs) repl 0 (Some c) s).
Proof.
  cbn [Re.sub_from]. rewrite match_at_set. by destruct (Py.mem c cs).
Qed.

(** Substituting a space for the characters of a class leaves none of
    them. *)
Lemma sub_set_free (f : Re.flags) (cs : string) (b : option ascii) (s : string) :
  Py.mem " " cs = false →
  free_of cs (Re.sub_from f (Re.Set_ cs) " " 0 b s) = true.
Proof.
  intros Hsp. revert b. induction s as [|c s IH]; intros b; [done|].
  rewrite sub_set_step. destruct (Py.mem c cs) eqn:Hc.
  - change (" " +:+ ?x) with (String " " x). simpl. by rewrite Hsp, IH.
  - simpl. by rewrite Hc, IH.
Qed.

Lemma squeeze_free (cs : string) (s : string) (b : bool) :
  Py.mem " " cs = false → free_of cs s = true →
  free_of cs (Sample.squeeze_from b s) = true.
Proof.
  intros Hsp. revert b. induction s as [|c s IH]; intros b; [done|]. simpl.
  intros [Hc Hs]%andb_prop. destruct (Ascii.is_space c).
  - destruct b; [by apply IH|]. simpl. by rewrite Hsp, IH.
  - simpl. by rewrite Hc, IH.
Qed.

Lemma remove_char_free (cs : string) (q : ascii) (s : string) :
  free_of cs s = true → free_of cs (Py.replace (String q "") "" s) = true.
Proof.
  unfold Py.replace. induction s as [|c s IH]; [done|].
  rewrite replace_char_step. simpl. intros [Hc Hs]%andb_prop.
  destruct (Ascii.eqb q c); [by apply IH|]. simpl. by rewrite Hc, IH.
Qed.

End NumberFacts.

(** With the [squeeze] of the specification, the numbers rule either
    raises [IndexError] or returns a value without parenthesis, slash,
    dot, backslash, dash or apostrophe. *)
Theorem numbers_outcome (E : Env) (s : string) :
  (∀ x, squeeze E x = Sample.squeeze_ws x) →
  match Wikiparser.numbers E s with
  | Ok r => free_of "()/.\-" r = true ∧ Py.contains "'" r = false
  | Raise e => e = IndexError
  end.
Proof.
  intros Hsq. destruct (Wikiparser.numbers E s) as [r|e] eqn:Hn;
    [|by eapply RaiseFacts.numbers_raise].
  revert Hn. unfold Wikiparser.numbers.
  set (n1 := if Py.contains "+" _ then _ else _).
  destruct (Py.is_empty n1) eqn:H1.
  { apply PyFacts.is_empty_true in H1 as ->. by intros [= <-]. }
  set (n2 := if negb _ then _ else _).
  assert (free_of "()/.\-" (squeeze E (Re.sub Re.no_flags Wikiparser.separators " " n2))
          = true) as H4.
  { rewrite Hsq. apply NumberFacts.squeeze_free; [done|].
    by apply NumberFacts.sub_set_free. }
  destruct (squeeze E _) as [|c0 tl]; [done|].
  assert (∀ n5, free_of "()/.\-" n5 = true →
            free_of "()/.\-" (Py.replace "'" "" n5) = true ∧
            Py.contains "'" (Py.replace "'" "" n5) = false) as Hfin.
  { intros n5 H5. split; [by apply NumberFacts.remove_char_free|].
    rewrite RuleFacts.has_char_contains. apply RuleFacts.remove_char_gone. }
  destruct (Ascii.eqb c0 "0") eqn:H0; simpl.
  - destruct tl as [|c1 tl']; [done|]. simpl.
    destruct (Ascii.eqb c1 " "); simpl; intros [= <-]; apply Hfin; [|done].
    apply PyFacts.eqb_true in H0 as ->.
    cbn [free_of] in H4. apply andb_prop in H4 as [_ [_ H4]%andb_prop].
    change ("0" +:+ tl') with (String "0" tl'). cbn [free_of].
    by rewrite H4.
  - intros [= <-]. by apply Hfin.
Qed.

Lemma numbers_outcome_witness :
  match Wikiparser.numbers Sample.env "Tel.: +49 (0) 30 / 12-34" with
  | Ok r => free_of "()/.\-" r = true ∧ Py.contains "'" r = false
  | Raise e => e = IndexError
  end.
Proof. by apply (numbers_outcome Sample.env "Tel.: +49 (0) 30 / 12-34"). Defined.

Module SanitizeMore.
Import PyFacts ResFacts SanitizeFacts.

Section WithEnv.
Context (E : Env).

(** Why an item fails. *)
Lemma sanitize_item_failure (cls : klass) (k v : string) (e : exn) :
  Wikiparser.sanitize_item E cls k v = Raise e →
  squeeze E v ≠ "" ∧
  ((e = TypeError ∧
    Wikiparser.getattr E cls (rule_name (squeeze E k)) = Wikiparser.NotSanitizer) ∨
   (e = IndexError ∧ (rule_name (squeeze E k) ∈ ["description"; "numbers"]))).
Proof.
  rewrite ItemFacts.sanitize_item_unfold.
  destruct (Py.is_empty (squeeze E v)) eqn:Hv; [done|].
  apply is_empty_false in Hv. intros He. split; [done|].
  destruct (Wikiparser.getattr E cls _) as [f| |] eqn:Hg; simpl in He.
  - right. destruct (f (squeeze E v)) as [x|e'] eqn:Hf; simpl in He; [done|].
    injection He as ->. revert Hg. unfold Wikiparser.getattr.
    case_bool_decide as H1.
    { intros [= <-]. split; [by eapply RaiseFacts.description_raise|].
      rewrite H1. apply list_elem_of_here. }
    case_bool_decide as H2; [by intros [= <-]|].
    case_bool_decide as H3.
    { intros [= <-]. split; [by eapply RaiseFacts.numbers_raise|].
      rewrite H3. apply list_elem_of_further, list_elem_of_here. }
    case_bool_decide as H4; [by intros [= <-]|].
    case_bool_decide as H5; [by intros [= <-]|].
    case_bool_decide as H6.
    { intros [= <-]. by destruct (squeeze E v). }
    case_bool_decide as H7; [by intros [= <-]|].
    case_bool_decide; [done|].
    destruct (Py.startswith _ _); [|by destruct (Wikiparser.own_attr _ _)].
    destruct (dunder_attr E _) as [[g|]|]; [|done|done]. by intros [= <-].
  - injection He as <-. by left.
  - done.
Qed.

Lemma own_attr_not_sanitizer (cls : klass) (k : string) :
  Wikiparser.own_attr cls k = true ∨ k = "item_lookup" →
  rule_name k = k ∧ Wikiparser.getattr E cls k = Wikiparser.NotSanitizer.
Proof.
  intros [H| ->]; [|done].
  destruct cls; simpl in H; [done|..];
    apply bool_decide_eq_true in H; rewrite !elem_of_cons, elem_of_nil in H;
    repeat (destruct H as [-> | H]; [done|]); done.
Qed.

End WithEnv.
End SanitizeMore.

(** A pass of the sanitizer fails on a field whose squeezed value is not
    empty,
    in one of two ways: [TypeError], when the name of the field is that
    of a class attribute which is no sanitizer; [IndexError], when the
    field goes to the description rule or the numbers rule.  It raises
    nothing else. *)
Theorem sanitize_failure (E : Env) (cls : klass) (d : gmap string string) (e : exn) :
  Wikiparser.sanitize E cls d = Raise e →
  ∃ k v, d !! k = Some v ∧ squeeze E v ≠ "" ∧
    ((e = TypeError ∧
      Wikiparser.getattr E cls (rule_name (squeeze E k)) = Wikiparser.NotSanitizer) ∨
     (e = IndexError ∧ (rule_name (squeeze E k) ∈ ["description"; "numbers"]))).
Proof.
  unfold Wikiparser.sanitize. destruct (mapM _ _) as [|e'] eqn:Hm; [done|].
  simpl. intros [= ->].
  apply ResFacts.mapM_raise in Hm as ([k v] & Hin%elem_of_map_to_list & He).
  exists k, v. split; [done|]. by apply SanitizeMore.sanitize_item_failure in He.
Qed.

Lemma sanitize_failure_witness :
  ∃ k v, ({[ "phone" := "0" ]} : gmap string string) !! k = Some v ∧
    squeeze Sample.env v ≠ "" ∧
    ((IndexError = TypeError ∧
      Wikiparser.getattr Sample.env CTag (rule_name (squeeze Sample.env k))
        = Wikiparser.NotSanitizer) ∨
     (IndexError = IndexError ∧
      (rule_name (squeeze Sample.env k) ∈ ["description"; "numbers"]))).
Proof.
  apply (sanitize_failure Sample.env CTag {[ "phone" := "0" ]} IndexError).
  vm_compute. reflexivity.
Defined.

(** The keys of a sanitized record are the squeezed keys of the record:
    none is lost, none is added. *)
Theorem sanitize_keys (E : Env) (cls : klass) (d d' : gmap string string) :
  Wikiparser.sanitize E cls d = Ok d' →
  ∀ k', is_Some (d' !! k') ↔ ∃ k, is_Some (d !! k) ∧ squeeze E k = k'.
Proof.
  unfold Wikiparser.sanitize. destruct (mapM _ _) as [pairs|] eqn:Hm; [|done].
  simpl. intros [= <-] k'. split.
  - intros [v' Hv']. apply ResFacts.dict_lookup_elem in Hv'.
    destruct (ResFacts.mapM_elem_inv _ _ _ _ Hm Hv') as ([k v] & Hkv & Hin).
    apply elem_of_map_to_list in Hin. simpl in Hkv.
    apply SanitizeFacts.sanitize_item_key in Hkv.
    exists k. split; [by exists v|done].
  - intros (k & [v Hv] & <-).
    destruct (ResFacts.mapM_elem _ _ _ (k, v) Hm) as ([k1 v1] & Hkv & Hin).
    { by apply elem_of_map_to_list. }
    simpl in Hkv. pose proof (SanitizeFacts.sanitize_item_key _ _ _ _ _ _ Hkv) as ->.
    by eapply ResFacts.dict_lookup_is_Some.
Qed.

Lemma sanitize_keys_witness :
  is_Some (({[ "name" := "The Pub"; "url" := "http://example.org" ]}
            : gmap string string) !! "url") ↔
  ∃ k, is_Some (({[ "name" := "The  Pub"; "url" := "example.org" ]}
                 : gmap string string) !! k) ∧
       squeeze Sample.env k = "url".
Proof.
  apply (sanitize_keys Sample.env CTag
           {[ "name" := "The  Pub"; "url" := "example.org" ]}
           {[ "name" := "The Pub"; "url" := "http://example.org" ]}).
  vm_compute. reflexivity.
Defined.

(** A field named like a class attribute that is no sanitizer
    ([search], [read], [template], [item_lookup], ...) makes the pass
    fail with [TypeError] as soon as its squeezed value is not empty. *)
Theorem class_attribute_field (E : Env) (cls : klass) (k v : string) :
  Wikiparser.own_attr cls k = true ∨ k = "item_lookup" →
  squeeze E k = k → squeeze E v ≠ "" →
  Wikiparser.sanitize E cls {[ k := v ]} = Raise TypeError.
Proof.
  intros Hk Hsk Hv.
  destruct (SanitizeMore.own_attr_not_sanitizer E cls k Hk) as [Hr Hg].
  unfold Wikiparser.sanitize. rewrite map_to_list_singleton. simpl.
  rewrite ItemFacts.sanitize_item_unfold, Hsk, Hr, Hg.
  by rewrite (proj2 (PyFacts.is_empty_false _) Hv).
Qed.

Lemma class_attribute_field_witness :
  Wikiparser.sanitize Sample.env CTag {[ "template" := "x" ]} = Raise TypeError.
Proof.
  apply (class_attribute_field Sample.env CTag "template" "x").
  - left. reflexivity.
  - reflexivity.
  - discriminate.
Defined.

(** A value that [squeeze] empties is never handed to a rule: a record
    whose values are all of this kind goes through the pass, whatever
    its field names, and comes out with empty values. *)
Theorem blank_values_pass (E : Env) (cls : klass) (d : gmap string string) :
  (∀ k v, d !! k = Some v → squeeze E v = "") →
  ∃ d', Wikiparser.sanitize E cls d = Ok d' ∧ ∀ k v, d' !! k = Some v → v = "".
Proof.
  intros Hblank.
  set (g := λ kv : string * string, (squeeze E kv.1, "")).
  assert (mapM (λ kv, Wikiparser.sanitize_item E cls kv.1 kv.2) (map_to_list d)
          = Ok (g <$> map_to_list d)) as Hm.
  { apply ResFacts.mapM_ok. intros [k v] Hin%elem_of_map_to_list. simpl.
    rewrite ItemFacts.sanitize_item_unfold. unfold g. simpl.
    by rewrite (Hblank k v Hin). }
  exists (dict (g <$> map_to_list d)). split.
  - unfold Wikiparser.sanitize. by rewrite Hm.
  - intros k v Hkv%ResFacts.dict_lookup_elem.
    apply list_elem_of_fmap in Hkv as ([k0 v0] & Heq & _).
    unfold g in Heq. by injection Heq as _ ->.
Qed.

Lemma blank_values_pass_witness :
  ∃ d', Wikiparser.sanitize Sample.env CTag {[ "template" := ""; "phone" := "" ]}
          = Ok d' ∧ ∀ k v, d' !! k = Some v → v = "".
Proof.
  apply (blank_values_pass Sample.env CTag).
  intros k v Hk.
  refine (map_Forall_lookup_1 (λ _ v, squeeze Sample.env v = "") _ k v _ Hk).
  apply (bool_decide_unpack _). vm_compute. exact I.
Defined.


(** * Further properties of the card extractor *)

Module SplitFacts.
Import PyFacts RuleFacts.

Lemma split_once_shorter (a : ascii) (s x y : string) :
  Py.split_once (String a "") s = Some (x, y) → String.length y < String.length s.
Proof.
  revert x. induction s as [|c s IH]; intros x; [done|].
  rewrite split_once_char_step. destruct (Ascii.eqb a c).
  - intros [= <- <-]. simpl. lia.
  - destruct (Py.split_once _ s) as [[x' y']|]; [|done].
    intros [= <- <-]. specialize (IH x' eq_refl). simpl. lia.
Qed.

Lemma split_fuel_enough (a : ascii) (s : string) (n m : nat) :
  String.length s ≤ n → String.length s ≤ m →
  Py.split_fuel n (String a "") s = Py.split_fuel m (String a "") s.
Proof.
  revert s m. induction n as [|n IH]; intros s m Hn Hm.
  - destruct s; [|simpl in Hn; lia]. by destruct m.
  - destruct m as [|m].
    { destruct s; [done|simpl in Hm; lia]. }
    simpl. destruct (Py.split_once _ s) as [[x y]|] eqn:Hs; [|done].
    apply split_once_shorter in Hs. f_equal. apply IH; lia.
Qed.

(** The split, piece by piece. *)
Lemma split_unfold (a : ascii) (s : string) :
  Py.split (String a "") s =
    match Py.split_once (String a "") s with
    | Some (x, y) => x :: Py.split (String a "") y
    | None => [s]
    end.
Proof.
  unfold Py.split. destruct s as [|c s]; [done|].
  cbn [String.length Py.split_fuel].
  destruct (Py.split_once _ _) as [[x y]|] eqn:Hs; [|done].
  apply split_once_shorter in Hs. simpl in Hs. f_equal.
  apply split_fuel_enough; lia.
Qed.

Lemma split_once_is_Some (a : ascii) (s : string) :
  has_char a s = true → ∃ x y, Py.split_once (String a "") s = Some (x, y).
Proof.
  intros H. destruct (Py.split_once _ s) as [[x y]|] eqn:Hs; [by eauto|].
  apply split_once_None_free in Hs. congruence.
Qed.

End SplitFacts.

(** A part of a card without [=] raises [IndexError].  Of any other
    part, the key is the text before the first [=], stripped and in
    lower case, and the value is the text between the first [=] and the
    second: what follows a second [=] is dropped. *)
Theorem pair_of_outcome (pt : string) :
  (Py.contains "=" pt = false ∧ Vcard.pair_of pt = Raise IndexError) ∨
  (∃ k v rest,
     pt = k +:+ "=" +:+ v +:+ rest ∧
     Py.contains "=" k = false ∧ Py.contains "=" v = false ∧
     (rest = "" ∨ Py.startswith "=" rest = true) ∧
     Vcard.pair_of pt = Ok (Py.lower (Py.strip_ws k), v)).
Proof.
  unfold Vcard.pair_of. rewrite !RuleFacts.has_char_contains.
  rewrite (SplitFacts.split_unfold "=" pt).
  destruct (Py.split_once "=" pt) as [[k y]|] eqn:Hk.
  - right. rewrite (SplitFacts.split_unfold "=" y).
    pose proof (RuleFacts.split_once_fst_free _ _ _ _ Hk) as Hkf.
    apply RuleFacts.split_once_Some_has in Hk as ->.
    destruct (Py.split_once "=" y) as [[v z]|] eqn:Hv.
    + exists k, v, ("=" +:+ z).
      pose proof (RuleFacts.split_once_fst_free _ _ _ _ Hv) as Hvf.
      apply RuleFacts.split_once_Some_has in Hv as ->.
      rewrite !RuleFacts.has_char_contains. repeat split; auto.
    + exists k, y, "".
      apply RuleFacts.split_once_None_free in Hv.
      rewrite !RuleFacts.has_char_contains, PyFacts.append_nil_r.
      repeat split; auto.
  - left. split; [|done]. by apply RuleFacts.split_once_None_free.
Qed.

(** So the value of a pair stops at its first [=]. *)
Remark pair_value_cut :
  Vcard.pair_of "url=http://example.org/?id=7" = Ok ("url", "http://example.org/?id").
Proof. reflexivity. Qed.

(** * Further properties of the heuristic extractor *)

Module GroupMore.
Import ResFacts GroupFacts.

Lemma insert_sorted_perm (x : string * string) (l : list (string * string)) :
  Untagged.insert_sorted x l ≡ₚ x :: l.
Proof.
  induction l as [|y l IH]; [done|]. simpl.
  destruct (String.ltb y.1 x.1); [|done].
  rewrite IH. apply Permutation_swap.
Qed.

Lemma sorted_perm (l : list (string * string)) : Untagged.sorted l ≡ₚ l.
Proof.
  induction l as [|x l IH]; [done|].
  unfold Untagged.sorted in *. simpl. by rewrite insert_sorted_perm, IH.
Qed.

Lemma before_trans (x y z : string * string) :
  label_before x y → label_before y z → label_before x z.
Proof.
  unfold label_before. intros Hxy Hyz.
  destruct (String.ltb z.1 x.1) eqn:Hzx; [|done].
  destruct (ltb_total z.1 y.1) as [H|[H|H]].
  - congruence.
  - rewrite <- H in Hxy. congruence.
  - pose proof (ltb_trans _ _ _ H Hzx). congruence.
Qed.

Lemma insert_sorted_sorted (x : string * string) (l : list (string * string)) :
  StronglySorted label_before l → StronglySorted label_before (Untagged.insert_sorted x l).
Proof.
  induction 1 as [|y l Hl IH Hy]; simpl.
  - by repeat constructor.
  - destruct (String.ltb y.1 x.1) eqn:Hyx.
    + constructor; [done|].
      rewrite insert_sorted_perm. constructor; [|done].
      unfold label_before. by apply ltb_asym.
    + constructor; [by constructor|].
      constructor; [done|].
      eapply Forall_impl; [exact Hy|]. intros z Hz. by eapply before_trans.
Qed.

Lemma sorted_sorted (l : list (string * string)) :
  StronglySorted label_before (Untagged.sorted l).
Proof.
  induction l as [|x l IH]; [constructor|].
  unfold Untagged.sorted in *. simpl. by apply insert_sorted_sorted.
Qed.

Lemma sorted_filter (k : string) (l : list (string * string)) :
  filter (λ p, p.1 = k) (Untagged.sorted l) = filter (λ p, p.1 = k) l.
Proof.
  destruct (sorted_blocks k l) as (A & C & -> & HA & HC).
  rewrite !filter_app.
  rewrite (filter_none k A), (filter_none k C).
  - simpl. rewrite app_nil_r. rewrite list_filter_filter.
    apply list_filter_iff. intros p. tauto.
  - intros p Hp Hk. rewrite Forall_forall in HC. specialize (HC p Hp).
    rewrite Hk, ltb_irrefl in HC. done.
  - intros p Hp Hk. rewrite Forall_forall in HA. specialize (HA p Hp).
    rewrite Hk, ltb_irrefl in HA. done.
Qed.

(** The group of a label holds all its chunks, in the order of the
    text, and no later group has the label. *)
Lemma groupby_sorted_group (k : string) (l : list (string * string)) :
  k ∈ l.*1 →
  ∃ G1 G2, Untagged.groupby (Untagged.sorted l)
             = G1 ++ (k, (filter (λ p, p.1 = k) l).*2) :: G2 ∧
           k ∉ G2.*1.
Proof.
  intros Hk.
  destruct (sorted_blocks k l) as (A & C & -> & HA & HC).
  set (F := filter _ l).
  assert (Forall (λ p : string * string, p.1 = k) F) as HF.
  { apply Forall_forall. intros p Hp. by apply list_elem_of_filter in Hp as [? _]. }
  assert (k ∉ C.*1) as HCk.
  { intros ([k' v'] & -> & Hin)%list_elem_of_fmap.
    rewrite Forall_forall in HC. specialize (HC _ Hin). simpl in HC.
    by rewrite ltb_irrefl in HC. }
  assert (k ∉ A.*1) as HAk.
  { intros ([k' v'] & -> & Hin)%list_elem_of_fmap.
    rewrite Forall_forall in HA. specialize (HA _ Hin). simpl in HA.
    by rewrite ltb_irrefl in HA. }
  destruct F as [|[k' v] B] eqn:HFeq.
  { exfalso. apply list_elem_of_fmap in Hk as ([k' v] & -> & Hin).
    assert ((k', v) ∈ F) as Hf by (by apply list_elem_of_filter).
    rewrite HFeq in Hf. by apply elem_of_nil in Hf. }
  apply Forall_cons in HF as [Hk' HB]. simpl in Hk'. subst k'.
  destruct (groupby_front k (v :: B.*2) (Untagged.groupby C) A ((k, v) :: B ++ C) HAk)
    as [G1 HG1].
  { by apply groupby_block. }
  exists G1, (Untagged.groupby C). split; [done|].
  intros H. by apply HCk, groupby_keys.
Qed.

End GroupMore.

(** The labelled chunks are sorted by label, and stably: the sort
    permutes them, puts no larger label before a smaller one, and keeps
    the chunks of one label in the order of the text. *)
Theorem untagged_sorted_stable (l : list (string * string)) :
  Untagged.sorted l ≡ₚ l ∧
  StronglySorted label_before (Untagged.sorted l) ∧
  ∀ k, filter (λ p, p.1 = k) (Untagged.sorted l) = filter (λ p, p.1 = k) l.
Proof.
  split; [apply GroupMore.sorted_perm|]. split.
  - apply GroupMore.sorted_sorted.
  - intros k. apply GroupMore.sorted_filter.
Qed.

(** The chunks of a label that is not unique are all kept: the record
    holds, under the label, the sanitized merge of the chunks that carry
    it, in the order of the text. *)
Theorem untagged_merges (E : Env) (s : string) (lang : language E) (k : string)
    (d : gmap string string) :
  squeeze_keeps E k →
  (k ∉ Untagged.unique_items) → k ≠ "type" → k ≠ "subtype" →
  (k ∈ (Untagged.labelled E s lang).*1) →
  Untagged.read E s lang = Ok d →
  ∃ v, Wikiparser.sanitize_item E CUntagged k
         (merge_chunks E ((filter (λ p, p.1 = k) (Untagged.labelled E s lang)).*2) s)
       = Ok (k, v) ∧
       d !! k = Some v.
Proof.
  intros [Hfix Honly] Hu Ht Hs Hk Hd. unfold Untagged.read in Hd.
  eapply SanitizeFacts.sanitize_lookup in Hd as (v & Hv & Hdv).
  - exists v. rewrite Hfix in *. done.
  - rewrite !lookup_insert_ne by done. unfold Untagged.grouped.
    destruct (GroupMore.groupby_sorted_group k _ Hk) as (G1 & G2 & -> & HG2).
    rewrite fmap_app, fmap_cons. simpl.
    rewrite bool_decide_eq_false_2 by done.
    apply ResFacts.dict_last_wins.
    intros ([k' v'] & Hk' & Hin)%list_elem_of_fmap. simpl in Hk'. subst k'.
    apply list_elem_of_fmap in Hin as ([k' g] & [= <- _] & Hin).
    apply HG2, list_elem_of_fmap. by exists (k, g).
  - intros k2 _ Hk2. rewrite Hfix in Hk2. by apply Honly.
Qed.

Lemma untagged_merges_witness :
  ∃ v, Wikiparser.sanitize_item Sample.env CUntagged "description"
         "Main street 5, open daily until late" = Ok ("description", v) ∧
       ({[ "subtype" := "sight"; "name" := "'''The Pub'''"; "type" := "see";
           "description" := "Main street 5, open daily until late." ]}
        : gmap string string) !! "description" = Some v.
Proof.
  apply (untagged_merges Sample.env
           "'''The Pub''', Main street 5, open daily until late" "english"
           "description").
  - apply NameFacts.sample_squeeze_keeps. simpl. done.
  - unfold Untagged.unique_items. rewrite !elem_of_cons, elem_of_nil.
    by intros [|[|[|[|[|[|]]]]]].
  - done.
  - done.
  - vm_compute. apply list_elem_of_further, list_elem_of_here.
  - vm_compute. reflexivity.
Defined.

(** The [type] and [subtype] of a record of the Untagged extractor are
    those of the category detector, sanitized, whatever labels the
    chunks have. *)
Theorem untagged_type_from_detector (E : Env) (s : string) (lang : language E)
    (d : gmap string string) :
  squeeze_keeps E "type" → squeeze_keeps E "subtype" →
  Untagged.read E s lang = Ok d →
  (∃ v, Wikiparser.sanitize_item E CUntagged "type" (determine_tagtype E s lang).1
        = Ok ("type", v) ∧ d !! "type" = Some v) ∧
  (∃ v, Wikiparser.sanitize_item E CUntagged "subtype" (determine_tagtype E s lang).2
        = Ok ("subtype", v) ∧ d !! "subtype" = Some v).
Proof.
  intros [Ht1 Ht2] [Hs1 Hs2] Hd. unfold Untagged.read in Hd. split.
  - eapply SanitizeFacts.sanitize_lookup in Hd as (v & Hv & Hdv).
    + exists v. rewrite Ht1 in *. done.
    + rewrite lookup_insert_ne by done. apply lookup_insert_eq.
    + intros k2 _ Hk2. rewrite Ht1 in Hk2. by apply Ht2.
  - eapply SanitizeFacts.sanitize_lookup in Hd as (v & Hv & Hdv).
    + exists v. rewrite Hs1 in *. done.
    + apply lookup_insert_eq.
    + intros k2 _ Hk2. rewrite Hs1 in Hk2. by apply Hs2.
Qed.

Lemma untagged_type_from_detector_witness :
  (∃ v, Wikiparser.sanitize_item Sample.env CUntagged "type" "see" = Ok ("type", v) ∧
        ({[ "subtype" := "sight"; "name" := "'''The Pub'''"; "type" := "see";
            "description" := "Main street 5, open daily until late." ]}
         : gmap string string) !! "type" = Some v) ∧
  (∃ v, Wikiparser.sanitize_item Sample.env CUntagged "subtype" "sight"
        = Ok ("subtype", v) ∧
        ({[ "subtype" := "sight"; "name" := "'''The Pub'''"; "type" := "see";
            "description" := "Main street 5, open daily until late." ]}
         : gmap string string) !! "subtype" = Some v).
Proof.
  apply (untagged_type_from_detector Sample.env
           "'''The Pub''', Main street 5, open daily until late" "english").
  - apply NameFacts.sample_squeeze_keeps. simpl. done.
  - apply NameFacts.sample_squeeze_keeps. simpl. done.
  - vm_compute. reflexivity.
Defined.


(** * Further properties of the tag dialect and of the output *)

(** The Tag serializer succeeds on the records that have a [type] and
    no area code (or an empty one).  Without [type] it raises
    [KeyError]; with an area code it raises [AttributeError]. *)
Theorem tostring_outcome (E : Env) (d : gmap string string) (lang : language E) :
  match Tag.tostring E d lang with
  | Ok _ => is_Some (d !! "type") ∧ default "" (d !! "intl-area-code") = ""
  | Raise e =>
      (d !! "type" = None ∧ e = KeyError "type") ∨
      (is_Some (d !! "type") ∧ default "" (d !! "intl-area-code") ≠ "" ∧
       e = AttributeError "number_fields")
  end.
Proof.
  unfold Tag.tostring, Tag.tostring_record.
  destruct (d !! "type") as [ty|]; [|by left].
  rewrite lookup_insert_ne by done.
  destruct (d !! "intl-area-code") as [code|]; simpl; [|by eauto].
  destruct code; simpl; [by eauto|]. right. by eauto.
Qed.

Lemma sanitize_raise_kind (E : Env) (cls : klass) (d : gmap string string) (e : exn) :
  Wikiparser.sanitize E cls d = Raise e → e = IndexError ∨ e = TypeError.
Proof.
  unfold Wikiparser.sanitize. destruct (mapM _ _) as [|e'] eqn:Hm; [done|].
  simpl. intros [= ->]. apply ResFacts.mapM_raise in Hm as ([k v] & _ & He).
  by eapply RaiseFacts.sanitize_item_raise.
Qed.

(** [Tag.read] raises [KeyError] for [name] exactly on an element that
    has text and no [name] attribute. *)
Theorem tag_read_missing_name (E : Env) (s : string) (lang : language E) :
  Tag.read E s lang = Raise (KeyError "name") ↔
  ∃ t txt, Tag.root E s = Ok t ∧ text t = Some txt ∧ txt ≠ "" ∧
           ("name" ∉ (items t).*1).
Proof.
  unfold Tag.read. split.
  - destruct (Tag.root E s) as [t|e] eqn:Hroot; simpl.
    2:{ intros [= ->]. unfold Tag.root in Hroot.
        destruct (bool_decide _); [|done]. by destruct (children _). }
    destruct (text t) as [txt|] eqn:Htxt; simpl.
    2:{ intros H%sanitize_raise_kind. by destruct H. }
    destruct (Py.is_empty txt) eqn:Hemp; simpl.
    { intros H%sanitize_raise_kind. by destruct H. }
    assert (<["description":=txt]> (<["type":=tag t]> (dict (items t))) !! "name"
            = dict (items t) !! "name") as ->.
    { rewrite lookup_insert_ne by done. by rewrite lookup_insert_ne. }
    destruct (dict (items t) !! "name") as [name|] eqn:Hn; simpl.
    { intros H%sanitize_raise_kind. by destruct H. }
    intros _. exists t, txt. split; [done|]. split; [done|].
    split; [by apply PyFacts.is_empty_false|].
    intros ([k v] & Hk & Hin)%list_elem_of_fmap. simpl in Hk. subst k.
    apply ResFacts.dict_lookup_is_Some in Hin.
    rewrite Hn in Hin. by destruct Hin.
  - intros (t & txt & -> & Htxt & Hne & Hno). simpl. rewrite Htxt.
    rewrite (proj2 (PyFacts.is_empty_false txt) Hne).
    assert (<["description":=txt]> (<["type":=tag t]> (dict (items t))) !! "name"
            = dict (items t) !! "name") as ->.
    { rewrite lookup_insert_ne by done. by rewrite lookup_insert_ne. }
    by rewrite (ResFacts.dict_lookup_None _ _ Hno).
Qed.

Lemma tag_read_missing_name_witness :
  Tag.read Sample.env
    ("<eat alt=" +:+ Py.dq +:+ "The Pub" +:+ Py.dq +:+ ">good food</eat>") "english"
  = Raise (KeyError "name").
Proof.
  apply tag_read_missing_name.
  exists (Element "eat" [("alt", "The Pub")] (Some "good food") []), "good food".
  split; [vm_compute; reflexivity|]. split; [done|]. split; [done|].
  simpl. rewrite elem_of_cons, elem_of_nil. by intros [|].
Defined.


(** * What the patterns cannot match *)

Module RegexFacts.
Import PyFacts RuleFacts.

Lemma strict_angle : strict_char "<".
Proof.
  intros [[] ? ?] [[] [] [] [] [] [] [] []]; cbv; intros H;
    first [reflexivity | discriminate H].
Qed.

Lemma strict_brace : strict_char "{".
Proof.
  intros [[] ? ?] [[] [] [] [] [] [] [] []]; cbv; intros H;
    first [reflexivity | discriminate H].
Qed.

Lemma strict_quote : strict_char "'".
Proof.
  intros [[] ? ?] [[] [] [] [] [] [] [] []]; cbv; intros H;
    first [reflexivity | discriminate H].
Qed.

Lemma step_rest (p q : Re.pos) (ok : ascii → bool) :
  Re.step p ok = Some q → ∃ b, Re.rest p = String b (Re.rest q) ∧ ok b = true.
Proof.
  unfold Re.step. destruct (Re.rest p) as [|b r]; [done|].
  destruct (ok b) eqn:Hb; [|done]. intros [= <-]. by exists b.
Qed.

Lemma eat_rest (f : Re.flags) (s : string) (p q : Re.pos) :
  Re.eat f s p = Some q → ∃ t, Re.rest p = t +:+ Re.rest q.
Proof.
  revert p. induction s as [|c s IH]; intros p; simpl.
  - intros [= <-]. by exists "".
  - destruct (Re.step p _) as [p'|] eqn:Hs; [|done].
    intros (t & Ht)%IH. apply step_rest in Hs as (b & Hb & _).
    exists (String b t). by rewrite Hb, Ht.
Qed.

Lemma has_char_app (c : ascii) (s t : string) :
  has_char c (s +:+ t) = has_char c s || has_char c t.
Proof.
  induction s as [|x s IH]; [done|]. rewrite append_cons. simpl.
  by rewrite IH, orb_assoc.
Qed.

Section Free.
Context {A : Type} (f : Re.flags) (c : ascii).
Hypothesis c_strict : strict_char c.

(** A pattern that needs [c] matches nowhere in a text without [c]; any
    other pattern can only pass on to what follows it. *)
Lemma run_free (r : Re.regex) :
  ∀ (p : Re.pos) (k : Re.pos → option A),
    has_char c (Re.rest p) = false →
    needs c r = true ∨ (∀ q, has_char c (Re.rest q) = false → k q = None) →
    Re.run f r p k = None.
Proof.
  induction r as [|a| | | |r1 IH1 r2 IH2|r1 IH1 r2 IH2|g lo hi r' IH|n r' IH|n| |];
    intros p k Hp Hor; cbn [Re.run needs] in *;
    try (destruct Hor as [Hn|Hk]; [done|]).
  - by apply Hk.
  - destruct (Re.step p _) as [q|] eqn:Hs; [|done].
    apply step_rest in Hs as (b & Hb & Hok). rewrite Hb in Hp. simpl in Hp.
    apply orb_false_elim in Hp as [Hbc Hq].
    destruct Hor as [Hn|Hk]; [|by apply Hk].
    apply eqb_true in Hn as ->. apply c_strict in Hok as ->.
    by rewrite Ascii.eqb_refl in Hbc.
  - destruct (Re.step p _) as [q|] eqn:Hs; [|done].
    apply step_rest in Hs as (b & Hb & _). rewrite Hb in Hp. simpl in Hp.
    apply orb_false_elim in Hp as [_ Hq]. by apply Hk.
  - destruct (Re.step p _) as [q|] eqn:Hs; [|done].
    apply step_rest in Hs as (b & Hb & _). rewrite Hb in Hp. simpl in Hp.
    apply orb_false_elim in Hp as [_ Hq]. by apply Hk.
  - destruct (Re.step p _) as [q|] eqn:Hs; [|done].
    apply step_rest in Hs as (b & Hb & _). rewrite Hb in Hp. simpl in Hp.
    apply orb_false_elim in Hp as [_ Hq]. by apply Hk.
  - destruct (needs c r1) eqn:H1; [by apply IH1; auto|].
    apply IH1; [done|]. right. intros q Hq. apply IH2; [done|].
    destruct Hor as [Hn|Hk]; [by left|by right].
  - assert (needs c r1 = true ∧ needs c r2 = true ∨
            (∀ q, has_char c (Re.rest q) = false → k q = None)) as Hor'.
    { destruct Hor as [Hn%andb_prop|Hk]; auto. }
    rewrite IH1 by (destruct Hor' as [[? ?]|?]; auto).
    apply IH2; [done|]. destruct Hor' as [[? ?]|?]; auto.
  - destruct Hor as [[Hlo Hn]%andb_prop|Hk].
    + apply Nat.ltb_lt in Hlo.
      assert ((lo <=? 0) = false) as Hz by (apply Nat.leb_gt; lia).
      destruct (String.length (Re.rest p) + lo) as [|fuel]; [by rewrite Hz|].
      rewrite Hz. rewrite (IH p) by auto.
      by destruct g, (Re.within 0 hi).
    + generalize (String.length (Re.rest p) + lo) as fuel.
      generalize 0 as cnt. intros cnt fuel. revert cnt p Hp.
      induction fuel as [|fuel IHf]; intros cnt p Hp.
      * rewrite (Hk p Hp). by destruct (lo <=? cnt).
      * rewrite (Hk p Hp).
        rewrite (IH p); [by destruct g, (Re.within cnt hi), (lo <=? cnt)|done|].
        right. intros q Hq. destruct (orb _ _); [|done]. by apply IHf.
  - apply IH; [done|]. destruct Hor as [Hn|Hk]; [by left|].
    right. intros q Hq. by apply Hk.
  - destruct (Re.group n _) as [s|]; [|done].
    destruct (Re.eat f s p) as [q|] eqn:He; [|done].
    apply eat_rest in He as [t Ht]. rewrite Ht, has_char_app in Hp.
    apply orb_false_elim in Hp as [_ Hq]. by apply Hk.
  - destruct (Re.at_bol f p); [by apply Hk|done].
  - destruct (Re.at_eol f p); [by apply Hk|done].
Qed.

End Free.

Lemma eat_length (f : Re.flags) (s : string) (p q : Re.pos) :
  Re.eat f s p = Some q → String.length (Re.rest q) ≤ String.length (Re.rest p).
Proof.
  revert p. induction s as [|c s IH]; intros p; simpl.
  - by intros [= <-].
  - destruct (Re.step p _) as [p'|] eqn:Hs; [|done].
    intros Hq%IH. apply step_rest in Hs as (b & Hb & _).
    rewrite Hb. simpl. lia.
Qed.

Section Short.
Context {A : Type} (f : Re.flags).

(** A pattern matches no text shorter than its least length. *)
Lemma run_short (r : Re.regex) :
  ∀ (p : Re.pos) (k : Re.pos → option A) (n : nat),
    (∀ q, String.length (Re.rest q) < n → k q = None) →
    String.length (Re.rest p) < min_len r + n →
    Re.run f r p k = None.
Proof.
  assert (∀ (p : Re.pos) (k : Re.pos → option A) (n : nat) (ok : ascii → bool),
            (∀ q, String.length (Re.rest q) < n → k q = None) →
            String.length (Re.rest p) < 1 + n →
            match Re.step p ok with Some p' => k p' | None => None end = None)
    as Hone.
  { intros p k n ok Hk Hp. destruct (Re.step p ok) as [q|] eqn:Hs; [|done].
    apply step_rest in Hs as (b & Hb & _). rewrite Hb in Hp. simpl in Hp.
    apply Hk. lia. }
  induction r as [|a| | | |r1 IH1 r2 IH2|r1 IH1 r2 IH2|g lo hi r' IH|m r' IH|m| |];
    intros p k n Hk Hp; cbn [Re.run min_len] in *;
    try (by eapply Hone).
  - by apply Hk.
  - apply (IH1 _ _ (min_len r2 + n)); [|lia].
    intros q Hq. by apply (IH2 _ _ n).
  - rewrite (IH1 _ _ n) by (done || lia). apply (IH2 _ _ n); [done|lia].
  - assert (∀ fuel cnt p,
              String.length (Re.rest p) < (lo - cnt) * min_len r' + n →
              (fix loop (fuel cnt : nat) (p : Re.pos) {struct fuel} : option A :=
                 match fuel with
                 | 0 => if lo <=? cnt then k p else None
                 | S fuel' =>
                     if g
                     then
                      match
                        (if Re.within cnt hi
                         then
                          Re.run f r' p
                            (λ p',
                               if (String.length (Re.rest p') <? String.length (Re.rest p))
                                  || (cnt <? lo)
                               then loop fuel' (S cnt) p'
                               else None)
                         else None)
                      with
                      | Some a => Some a
                      | None => if lo <=? cnt then k p else None
                      end
                     else
                      match (if lo <=? cnt then k p else None) with
                      | Some a => Some a
                      | None =>
                          if Re.within cnt hi
                          then
                           Re.run f r' p
                             (λ p',
                                if (String.length (Re.rest p') <? String.length (Re.rest p))
                                   || (cnt <? lo)
                                then loop fuel' (S cnt) p'
                                else None)
                          else None
                      end
                 end) fuel cnt p = None) as Hloop.
    { induction fuel as [|fuel IHf]; intros cnt q Hq.
      - destruct (lo <=? cnt) eqn:Hc; [|done].
        apply Nat.leb_le in Hc. apply Hk.
        replace (lo - cnt) with 0 in Hq by lia. simpl in Hq. lia.
      - assert ((if lo <=? cnt then k q else None) = None) as Hstop.
        { destruct (lo <=? cnt) eqn:Hc; [|done].
          apply Nat.leb_le in Hc. apply Hk.
          replace (lo - cnt) with 0 in Hq by lia. simpl in Hq. lia. }
        rewrite Hstop.
        rewrite (IH q _ ((lo - S cnt) * min_len r' + n)).
        + by destruct g, (Re.within cnt hi).
        + intros q' Hq'. destruct (orb _ _); [|done]. by apply IHf.
        + destruct (decide (cnt < lo)) as [Hlt|Hge].
          * replace (lo - cnt) with (S (lo - S cnt)) in Hq by lia.
            simpl in Hq. lia.
          * replace (lo - cnt) with 0 in Hq by lia. simpl in Hq. lia. }
    apply Hloop. rewrite Nat.sub_0_r. exact Hp.
  - apply (IH _ _ n); [|done]. intros q Hq. by apply Hk.
  - destruct (Re.group m _) as [s|]; [|done].
    destruct (Re.eat f s p) as [q|] eqn:He; [|done].
    apply eat_length in He. apply Hk. lia.
  - destruct (Re.at_bol f p); [|done]. apply Hk. lia.
  - destruct (Re.at_eol f p); [|done]. apply Hk. lia.
Qed.

End Short.

Lemma match_at_free (f : Re.flags) (c : ascii) (r : Re.regex) (b : option ascii)
    (s : string) :
  strict_char c → needs c r = true → has_char c s = false →
  Re.match_at f r b s = None.
Proof.
  intros Hc Hn Hs. unfold Re.match_at. apply (run_free f c Hc); [done|by left].
Qed.

Lemma match_at_short (f : Re.flags) (r : Re.regex) (b : option ascii) (s : string) :
  String.length s < min_len r → Re.match_at f r b s = None.
Proof.
  intros Hs. unfold Re.match_at. apply (run_short f r _ _ 0); [|simpl; lia].
  intros q Hq. lia.
Qed.

(** Where no suffix of the text is matched, nothing is found. *)
Lemma scan_nil (f : Re.flags) (r : Re.regex) (P : string → Prop) :
  (∀ c s, P (String c s) → P s) →
  (∀ b s, P s → Re.match_at f r b s = None) →
  ∀ s, P s → ∀ skip b, Re.scan f r skip b s = [].
Proof.
  intros Htl Hm. induction s as [|c s IH]; intros Hs skip b.
  - destruct skip; [|done]. cbn [Re.scan]. by rewrite Hm.
  - destruct skip as [|skip]; cbn [Re.scan].
    + rewrite Hm by done. apply IH. by eapply Htl.
    + apply IH. by eapply Htl.
Qed.

Lemma finditer_free (f : Re.flags) (c : ascii) (r : Re.regex) (s : string) :
  strict_char c → needs c r = true → has_char c s = false →
  Re.finditer f r s = [].
Proof.
  intros Hc Hn Hs. unfold Re.finditer.
  apply (scan_nil f r (λ s, has_char c s = false)); [| |done].
  - intros x t. simpl. by intros [_ ?]%orb_false_elim.
  - intros b t Ht. by apply (match_at_free f c).
Qed.

Lemma finditer_short (f : Re.flags) (r : Re.regex) (s : string) :
  String.length s < min_len r → Re.finditer f r s = [].
Proof.
  intros Hs. unfold Re.finditer.
  apply (scan_nil f r (λ s, String.length s < min_len r)); [| |done].
  - intros x t. simpl. lia.
  - intros b t Ht. by apply match_at_short.
Qed.

(** The pieces of a split hold no character the text does not hold, and
    are no longer than it. *)
Lemma drop_free (c : ascii) (n : nat) (s : string) :
  has_char c s = false → has_char c (Py.drop n s) = false.
Proof.
  revert s. induction n as [|n IH]; intros [|x s]; simpl; try done.
  intros [_ ?]%orb_false_elim. by apply IH.
Qed.

Lemma drop_length (n : nat) (s : string) :
  String.length (Py.drop n s) ≤ String.length s.
Proof.
  revert s. induction n as [|n IH]; intros [|x s]; simpl; try lia.
  specialize (IH s). lia.
Qed.

Lemma split_once_pieces (c : ascii) (sep s a b : string) :
  Py.split_once sep s = Some (a, b) →
  (has_char c s = false → has_char c a = false ∧ has_char c b = false) ∧
  String.length a ≤ String.length s ∧ String.length b ≤ String.length s.
Proof.
  revert a b. induction s as [|x s IH]; intros a b.
  - cbn [Py.split_once]. destruct (Py.startswith sep "") eqn:Hp; [|done].
    intros [= <- <-]. split_and!; [|simpl; lia|apply drop_length].
    intros Hs. split; [done|]. by apply drop_free.
  - cbn [Py.split_once]. destruct (Py.startswith sep (String x s)) eqn:Hp.
    + intros [= <- <-]. split_and!; [|simpl; lia|apply drop_length].
      intros Hs. split; [done|]. by apply drop_free.
    + destruct (Py.split_once sep s) as [[a' b']|] eqn:Ho; [|done].
      intros [= <- <-]. destruct (IH a' b' eq_refl) as (Hf & Ha & Hb).
      split_and!; [|simpl; lia|simpl; lia].
      simpl. intros [Hx Hs]%orb_false_elim. destruct (Hf Hs) as [? ?].
      by rewrite Hx.
Qed.

Lemma split_fuel_pieces (c : ascii) (sep : string) (n : nat) (s : string) :
  Forall (λ x, (has_char c s = false → has_char c x = false) ∧
               String.length x ≤ String.length s)
         (Py.split_fuel n sep s).
Proof.
  revert s. induction n as [|n IH]; intros s; cbn [Py.split_fuel].
  - by repeat constructor.
  - destruct (Py.split_once sep s) as [[a b]|] eqn:Ho; [|by repeat constructor].
    apply (split_once_pieces c) in Ho as (Hf & Ha & Hb).
    constructor; [split; [intros Hs; by destruct (Hf Hs)|done]|].
    eapply Forall_impl; [apply IH|]. intros x [Hx Hl]. split; [|lia].
    intros Hs. apply Hx. by destruct (Hf Hs).
Qed.

Lemma entry_lines_pieces (c : ascii) (s : string) :
  Forall (λ x, (has_char c s = false → has_char c x = false) ∧
               String.length x ≤ String.length s)
         (entry_lines s).
Proof. apply split_fuel_pieces. Qed.

(** Extractors that find nothing on every line find nothing at all. *)
Lemma concat_mapM_nil {A B : Type} (f : A → res (list B)) (l : list A) :
  Forall (λ x, f x = Ok []) l → @concat _ <$> mapM f l = Ok [].
Proof.
  induction 1 as [|x l Hx Hl IH]; [done|].
  cbn. rewrite Hx. cbn.
  destruct (mapM f l) as [ys|e] eqn:Hm; [|done].
  cbn in IH |- *. by injection IH as ->.
Qed.

Section WithEnv.
Context (E : Env).

Lemma tag_parse_free (line : string) (lang : language E) :
  has_char "<" line = false → Tag.parse E line lang = Ok [].
Proof.
  intros Hs. unfold Tag.parse.
  by rewrite (finditer_free _ "<" Tag.search _ strict_angle eq_refl Hs).
Qed.

Lemma vcard_parse_free (line : string) (lang : language E) :
  has_char "{" line = false → Vcard.parse E line lang = Ok [].
Proof.
  intros Hs. unfold Vcard.parse.
  by rewrite (finditer_free _ "{" Vcard.search _ strict_brace eq_refl Hs).
Qed.

Lemma untagged_parse_free (line : string) (lang : language E) :
  has_char "'" line = false → Untagged.parse E line lang true = Ok [].
Proof.
  intros Hs. unfold Untagged.parse.
  by rewrite (finditer_free _ "'" Untagged.search _ strict_quote eq_refl Hs).
Qed.

Lemma untagged_parse_short (line : string) (lang : language E) (restrictive : bool) :
  String.length line < (if restrictive then 30 else 24) →
  Untagged.parse E line lang restrictive = Ok [].
Proof.
  intros Hs. unfold Untagged.parse.
  rewrite finditer_short; [done|]. by destruct restrictive.
Qed.

End WithEnv.

End RegexFacts.

(** ** What the extractors leave alone *)

(** Each strict extractor looks only at lines that hold its opening mark:
    a line without [<] yields no tag record, a line without an opening
    brace no card record, and a line without an apostrophe no record of
    the restrictive heuristic extractor; none of them fails there. *)
Theorem extractors_need_marker (E : Env) (line : string) (lang : language E) :
  (has_char "<" line = false → Tag.parse E line lang = Ok []) ∧
  (has_char "{" line = false → Vcard.parse E line lang = Ok []) ∧
  (has_char "'" line = false → Untagged.parse E line lang true = Ok []).
Proof.
  split_and!.
  - apply RegexFacts.tag_parse_free.
  - apply RegexFacts.vcard_parse_free.
  - apply RegexFacts.untagged_parse_free.
Qed.

Lemma extractors_need_marker_witness :
  let line := "* The Pub, 12 Main Street, open daily" in
  Tag.parse Sample.env line "english" = Ok [] ∧
  Vcard.parse Sample.env line "english" = Ok [] ∧
  Untagged.parse Sample.env line "english" true = Ok [].
Proof.
  intros line.
  destruct (extractors_need_marker Sample.env line "english") as (HT & HV & HU).
  split_and!; [apply HT|apply HV|apply HU]; reflexivity.
Defined.

(** The heuristic extractor finds nothing in a line shorter than its
    pattern asks for: 30 characters when restrictive (two bold marks,
    a name of three, a delimiter and twenty more), 24 when generous. *)
Theorem untagged_min_length (E : Env) (line : string) (lang : language E)
    (restrictive : bool) :
  String.length line < (if restrictive then 30 else 24) →
  Untagged.parse E line lang restrictive = Ok [].
Proof. apply RegexFacts.untagged_parse_short. Qed.

Lemma untagged_min_length_witness :
  Untagged.parse Sample.env "'''The Pub''', Main Street" "english" true = Ok [] ∧
  Untagged.parse Sample.env "The Pub, 12 Main Street" "english" false = Ok [].
Proof.
  split.
  - apply (untagged_min_length Sample.env _ "english" true). simpl. lia.
  - apply (untagged_min_length Sample.env _ "english" false). simpl. lia.
Defined.

Lemma has_char_star (c : ascii) (s : string) :
  Ascii.eqb "*" c = false → has_char c ("*" +:+ s) = has_char c s.
Proof.
  intros Hc. change ("*" +:+ s) with (String "*" s).
  cbn [has_char]. by rewrite Hc.
Qed.

(** A text with no [<], no opening brace and no apostrophe gives the
    first loop nothing to find, on any line and without an error, so the
    records of [parse_wikicode] are those of the generous second loop. *)
Theorem plain_text_falls_back (E : Env) (input_str : string) (lang : language E) :
  has_char "<" input_str = false →
  has_char "{" input_str = false →
  has_char "'" input_str = false →
  strict_pass E input_str lang = Ok [] ∧
  extract E input_str lang = generous_pass E input_str lang.
Proof.
  intros Ha Hb Hq.
  assert (strict_pass E input_str lang = Ok []) as Hs.
  { unfold strict_pass. apply RegexFacts.concat_mapM_nil.
    pose proof (RegexFacts.entry_lines_pieces "<" input_str) as H1.
    pose proof (RegexFacts.entry_lines_pieces "{" input_str) as H2.
    pose proof (RegexFacts.entry_lines_pieces "'" input_str) as H3.
    rewrite Forall_forall in H1, H2, H3. apply Forall_forall. intros x Hx.
    destruct (H1 x Hx) as [Hx1 _], (H2 x Hx) as [Hx2 _], (H3 x Hx) as [Hx3 _].
    rewrite RegexFacts.tag_parse_free by (rewrite has_char_star; auto).
    rewrite RegexFacts.vcard_parse_free by (rewrite has_char_star; auto).
    rewrite RegexFacts.untagged_parse_free by (rewrite has_char_star; auto).
    done. }
  split; [done|]. unfold extract. by rewrite Hs.
Qed.

Lemma plain_text_falls_back_witness :
  let s := "The Pub, 12 Main Street, open daily from noon" in
  strict_pass Sample.env s "english" = Ok [] ∧
  extract Sample.env s "english" = generous_pass Sample.env s "english".
Proof.
  intros s. apply (plain_text_falls_back Sample.env s "english"); reflexivity.
Defined.

(** A text of fewer than 24 characters with no [<] and no opening brace
    holds no entry: for each of the four output formats [parse_wikicode]
    returns the empty list, whatever the collaborators do with longer
    texts. *)
Theorem short_text_no_entry (E : Env) (input_str outputformat language : string) :
  has_char "<" (html_decode E input_str) = false →
  has_char "{" (html_decode E input_str) = false →
  String.length (html_decode E input_str) < 24 →
  (outputformat ∈ formats) →
  parse_wikicode E input_str outputformat language =
    Ok (if bool_decide (outputformat = "raw") then Records [] else Strings []).
Proof.
  intros Ha Hb Hl Hf. unfold parse_wikicode.
  set (s := html_decode E input_str) in *.
  set (lang := resolve_language E language).
  pose proof (RegexFacts.entry_lines_pieces "<" s) as H1.
  pose proof (RegexFacts.entry_lines_pieces "{" s) as H2.
  rewrite Forall_forall in H1, H2.
  assert (strict_pass E s lang = Ok []) as Hs.
  { unfold strict_pass. apply RegexFacts.concat_mapM_nil.
    apply Forall_forall. intros x Hx.
    destruct (H1 x Hx) as [Hx1 Hlen], (H2 x Hx) as [Hx2 _].
    rewrite RegexFacts.tag_parse_free by (rewrite has_char_star; auto).
    rewrite RegexFacts.vcard_parse_free by (rewrite has_char_star; auto).
    rewrite (RegexFacts.untagged_parse_short E _ lang true); [done|].
    change ("*" +:+ x) with (String "*" x). simpl. lia. }
  assert (generous_pass E s lang = Ok []) as Hg.
  { unfold generous_pass. apply RegexFacts.concat_mapM_nil.
    apply Forall_forall. intros x Hx. destruct (H1 x Hx) as [_ Hlen].
    apply RegexFacts.untagged_parse_short. lia. }
  unfold extract. rewrite Hs. cbn. rewrite Hg. cbn.
  unfold formats in Hf. rewrite !elem_of_cons, elem_of_nil in Hf.
  destruct Hf as [-> | [-> | [-> | [-> | []]]]]; reflexivity.
Qed.

Lemma short_text_no_entry_witness :
  parse_wikicode Sample.env "The Pub, Main Street" "vcard" "english" = Ok (Strings []).
Proof.
  apply (short_text_no_entry Sample.env "The Pub, Main Street" "vcard" "english").
  - reflexivity.
  - reflexivity.
  - simpl. lia.
  - unfold formats. rewrite !elem_of_cons. auto.
Defined.


(** ** The unique labels of the heuristic extractor *)

(** Of the chunks that carry one of the unique labels ([name],
    [address], [phone], [fax], [email], [url]) only the first in the
    text is kept: the record holds its sanitized value, and the later
    chunks of that label are dropped. *)
Theorem untagged_unique_first (E : Env) (s : string) (lang : language E) (k : string)
    (d : gmap string string) :
  squeeze_keeps E k →
  (k ∈ Untagged.unique_items) →
  (k ∈ (Untagged.labelled E s lang).*1) →
  Untagged.read E s lang = Ok d →
  ∃ v, Wikiparser.sanitize_item E CUntagged k
         (default "" (head ((filter (λ p, p.1 = k) (Untagged.labelled E s lang)).*2)))
       = Ok (k, v) ∧
       d !! k = Some v.
Proof.
  intros [Hfix Honly] Hu Hk Hd. unfold Untagged.read in Hd.
  assert (k ≠ "type" ∧ k ≠ "subtype") as [Ht Hs].
  { unfold Untagged.unique_items in Hu. rewrite !elem_of_cons, elem_of_nil in Hu.
    destruct Hu as [-> | [-> | [-> | [-> | [-> | [-> | []]]]]]]; done. }
  eapply SanitizeFacts.sanitize_lookup in Hd as (v & Hv & Hdv).
  - exists v. rewrite Hfix in *. done.
  - rewrite !lookup_insert_ne by done. unfold Untagged.grouped.
    destruct (GroupMore.groupby_sorted_group k _ Hk) as (G1 & G2 & -> & HG2).
    rewrite fmap_app, fmap_cons. simpl.
    rewrite bool_decide_eq_true_2 by done.
    apply ResFacts.dict_last_wins.
    intros ([k' v'] & Hk' & Hin)%list_elem_of_fmap. simpl in Hk'. subst k'.
    apply list_elem_of_fmap in Hin as ([k' g] & [= <- _] & Hin).
    apply HG2, list_elem_of_fmap. by exists (k, g).
  - intros k2 _ Hk2. rewrite Hfix in Hk2. by apply Honly.
Qed.

Lemma untagged_unique_first_witness :
  ∃ v, Wikiparser.sanitize_item Sample.env CUntagged "url" "http://a.example"
       = Ok ("url", v) ∧
       ({[ "subtype" := "sight"; "url" := "http://a.example";
           "name" := "'''The Pub'''"; "type" := "see";
           "description" := "Fine." ]}
        : gmap string string) !! "url" = Some v.
Proof.
  apply (untagged_unique_first Sample.env
           "'''The Pub''', http://a.example, http://b.example, fine" "english" "url").
  - apply NameFacts.sample_squeeze_keeps. simpl. done.
  - unfold Untagged.unique_items. rewrite !elem_of_cons. auto 10.
  - vm_compute. apply list_elem_of_further, list_elem_of_here.
  - vm_compute. reflexivity.
Defined.

(** ** When the description rule fails *)

Lemma no_text_cons (c : ascii) (d : string) :
  has_text (String c d) = false → c = "'"%char ∧ has_text d = false.
Proof.
  simpl. intros [Hc Hd]%orb_false_elim. split; [|done].
  apply negb_false_iff in Hc. by apply Ascii.eqb_eq in Hc.
Qed.

(** [Wikiparser.description] fails exactly on a value that, once its
    leading [;], [.], [,] and spaces are stripped, is nothing but one
    emphasis marker: two, three or five apostrophes.  The markers are
    removed, nothing is left, and reading the last character raises
    [IndexError]; on every other value the rule returns. *)
Theorem description_raises_iff (s : string) (e : exn) :
  Wikiparser.description s = Raise e ↔
  e = IndexError ∧ (Py.lstrip ";., " s ∈ ["''"; "'''"; "'''''"]).
Proof.
  unfold Wikiparser.description. split.
  - destruct (Py.lstrip ";., " s) as [|c d] eqn:Hd; [done|].
    cbv beta iota zeta delta [Py.is_empty].
    destruct (has_text (String c d)) eqn:Ht.
    + set (d1 := String (Py.upper_char c) d).
      assert (has_text d1 = true) as H1.
      { subst d1. simpl in *. by rewrite DescriptionFacts.upper_char_quote. }
      set (d2 := if Py.count "'''" d1 =? 1 then _ else _).
      assert (has_text d2 = true) as H2.
      { by apply DescriptionFacts.drop_marker_keeps_text. }
      set (d3 := if Py.count "''" d2 =? 1 then _ else _).
      assert (has_text d3 = true) as H3.
      { by apply DescriptionFacts.drop_marker_keeps_text. }
      destruct (Py.last d3) as [l|] eqn:Hl; [by destruct (Py.mem l ".!?")|].
      apply PyFacts.last_None in Hl.
      by apply DescriptionFacts.has_text_nonempty in H3.
    + apply no_text_cons in Ht as [-> Ht].
      destruct d as [|c1 d]; [by vm_compute|].
      apply no_text_cons in Ht as [-> Ht].
      destruct d as [|c2 d].
      { vm_compute. intros [= <-]. split; [done|]. apply list_elem_of_here. }
      apply no_text_cons in Ht as [-> Ht].
      destruct d as [|c3 d].
      { vm_compute. intros [= <-]. split; [done|].
        apply list_elem_of_further, list_elem_of_here. }
      apply no_text_cons in Ht as [-> Ht].
      destruct d as [|c4 d]; [by vm_compute|].
      apply no_text_cons in Ht as [-> Ht].
      destruct d as [|c5 d].
      { vm_compute. intros [= <-]. split; [done|].
        do 2 apply list_elem_of_further. apply list_elem_of_here. }
      apply no_text_cons in Ht as [-> Ht].
      change (Py.upper_char "'") with "'"%char.
      change (Py.count "'''" (String "'" (String "'" (String "'" (String "'"
                (String "'" (String "'" d)))))))
        with (S (S (Py.count "'''" d))).
      cbn [Nat.eqb].
      change (Py.count "''" (String "'" (String "'" (String "'" (String "'"
                (String "'" (String "'" d)))))))
        with (S (S (S (Py.count "''" d)))).
      cbn [Nat.eqb].
      destruct (Py.last _) as [l|] eqn:Hl; [by destruct (Py.mem l ".!?")|].
      by apply PyFacts.last_None in Hl.
  - intros [-> Hs]. rewrite !elem_of_cons, elem_of_nil in Hs.
    destruct Hs as [-> | [-> | [-> | []]]]; reflexivity.
Qed.

(** * Further properties of the card extractor *)

Module CardFacts.
Import PyFacts RuleFacts ResFacts.

Lemma split_once_None_iff (sep s : string) :
  Py.split_once sep s = None ↔ Py.contains sep s = false.
Proof.
  induction s as [|c s IH]; cbn [Py.split_once Py.contains].
  - destruct sep; simpl; split; done.
  - destruct (Py.startswith sep (String c s)); [split; done|].
    destruct (Py.split_once sep s) as [[a b]|].
    + split; [done|]. intros H. apply IH in H. done.
    + split; [|done]. intros _. by apply IH.
Qed.

Lemma split1_cases (sep s : string) :
  (Py.contains sep s = false ∧ Py.split1 sep s = [s]) ∨
  (∃ a b, Py.contains sep s = true ∧ Py.split1 sep s = [a; b]).
Proof.
  unfold Py.split1. destruct (Py.split_once sep s) as [[a b]|] eqn:Ho.
  - right. exists a, b. split; [|done].
    destruct (Py.contains sep s) eqn:Hc; [done|].
    apply split_once_None_iff in Hc. congruence.
  - left. split; [by apply split_once_None_iff|done].
Qed.

Lemma split_once_char_None (a : ascii) (s : string) :
  has_char a s = false → Py.split_once (String a "") s = None.
Proof.
  intros Hs. destruct (Py.split_once _ s) as [[x y]|] eqn:Ho; [|done].
  apply split_once_Some_has in Ho. rewrite Ho in Hs.
  rewrite !RegexFacts.has_char_app in Hs. simpl in Hs.
  rewrite Ascii.eqb_refl in Hs. simpl in Hs.
  by rewrite orb_true_r in Hs.
Qed.

Lemma pair_of_bare (pt : string) :
  Py.contains "=" pt = false → Vcard.pair_of pt = Raise IndexError.
Proof.
  rewrite has_char_contains. intros Hp%split_once_char_None.
  unfold Vcard.pair_of. by rewrite (SplitFacts.split_unfold "=" pt), Hp.
Qed.

Lemma pair_of_fails (pt : string) (e : exn) :
  Vcard.pair_of pt = Raise e → e = IndexError.
Proof.
  unfold Vcard.pair_of. destruct (Py.split "=" pt) as [|p0 [|p1 l]]; congruence.
Qed.

(** Where every failure is the same error, one failing element makes
    the whole pass fail with it. *)
Lemma mapM_raise_uniform {A B} (f : A → res B) (l : list A) (x : A) (e0 : exn) :
  (∀ y e, f y = Raise e → e = e0) →
  x ∈ l → f x = Raise e0 → mapM f l = Raise e0.
Proof.
  intros Hall Hx Hfx. destruct (mapM f l) as [l'|e] eqn:Hm.
  - destruct (mapM_elem _ _ _ x Hm Hx) as (y & Hy & _). congruence.
  - apply mapM_raise in Hm as (z & _ & Hz). by rewrite (Hall z e Hz).
Qed.

End CardFacts.

(** [Vcard.read] fails in three ways only.  A text without the closing
    braces cannot be unpacked into card and trailing text: [ValueError].
    A part of the card after the first bar that has no [=] has no value
    to take: [IndexError].  Any other failure comes from the sanitizing
    pass, as [IndexError] or [TypeError]. *)
Theorem vcard_read_failure (E : Env) (s : string) (lang : language E) :
  (Py.contains "}}" s = false →
   Vcard.read E s lang = Raise (ValueError "need more than 1 value to unpack")) ∧
  (∀ v desc pt,
     Py.split1 "}}" s = [v; desc] →
     (pt ∈ List.tl (Py.split "|" (Py.strip "{},. " v))) →
     Py.contains "=" pt = false →
     Vcard.read E s lang = Raise IndexError) ∧
  (∀ e, Vcard.read E s lang = Raise e →
        (e = ValueError "need more than 1 value to unpack" ∧ Py.contains "}}" s = false) ∨
        e = IndexError ∨ e = TypeError).
Proof.
  split_and!.
  - intros Hc. unfold Vcard.read.
    destruct (CardFacts.split1_cases "}}" s) as [[_ ->]|(a & b & Hc' & _)]; [done|].
    congruence.
  - intros v desc pt Hs Hpt Hbare. unfold Vcard.read. rewrite Hs.
    unfold Vcard.pairs.
    rewrite (CardFacts.mapM_raise_uniform Vcard.pair_of _ pt IndexError); [done| |done|].
    + apply CardFacts.pair_of_fails.
    + by apply CardFacts.pair_of_bare.
  - intros e. unfold Vcard.read.
    destruct (CardFacts.split1_cases "}}" s) as [[Hc ->]|(a & b & Hc & ->)].
    + intros [= <-]. by left.
    + destruct (Vcard.pairs a) as [ps|e'] eqn:Hp.
      * cbn. intros He%sanitize_raise_kind. by right.
      * cbn. intros [= ->]. right. left.
        unfold Vcard.pairs in Hp.
        apply ResFacts.mapM_raise in Hp as (pt & _ & Hpt).
        by apply CardFacts.pair_of_fails in Hpt.
Qed.

Lemma vcard_read_failure_witness :
  Vcard.read Sample.env "{{vcard|name=The Pub" "english"
    = Raise (ValueError "need more than 1 value to unpack") ∧
  Vcard.read Sample.env "{{vcard|name=The Pub|closed}} by the river" "english"
    = Raise IndexError.
Proof.
  split.
  - apply (vcard_read_failure Sample.env "{{vcard|name=The Pub" "english").
    reflexivity.
  - destruct (vcard_read_failure Sample.env
                "{{vcard|name=The Pub|closed}} by the river" "english")
      as (_ & H & _).
    apply (H "{{vcard|name=The Pub|closed" " by the river" "closed").
    + reflexivity.
    + vm_compute. apply list_elem_of_further, list_elem_of_here.
    + reflexivity.
Defined.

(** The description of a card record is the card's own [description]
    field when it has one, and the text that follows the closing braces
    otherwise; either way it is the sanitized value that the record
    holds. *)
Theorem vcard_description (E : Env) (s : string) (lang : language E)
    (v desc : string) (ps : list (string * string)) (d : gmap string string) :
  squeeze_keeps E "description" →
  Py.split1 "}}" s = [v; desc] →
  Vcard.pairs v = Ok ps →
  Vcard.read E s lang = Ok d →
  ∃ val,
    Wikiparser.sanitize_item E CVcard "description"
      (default desc (dict ps !! "description")) = Ok ("description", val) ∧
    d !! "description" = Some val.
Proof.
  intros [Hfix Honly] Hs Hp Hd. unfold Vcard.read in Hd.
  rewrite Hs, Hp in Hd. cbn in Hd.
  eapply SanitizeFacts.sanitize_lookup in Hd as (val & Hv & Hdv).
  - exists val. rewrite Hfix in *. done.
  - destruct (dict ps !! "description") as [x|] eqn:Hx; cbn.
    + destruct (_ && _); [rewrite lookup_insert_ne by done|]; done.
    + destruct (_ && _); [rewrite lookup_insert_ne by done|];
        by rewrite lookup_insert_eq.
  - intros k2 _ Hk2. rewrite Hfix in Hk2. by apply Honly.
Qed.

Lemma vcard_description_witness :
  ∃ val,
    Wikiparser.sanitize_item Sample.env CVcard "description"
      (default " by the river"
         (dict [("name", "The Pub"); ("description", "good food")] !! "description"))
      = Ok ("description", val) ∧
    ({[ "subtype" := "sight"; "name" := "The Pub"; "description" := "Good food." ]}
     : gmap string string) !! "description" = Some val.
Proof.
  apply (vcard_description Sample.env
           "{{vcard|name=The Pub|description=good food}} by the river" "english"
           "{{vcard|name=The Pub|description=good food").
  - apply NameFacts.sample_squeeze_keeps. simpl. done.
  - reflexivity.
  - reflexivity.
  - vm_compute. reflexivity.
Defined.
